(** * Evidence assembly and resumable resolution: a shallow embedding

    The development follows [src/application/services/disambiguation.py],
    [src/application/services/enrich_links.py],
    [src/application/services/benchmarking.py] and
    [src/application/use_cases/make_inferences.py].

    Conventions.
    - Python [str] values are Rocq strings whose characters are read as the
      code points 0..255.
    - Python [int] values are [Z]; lengths are [nat] and injected into [Z].
    - A Python [dict] whose iteration order is observed is an association
      list in insertion order; a Python [set] is a [gset].
    - A function that may raise returns a [result]; logging is modelled
      where a property speaks of it, as log lines returned next to the value;
      calls that leave the process (network, sleeping, file writes) are
      recorded as a trace of events.
    - Libraries outside the repository (the tokenizer, [json], [requests],
      the browser engine, the template engine) are variables of the section
      [Program]; their results are what the Python code observes.  The
      tokenizer is total: a text it would refuse is outside the model. *)

From Stdlib Require Import ZArith QArith Ascii String List Lia Bool.
From stdpp Require Import base option list strings gmap pretty.

Local Open Scope Z_scope.
Set Warnings "-register-all".

(** ** Exceptions and results *)

Inductive exn : Type :=
| ValueError (msg : string)
| TypeError (msg : string)
| KeyError (key : string)
| IndexError (msg : string)
| AttributeError (msg : string)
| JSONDecodeError (msg : string)
| RequestException (msg : string)
| OSError (msg : string)
| StopIteration
| Exception (msg : string)
| RetryError (last : exn).

Inductive result (A : Type) : Type :=
| Ok (a : A)
| Raise (e : exn).

Arguments Ok {A} a.
Arguments Raise {A} e.

#[global] Instance result_ret : MRet result := fun _ a => Ok a.

#[global] Instance result_bind : MBind result := fun _ _ f r =>
  match r with
  | Ok a => f a
  | Raise e => Raise e
  end.

Definition is_ok {A : Type} (r : result A) : bool :=
  match r with Ok _ => true | Raise _ => false end.

(** ** JSON values as Python sees them after [json.loads] *)

Inductive json : Type :=
| JNull
| JBool (b : bool)
| JNum (q : Q)
| JStr (s : string)
| JArr (items : list json)
| JObj (members : list (string * json)).

(** Python truthiness of a decoded JSON value. *)
Definition truthy (v : json) : bool :=
  match v with
  | JNull => false
  | JBool b => b
  | JNum q => negb (Qeq_bool q 0)
  | JStr s => negb (String.eqb s "")
  | JArr items => match items with [] => false | _ => true end
  | JObj members => match members with [] => false | _ => true end
  end.

(** ** Insertion-ordered dictionaries with string keys *)

Definition dict (V : Type) : Type := list (string * V).

Fixpoint dict_get {V : Type} (k : string) (d : dict V) : option V :=
  match d with
  | [] => None
  | (k', v) :: d' => if String.eqb k k' then Some v else dict_get k d'
  end.

(** [d[k] = v]: an existing key keeps its position, a new key goes last. *)
Fixpoint dict_set {V : Type} (k : string) (v : V) (d : dict V) : dict V :=
  match d with
  | [] => [(k, v)]
  | (k', v') :: d' =>
      if String.eqb k k' then (k, v) :: d' else (k', v') :: dict_set k v d'
  end.

Definition dict_keys {V : Type} (d : dict V) : list string := map fst d.

(** ** Python string operations *)

Definition nl : string := String (ascii_of_nat 10) EmptyString.

(** [str.isspace] on the code points 0..255: 9..13, 28..32, 0x85, 0xA0. *)
Definition is_space (c : ascii) : bool :=
  let n := N_of_ascii c in
  ((9 <=? n) && (n <=? 13) || (28 <=? n) && (n <=? 32)
   || (n =? 133) || (n =? 160))%N.

(** [text.split()]: the maximal runs of non-whitespace characters. *)
Fixpoint split_ws (s : string) : list string :=
  match s with
  | EmptyString => []
  | String c s' =>
      if is_space c then split_ws s'
      else
        match s' with
        | EmptyString => [String c EmptyString]
        | String c' _ =>
            if is_space c' then String c EmptyString :: split_ws s'
            else
              match split_ws s' with
              | w :: ws => String c w :: ws
              | [] => [String c EmptyString]
              end
        end
  end.

(** [sep.join(parts)]. *)
Definition join (sep : string) (parts : list string) : string :=
  String.concat sep parts.

(** A word: a non-empty text without whitespace. *)
Definition not_space (c : ascii) : bool := negb (is_space c).

Fixpoint is_word (w : string) : bool :=
  match w with
  | EmptyString => false
  | String c EmptyString => not_space c
  | String c w' => not_space c && is_word w'
  end.

(** [s.lstrip()], [s.rstrip()] and [s.strip()]. *)
Fixpoint lstrip (s : string) : string :=
  match s with
  | EmptyString => EmptyString
  | String c s' => if is_space c then lstrip s' else s
  end.

Fixpoint rstrip (s : string) : string :=
  match s with
  | EmptyString => EmptyString
  | String c s' =>
      match rstrip s' with
      | EmptyString => if is_space c then EmptyString else String c EmptyString
      | r => String c r
      end
  end.

Definition strip (s : string) : string := rstrip (lstrip s).

(** [s.startswith(p)]; on success the rest of [s] is returned. *)
Fixpoint strip_prefix (p s : string) : option string :=
  match p, s with
  | EmptyString, _ => Some s
  | String a p', String b s' =>
      if Ascii.eqb a b then strip_prefix p' s' else None
  | String _ _, EmptyString => None
  end.

(** [sub in s]. *)
Fixpoint contains (sub s : string) : bool :=
  match strip_prefix sub s with
  | Some _ => true
  | None =>
      match s with
      | EmptyString => false
      | String _ s' => contains sub s'
      end
  end.

(** [s.split(sep)] for a one-character separator. *)
Fixpoint split_char (sep : ascii) (s : string) : list string :=
  match s with
  | EmptyString => [EmptyString]
  | String c s' =>
      if Ascii.eqb c sep then EmptyString :: split_char sep s'
      else
        match split_char sep s' with
        | w :: ws => String c w :: ws
        | [] => [String c EmptyString]
        end
  end.

(** ** Regular expressions as [re] runs them

    A backtracking matcher for the fragment the program uses: literals,
    character classes, sequence, ordered alternation, the greedy option, a
    greedy or lazy star over a character class, and capturing groups.  The
    continuation receives the rest of the text and the groups closed so
    far; the first success in backtracking order is the result, as in
    Python. *)

Inductive regex : Type :=
| RLit (w : string)
| RClass (p : ascii -> bool)
| RSeq (r1 r2 : regex)
| RAlt (r1 r2 : regex)
| ROpt (r : regex)
| RStar (greedy : bool) (p : ascii -> bool)
| RGroup (r : regex).

Fixpoint star_greedy {R : Type} (p : ascii -> bool) (s : string)
    (k : string -> option R) : option R :=
  match s with
  | EmptyString => k s
  | String c s' =>
      if p c then
        match star_greedy p s' k with
        | Some res => Some res
        | None => k s
        end
      else k s
  end.

Fixpoint star_lazy {R : Type} (p : ascii -> bool) (s : string)
    (k : string -> option R) : option R :=
  match k s with
  | Some res => Some res
  | None =>
      match s with
      | EmptyString => None
      | String c s' => if p c then star_lazy p s' k else None
      end
  end.

(** The text consumed between position [s] and the later position [s']. *)
Definition consumed (s s' : string) : string :=
  String.substring 0 (String.length s - String.length s') s.

Fixpoint rmatch (r : regex) (s : string) (caps : list string)
    (k : string -> list string -> option (list string))
    : option (list string) :=
  match r with
  | RLit w =>
      match strip_prefix w s with
      | Some s' => k s' caps
      | None => None
      end
  | RClass p =>
      match s with
      | String c s' => if p c then k s' caps else None
      | EmptyString => None
      end
  | RSeq r1 r2 => rmatch r1 s caps (fun s' caps' => rmatch r2 s' caps' k)
  | RAlt r1 r2 =>
      match rmatch r1 s caps k with
      | Some res => Some res
      | None => rmatch r2 s caps k
      end
  | ROpt r1 =>
      match rmatch r1 s caps k with
      | Some res => Some res
      | None => k s caps
      end
  | RStar true p => star_greedy p s (fun s' => k s' caps)
  | RStar false p => star_lazy p s (fun s' => k s' caps)
  | RGroup r1 =>
      rmatch r1 s caps (fun s' caps' => k s' (caps' ++ [consumed s s']))
  end.

(** [re.match(r, s)]: the groups of a match at the start of [s]. *)
Definition re_match (r : regex) (s : string) : option (list string) :=
  rmatch r s [] (fun _ caps => Some caps).

(** [re.search(r, s)]: the groups of the leftmost match. *)
Fixpoint re_search (r : regex) (s : string) : option (list string) :=
  match re_match r s with
  | Some caps => Some caps
  | None =>
      match s with
      | EmptyString => None
      | String _ s' => re_search r s'
      end
  end.

(** [match.group(1)]. *)
Definition group1 (caps : list string) : string :=
  match caps with
  | g :: _ => g
  | [] => EmptyString
  end.

Definition any_char (c : ascii) : bool := true.

Definition not_slash (c : ascii) : bool := negb (Ascii.eqb c "/"%char).

Definition rseq (rs : list regex) : regex :=
  fold_right RSeq (RLit EmptyString) rs.

Definition rplus (p : ascii -> bool) : regex :=
  RSeq (RClass p) (RStar true p).

(** The fence pattern of [parse_result], with [re.DOTALL]:
    three backquotes, [(?:json|python)?], [\s*], the group [(\{.*?\})],
    [\s*], three backquotes. *)
Definition FENCE_RE : regex :=
  rseq [ RLit "```";
         ROpt (RAlt (RLit "json") (RLit "python"));
         RStar true is_space;
         RGroup (rseq [RLit "{"; RStar false any_char; RLit "}"]);
         RStar true is_space;
         RLit "```" ].

(** The fallback pattern of [parse_result], with [re.DOTALL]:
    [(\{.*\})]. *)
Definition BRACE_RE : regex :=
  RGroup (rseq [RLit "{"; RStar true any_char; RLit "}"]).

(** [https?://gitlab\.com/([^/]+/[^/]+)]. *)
Definition GITLAB_RE : regex :=
  rseq [ RLit "http"; ROpt (RLit "s"); RLit "://gitlab.com/";
         RGroup (rseq [rplus not_slash; RLit "/"; rplus not_slash]) ].

(** [https?://bitbucket.org/([^/]+)/([^/]+)]; its dot is the regex dot. *)
Definition BITBUCKET_RE : regex :=
  rseq [ RLit "http"; ROpt (RLit "s"); RLit "://bitbucket";
         RClass any_char; RLit "org/";
         RGroup (rplus not_slash); RLit "/"; RGroup (rplus not_slash) ].

(** [s.split(sep)] for a non-empty separator text. *)
Fixpoint split_str_go (sep : string) (skip : nat) (s : string) : list string :=
  match s with
  | EmptyString => [EmptyString]
  | String c s' =>
      match skip with
      | S n => split_str_go sep n s'
      | O =>
          match strip_prefix sep s with
          | Some _ =>
              EmptyString :: split_str_go sep (String.length sep - 1) s'
          | None =>
              match split_str_go sep 0 s' with
              | w :: ws => String c w :: ws
              | [] => [String c EmptyString]
              end
          end
      end
  end.

Definition split_str (sep s : string) : list string := split_str_go sep 0 s.

(** [s.replace(a, b)] for one-character [a] and [b]. *)
Fixpoint replace_char (a b : ascii) (s : string) : string :=
  match s with
  | EmptyString => EmptyString
  | String c s' =>
      String (if Ascii.eqb c a then b else c) (replace_char a b s')
  end.

(** [s[:n]]. *)
Definition take_str (n : nat) (s : string) : string := String.substring 0 n s.

(** Every character of a text is in a class. *)
Fixpoint all_chars (p : ascii -> bool) (s : string) : bool :=
  match s with
  | EmptyString => true
  | String c s' => p c && all_chars p s'
  end.

(** The texts an expression can match, with the groups it closes, whatever
    the order in which the matcher tries them. *)
Inductive rmatches : regex -> string -> list string -> Prop :=
| M_lit (w : string) : rmatches (RLit w) w []
| M_class (p : ascii -> bool) (c : ascii) :
    p c = true -> rmatches (RClass p) (String c EmptyString) []
| M_seq (r1 r2 : regex) (w1 w2 : string) (c1 c2 : list string) :
    rmatches r1 w1 c1 -> rmatches r2 w2 c2 ->
    rmatches (RSeq r1 r2) (w1 +:+ w2) (c1 ++ c2)
| M_alt_l (r1 r2 : regex) (w : string) (c : list string) :
    rmatches r1 w c -> rmatches (RAlt r1 r2) w c
| M_alt_r (r1 r2 : regex) (w : string) (c : list string) :
    rmatches r2 w c -> rmatches (RAlt r1 r2) w c
| M_opt_some (r : regex) (w : string) (c : list string) :
    rmatches r w c -> rmatches (ROpt r) w c
| M_opt_none (r : regex) : rmatches (ROpt r) EmptyString []
| M_star (greedy : bool) (p : ascii -> bool) (w : string) :
    all_chars p w = true -> rmatches (RStar greedy p) w []
| M_group (r : regex) (w : string) (c : list string) :
    rmatches r w c -> rmatches (RGroup r) w (c ++ [w]).



(** The text [parse_result] hands to [json.loads], if it finds one. *)
Definition json_candidate (text : string) : option string :=
  match re_search FENCE_RE text with
  | Some m => Some (group1 m)
  | None =>
      match re_search BRACE_RE text with
      | Some m => Some (group1 m)
      | None => None
      end
  end.


(** ** Python item access on decoded JSON *)

(** [v[key]]. *)
Definition py_getitem (v : json) (key : string) : result json :=
  match v with
  | JObj members =>
      match dict_get key members with
      | Some x => Ok x
      | None => Raise (KeyError key)
      end
  | _ => Raise (TypeError "indices must be integers or object is not subscriptable")
  end.

(** [v[0]]. *)
Definition py_getitem0 (v : json) : result json :=
  match v with
  | JArr (x :: _) => Ok x
  | JArr [] => Raise (IndexError "list index out of range")
  | JStr (String c _) => Ok (JStr (String c EmptyString))
  | JStr EmptyString => Raise (IndexError "string index out of range")
  | JObj _ => Raise (KeyError "0")
  | _ => Raise (TypeError "object is not subscriptable")
  end.

(** [v.get(key, default)]. *)
Definition py_get (v : json) (key : string) (default : json) : result json :=
  match v with
  | JObj members =>
      match dict_get key members with
      | Some x => Ok x
      | None => Ok default
      end
  | _ => Raise (AttributeError "object has no attribute 'get'")
  end.

(** [v[key] = x]. *)
Definition py_setitem (v : json) (key : string) (x : json) : result json :=
  match v with
  | JObj members => Ok (JObj (dict_set key x members))
  | _ => Raise (TypeError "object does not support item assignment")
  end.

(** [v.strip()]. *)
Definition py_strip (v : json) : result string :=
  match v with
  | JStr s => Ok (strip s)
  | _ => Raise (AttributeError "object has no attribute 'strip'")
  end.

(** ** Hashable keys

    What [next(iter(entry))] can put into a set: a text, [None], or a
    number.  Python compares [bool], [int] and finite [float] keys by their
    value, so a number key is its reduced fraction. *)

Inductive pykey : Type :=
| KNone
| KNum (num : Z) (den : positive)
| KStr (s : string).

#[global] Instance pykey_eq_dec : EqDecision pykey.
Proof. solve_decision. Defined.

#[global] Instance pykey_countable : Countable pykey.
Proof.
  refine (inj_countable'
            (fun k => match k with
                      | KNone => inl ()
                      | KNum n d => inr (inl (n, d))
                      | KStr s => inr (inr s)
                      end)
            (fun x => match x with
                      | inl _ => KNone
                      | inr (inl (n, d)) => KNum n d
                      | inr (inr s) => KStr s
                      end) _).
  intros []; reflexivity.
Defined.

Definition key_of_number (q : Q) : pykey :=
  let r := Qred q in KNum (Qnum r) (Qden r).

(** [hash(v)] succeeds exactly for the values that are not containers. *)
Definition key_of_json (v : json) : result pykey :=
  match v with
  | JNull => Ok KNone
  | JBool b => Ok (KNum (if b then 1 else 0) 1)
  | JNum q => Ok (key_of_number q)
  | JStr s => Ok (KStr s)
  | JArr _ => Raise (TypeError "unhashable type: 'list'")
  | JObj _ => Raise (TypeError "unhashable type: 'dict'")
  end.

(** [next(iter(entry))], as a key. *)
Definition next_iter_key (entry : json) : result pykey :=
  match entry with
  | JObj ((k, _) :: _) => Ok (KStr k)
  | JArr (x :: _) => key_of_json x
  | JStr (String c _) => Ok (KStr (String c EmptyString))
  | JObj [] | JArr [] | JStr EmptyString => Raise StopIteration
  | _ => Raise (TypeError "object is not iterable")
  end.

(** ** Logs, events and effectful computations *)

Inductive log_line : Type :=
| LogInfo (msg : string)
| LogWarning (msg : string)
| LogError (msg : string).

Inductive event : Type :=
| EvLog (line : log_line)
| EvSleep (seconds : Z)
| EvPost (url : string) (payload : json)
| EvEnrich (url : string)
| EvQuery (client : string) (key : pykey) (messages : json)
| EvWrite (path : string) (mode : string) (text : string).

Record io (A : Type) : Type := IO {
  trace : list event;
  outcome : result A
}.

Arguments IO {A} trace outcome.
Arguments trace {A} _.
Arguments outcome {A} _.

#[global] Instance io_ret : MRet io := fun _ a => IO [] (Ok a).

#[global] Instance io_bind : MBind io := fun _ _ f m =>
  match outcome m with
  | Ok a => IO (trace m ++ trace (f a)) (outcome (f a))
  | Raise e => IO (trace m) (Raise e)
  end.

Definition emit (e : event) : io unit := IO [e] (Ok tt).

Definition lift {A : Type} (r : result A) : io A := IO [] r.

Definition log_warning (msg : string) : io unit := emit (EvLog (LogWarning msg)).
Definition log_info (msg : string) : io unit := emit (EvLog (LogInfo msg)).
Definition log_error (msg : string) : io unit := emit (EvLog (LogError msg)).

(** [for x in xs: body(x)], stopping at the first exception. *)
Fixpoint io_for {A : Type} (xs : list A) (body : A -> io unit) : io unit :=
  match xs with
  | [] => mret tt
  | x :: xs' => body x ≫= fun _ => io_for xs' body
  end.

(** The URLs for which [enrich_link] is called, in call order. *)
Definition enrich_calls (tr : list event) : list string :=
  flat_map (fun ev => match ev with EvEnrich u => [u] | _ => [] end) tr.

(** The keys for which an oracle client is called, in call order. *)
Definition query_keys (tr : list event) : list pykey :=
  flat_map (fun ev => match ev with EvQuery _ k _ => [k] | _ => [] end) tr.

(** Events that only the oracle clients and the file writers produce. *)
Definition is_oracle_event (ev : event) : bool :=
  match ev with
  | EvPost _ _ | EvQuery _ _ _ => true
  | _ => false
  end.

Definition is_query_event (ev : event) : bool :=
  match ev with
  | EvQuery _ _ _ => true
  | _ => false
  end.

(** An event is not an oracle call for a key of the solved set. *)
Definition query_not_solved (solved : gset pykey) (ev : event) : Prop :=
  match ev with
  | EvQuery _ k _ => k ∉ solved
  | _ => True
  end.




Definition is_write_event (ev : event) : bool :=
  match ev with
  | EvWrite _ _ _ => true
  | _ => false
  end.

(** ** Files as the program reads them *)

Definition LF : ascii := ascii_of_nat 10.
Definition CR : ascii := ascii_of_nat 13.

(** Text mode reading: [\r\n] and [\r] become [\n]. *)
Fixpoint universal_newlines (s : string) : string :=
  match s with
  | EmptyString => EmptyString
  | String c s' =>
      if Ascii.eqb c CR then
        match s' with
        | String c' s'' =>
            if Ascii.eqb c' LF then String LF (universal_newlines s'')
            else String LF (universal_newlines s')
        | EmptyString => String LF EmptyString
        end
      else String c (universal_newlines s')
  end.

(** The lines [for line in f] yields, each with its line end. *)
Fixpoint lines_keepends (s : string) : list string :=
  match s with
  | EmptyString => []
  | String c s' =>
      if Ascii.eqb c LF then String c EmptyString :: lines_keepends s'
      else
        match lines_keepends s' with
        | l :: ls => String c l :: ls
        | [] => [String c EmptyString]
        end
  end.

Definition file_lines (content : string) : list string :=
  lines_keepends (universal_newlines content).

Record http_response : Type := { status_code : Z; text : string }.

(** ** Greedy sequential accumulation

    The grouping that both chunkers compute over their items: the closed
    groups, the current group and its running token count. *)

Definition group_tokens {A : Type} (tok : A -> nat) (g : list A) : Z :=
  fold_right (fun x acc => Z.of_nat (tok x) + acc) 0 g.

Definition greedy_step {A : Type} (tok : A -> nat) (max_tokens : Z)
    (st : list (list A) * list A * Z) (x : A) : list (list A) * list A * Z :=
  let '(closed, cur, cnt) := st in
  if cnt + Z.of_nat (tok x) >? max_tokens
  then (closed ++ [cur], [x], Z.of_nat (tok x))
  else (closed, cur ++ [x], cnt + Z.of_nat (tok x)).

Definition greedy_close {A : Type} (st : list (list A) * list A * Z)
    : list (list A) :=
  let '(closed, cur, _) := st in
  match cur with
  | [] => closed
  | _ => closed ++ [cur]
  end.

Definition greedy_groups {A : Type} (tok : A -> nat) (max_tokens : Z)
    (items : list A) : list (list A) :=
  greedy_close (fold_left (greedy_step tok max_tokens) items ([], [], 0)).

(** A group respects the limit, or is one item that alone exceeds it. *)
Definition within_limit {A : Type} (tok : A -> nat) (max_tokens : Z)
    (g : list A) : Prop :=
  group_tokens tok g <= max_tokens
  \/ exists x, g = [x] /\ Z.of_nat (tok x) > max_tokens.

(** The invariant of the accumulation after the items [done]. *)
Definition greedy_inv {A : Type} (tok : A -> nat) (max_tokens : Z)
    (done : list A) (st : list (list A) * list A * Z) : Prop :=
  let '(closed, cur, cnt) := st in
  concat closed ++ cur = done
  /\ cnt = group_tokens tok cur
  /\ Forall (within_limit tok max_tokens) closed
  /\ (group_tokens tok cur <= max_tokens \/ exists x, cur = [x]).

(** Once the current group is non-empty, no group is closed empty. *)
Definition nonempty_inv {A : Type} (st : list (list A) * list A * Z) : Prop :=
  let '(closed, cur, _) := st in
  Forall (fun g => g <> []) closed /\ cur <> [].

(** ** Dictionaries with hashable keys

    A dictionary whose keys are what [next(iter(entry))] or an [_id] field
    gives, in insertion order. *)

Definition pydict (V : Type) : Type := list (pykey * V).

Fixpoint pydict_get {V : Type} (k : pykey) (d : pydict V) : option V :=
  match d with
  | [] => None
  | (k', v) :: d' => if decide (k = k') then Some v else pydict_get k d'
  end.

(** [d[k] = v]: an existing key keeps its position, a new key goes last. *)
Fixpoint pydict_set {V : Type} (k : pykey) (v : V) (d : pydict V) : pydict V :=
  match d with
  | [] => [(k, v)]
  | (k', v') :: d' =>
      if decide (k = k') then (k, v) :: d' else (k', v') :: pydict_set k v d'
  end.

(** ** Iteration and deletion on decoded JSON *)

(** What a [for] loop over a value sees: the items of a list, the keys of
    a dictionary, the characters of a text. *)
Definition py_iter (v : json) : result (list json) :=
  match v with
  | JArr items => Ok items
  | JObj members => Ok (map (fun kv => JStr kv.1) members)
  | JStr s =>
      Ok (map (fun c => JStr (String c EmptyString)) (list_ascii_of_string s))
  | _ => Raise (TypeError "object is not iterable")
  end.

(** [next(iter(v))]. *)
Definition next_iter (v : json) : result json :=
  items ← py_iter v;
  match items with
  | x :: _ => Ok x
  | [] => Raise StopIteration
  end.

(** [v.items()]. *)
Definition py_items (v : json) : result (list (string * json)) :=
  match v with
  | JObj members => Ok members
  | _ => Raise (AttributeError "object has no attribute 'items'")
  end.

(** [list(v.keys())]. *)
Definition py_keys (v : json) : result (list string) :=
  match v with
  | JObj members => Ok (dict_keys members)
  | _ => Raise (AttributeError "object has no attribute 'keys'")
  end.

(** [del d[k]]. *)
Definition dict_del {V : Type} (k : string) (d : dict V) : dict V :=
  List.filter (fun kv => negb (String.eqb k kv.1)) d.

Definition py_delitem (v : json) (key : string) : result json :=
  match v with
  | JObj members =>
      match dict_get key members with
      | Some _ => Ok (JObj (dict_del key members))
      | None => Raise (KeyError key)
      end
  | _ => Raise (TypeError "object does not support item deletion")
  end.

Definition is_none (v : json) : bool :=
  match v with
  | JNull => true
  | _ => false
  end.

(** A loop whose body may raise: the first exception ends it. *)
Fixpoint fold_result {A B : Type} (f : B -> A -> result B) (xs : list A)
    (acc : B) : result B :=
  match xs with
  | [] => Ok acc
  | x :: xs' =>
      match f acc x with
      | Ok acc' => fold_result f xs' acc'
      | Raise e => Raise e
      end
  end.

(** The same for a body with effects. *)
Fixpoint io_fold {A B : Type} (f : B -> A -> io B) (xs : list A) (acc : B)
    : io B :=
  match xs with
  | [] => mret acc
  | x :: xs' => f acc x ≫= fun acc' => io_fold f xs' acc'
  end.

(** ** Text replacement *)

(** [s.replace(old, new)] for a non-empty [old]: the occurrences are found
    from the left and do not overlap. *)
Fixpoint replace_str_go (old new : string) (skip : nat) (s : string) : string :=
  match s with
  | EmptyString => EmptyString
  | String c s' =>
      match skip with
      | S n => replace_str_go old new n s'
      | O =>
          match strip_prefix old s with
          | Some _ =>
              new +:+ replace_str_go old new (String.length old - 1) s'
          | None => String c (replace_str_go old new 0 s')
          end
      end
  end.

Definition replace_str (old new s : string) : string :=
  replace_str_go old new 0 s.

(** The rest of the text after a match of [r] at its start, if there is
    one. *)
Definition match_rest (r : regex) (s : string) : option string :=
  match rmatch r s [] (fun s' _ => Some [s']) with
  | Some [s'] => Some s'
  | _ => None
  end.

(** [re.sub(r, repl, s)] for an expression that matches no empty text and
    a replacement without group references: the matches are found from the
    left and do not overlap. *)
Fixpoint re_sub_go (fuel : nat) (r : regex) (repl s : string) : string :=
  match fuel with
  | O => s
  | S fuel' =>
      match s with
      | EmptyString => EmptyString
      | String c s' =>
          match match_rest r s with
          | Some rest =>
              if (String.length rest <? String.length s)%nat
              then repl +:+ re_sub_go fuel' r repl rest
              else String c (re_sub_go fuel' r repl s')
          | None => String c (re_sub_go fuel' r repl s')
          end
      end
  end.

Definition re_sub (r : regex) (repl s : string) : string :=
  re_sub_go (String.length s) r repl s.

Definition is_LF (c : ascii) : bool := Ascii.eqb c LF.

(** [\n{3,}]. *)
Definition NEWLINES_RE : regex :=
  RSeq (RLit (nl +:+ nl +:+ nl)) (RStar true is_LF).

(** ** Files as the program writes them *)

(** The text of a file after [open(path, mode)] and one [write]: ["w"]
    truncates, ["a"] appends, both create a missing file. *)
Definition write_file (before : option string) (mode text : string)
    : option string :=
  if String.eqb mode "w" then Some text
  else Some (default EmptyString before +:+ text).

(** The text of the file at [path] after the writes of a trace. *)
Definition file_after (path : string) (before : option string)
    (tr : list event) : option string :=
  fold_left (fun content ev =>
               match ev with
               | EvWrite p mode text =>
                   if String.eqb p path then write_file content mode text
                   else content
               | _ => content
               end)
            tr before.

(** [response.raise_for_status()]. *)
Definition raise_for_status (response : http_response) : result unit :=
  if (400 <=? status_code response) && (status_code response <? 600)
  then Raise (RequestException "HTTPError")
  else Ok tt.

(** ** Web page text *)

(** [normalize_linebreaks]: escaped line breaks become real ones, Windows
    line ends become Unix ones, three or more line breaks in a row become
    two, and the text is stripped. *)
Definition normalize_linebreaks (text : string) : string :=
  let text := replace_str "\n" nl text in
  let text := replace_str (String CR nl) nl text in
  let text := re_sub NEWLINES_RE (nl +:+ nl) text in
  strip text.

(** ** The registry helpers of link enrichment

    The helpers of [enrich_links.py] that [enrich_link] calls for a PyPI or
    a Bitbucket link, over the requests they send. *)

Module EnrichLinks.

Section Helpers.

(** [json.loads], [requests.get(url, timeout=10)], [str(value)] as an
    f-string renders it, and [str(e)] for an exception. *)
Variable json_loads : string -> result json.
Variable http_get : string -> result http_response.
Variable py_str : json -> string.
Variable exn_str : exn -> string.

(** A value inside an f-string: a text is itself, [None] is [None]. *)
Definition fstring (v : json) : string :=
  match v with
  | JStr s => s
  | _ => py_str v
  end.

Definition fstring_opt (o : option string) : string :=
  match o with
  | Some s => s
  | None => "None"
  end.

(** [if info[key] is None: del info[key]]. *)
Definition drop_none_field (info : json) (key : string) : result json :=
  v ← py_getitem info key;
  if is_none v then py_delitem info key else Ok info.

(** The [try] block of [get_pypi_project_info]. *)
Definition pypi_project_info_try (package_name : string) : result json :=
  let url := "https://pypi.org/pypi/" +:+ package_name +:+ "/json" in
  response ← http_get url;
  _ ← raise_for_status response;
  data ← json_loads (text response);
  info ← py_get data "info" (JObj []);
  keys ← py_keys info;
  info ← fold_result drop_none_field keys info;
  info ← py_setitem info "releases" (JArr []);
  releases ← py_get data "releases" (JObj []);
  names ← py_iter releases;
  py_setitem info "releases" (JArr names).

Definition get_pypi_project_info (package_name : string) : json :=
  match pypi_project_info_try package_name with
  | Ok info => info
  | Raise _ => JNull
  end.

Definition bitbucket_error (msg : string) : json :=
  JObj [("error", JStr msg)].

Definition get_bitbucket_metadata (user repo : option string) : json :=
  let api_url :=
    "https://api.bitbucket.org/2.0/repositories/" +:+ fstring_opt user
    +:+ "/" +:+ fstring_opt repo in
  match http_get api_url with
  | Ok response =>
      if negb (status_code response =? 200) then
        bitbucket_error ("Failed to fetch metadata: "
                         +:+ pretty (status_code response))
      else
        match json_loads (text response) with
        | Ok data => data
        | Raise e => bitbucket_error (exn_str e)
        end
  | Raise e => bitbucket_error (exn_str e)
  end.

Definition readme_candidates : list string :=
  ["README.md"; "README.rst"; "README.txt";
   "readme.md"; "readme.rst"; "readme.txt"].

Definition bitbucket_raw_url (user repo : option string)
    (main_branch filename : string) : string :=
  "https://bitbucket.org/" +:+ fstring_opt user +:+ "/" +:+ fstring_opt repo
  +:+ "/raw/" +:+ main_branch +:+ "/" +:+ filename.

(** The loop over the candidate file names: the first response with status
    200 and a text that is not blank ends it. *)
Fixpoint first_readme (user repo : option string) (main_branch : string)
    (filenames : list string) : result (option string) :=
  match filenames with
  | [] => Ok None
  | filename :: rest =>
      response ← http_get (bitbucket_raw_url user repo main_branch filename);
      if (status_code response =? 200)
         && negb (String.eqb (strip (text response)) EmptyString)
      then Ok (Some (text response))
      else first_readme user repo main_branch rest
  end.

Definition get_bitbucket_readme (user repo : option string) (metadata : json)
    : json :=
  match (branch ← py_get metadata "main_branch" JNull;
         let main_branch :=
           if truthy branch then fstring branch else "master" in
         first_readme user repo main_branch readme_candidates) with
  | Ok (Some readme) => JStr readme
  | _ => JNull
  end.

End Helpers.

End EnrichLinks.

(** ** Messages *)

Record message : Type := { role : string; content : string }.

(** ** Software entries and conflicts *)

(** A reference of an entry's [repository] list: [repo.get('kind')] and
    [repo.get('url', '')]. *)
Record repo_ref : Type := { kind : option string; url : option string }.

(** A registry entry: its identity and descriptive fields, and the two
    reference lists, each absent or present. *)
Record entry : Type := {
  descriptive : dict json;
  webpage : option (list string);
  repository : option (list repo_ref)
}.

(** The input of [build_full_conflict]. *)
Record conflict_group : Type := {
  cg_disconnected : list entry;
  cg_remaining : list entry
}.

(** The dictionary passed to the message builder.  A missing or empty
    partition is the empty list (both are falsy for [.get]); the key
    [webpage_contents] is present or not. *)
Record conflict_data : Type := {
  disconnected : list entry;
  remaining : list entry;
  webpage_contents : option (dict (dict json))
}.

Definition MAX_TOTAL_TOKENS : Z := 130000.

Section Program.

Set Default Proof Using "Type".

(** [len(get_tokenizer(model).encode(text))]. *)
Variable tokenizer : string -> string -> nat.

(** [json.dumps(entry, ensure_ascii=False)] and
    [json.dumps(chunk, indent=2, ensure_ascii=False)]. *)
Variable json_dumps : entry -> string.
Variable json_dumps_indent : list entry -> string.

(** [str(body)] as an f-string renders it. *)
Variable py_str : json -> string.

(** *** Tokenization utilities *)

Definition count_tokens (text model : string) : Z :=
  Z.of_nat (tokenizer model text).

Definition estimate_total_tokens (messages : list message) (model : string) : Z :=
  fold_left (fun acc msg => acc + Z.of_nat (tokenizer model (content msg)))
            messages 0.

(** *** Chunking big text *)

Record text_chunker : Type := {
  tc_chunks : list string;
  tc_current_chunk : list string;
  tc_current_token_count : Z
}.

Definition chunk_text_step (max_tokens : Z) (model : string)
    (st : text_chunker) (word : string) : text_chunker :=
  let token_len := Z.of_nat (tokenizer model (word +:+ " ")) in
  if tc_current_token_count st + token_len >? max_tokens then
    {| tc_chunks := tc_chunks st ++ [join " " (tc_current_chunk st)];
       tc_current_chunk := [word];
       tc_current_token_count := token_len |}
  else
    {| tc_chunks := tc_chunks st;
       tc_current_chunk := tc_current_chunk st ++ [word];
       tc_current_token_count := tc_current_token_count st + token_len |}.

Definition chunk_text (text : string) (max_tokens : Z) (model : string)
    : list string :=
  let words := split_ws text in
  let st := fold_left (chunk_text_step max_tokens model) words
              {| tc_chunks := []; tc_current_chunk := [];
                 tc_current_token_count := 0 |} in
  match tc_current_chunk st with
  | [] => tc_chunks st
  | _ => tc_chunks st ++ [join " " (tc_current_chunk st)]
  end.

(** *** The entry chunker of the message builder *)

Record entry_chunker : Type := {
  ec_chunks : list (list entry);
  ec_current_chunk : list entry;
  ec_current_token_count : Z
}.

Definition chunk_entries_step (max_tokens_per_chunk : Z) (model : string)
    (st : entry_chunker) (e : entry) : entry_chunker :=
  let entry_json := json_dumps e in
  let entry_tokens := Z.of_nat (tokenizer model entry_json) in
  if ec_current_token_count st + entry_tokens >? max_tokens_per_chunk then
    {| ec_chunks := ec_chunks st ++ [ec_current_chunk st];
       ec_current_chunk := [e];
       ec_current_token_count := entry_tokens |}
  else
    {| ec_chunks := ec_chunks st;
       ec_current_chunk := ec_current_chunk st ++ [e];
       ec_current_token_count := ec_current_token_count st + entry_tokens |}.

Definition chunk_entries (max_tokens_per_chunk : Z) (model : string)
    (entries : list entry) : list (list entry) :=
  let st := fold_left (chunk_entries_step max_tokens_per_chunk model) entries
              {| ec_chunks := []; ec_current_chunk := [];
                 ec_current_token_count := 0 |} in
  match ec_current_chunk st with
  | [] => ec_chunks st
  | _ => ec_chunks st ++ [ec_current_chunk st]
  end.


(** The per-item token counts the two chunkers accumulate. *)
Definition word_tokens (model : string) (word : string) : nat :=
  tokenizer model (word +:+ " ").

Definition entry_tokens (model : string) (e : entry) : nat :=
  tokenizer model (json_dumps e).

(** The chunker states that correspond to a state of the accumulation. *)
Definition text_state (g : list (list string) * list string * Z)
    : text_chunker :=
  let '(closed, cur, cnt) := g in
  {| tc_chunks := map (join " ") closed; tc_current_chunk := cur;
     tc_current_token_count := cnt |}.

Definition entry_state (g : list (list entry) * list entry * Z)
    : entry_chunker :=
  let '(closed, cur, cnt) := g in
  {| ec_chunks := closed; ec_current_chunk := cur;
     ec_current_token_count := cnt |}.

(** *** Prompt and chat message builder *)

Definition user_message (text : string) : message :=
  {| role := "user"; content := text |}.

(** The messages of one partition: one per chunk, numbered from 1. *)
Definition part_messages (preamble : string) (chunks : list (list entry))
    : list message :=
  imap (fun i chunk =>
          user_message
            (preamble +:+ " - part " +:+ pretty (S i) +:+ ":" +:+ nl
             +:+ "```json" +:+ nl +:+ json_dumps_indent chunk +:+ nl
             +:+ "```"))
       chunks.

Definition chunk_dict (d : dict (dict json)) : list message :=
  flat_map (fun '(url, content) =>
              map (fun '(label, body) =>
                     user_message
                       ("Content from " +:+ url +:+ ":" +:+ nl +:+ "```"
                        +:+ nl +:+ label +:+ ":" +:+ nl +:+ py_str body
                        +:+ "```"))
                  content)
           d.

Definition final_instruction : string :=
  "All parts have been sent. Please now analyze the entries and provide the output as specified. "
  +:+ nl +:+ nl
  +:+ "IMPORTANT: Return ONLY a valid Python dictionary with the following keys: 'verdict', 'explanation', 'confidence', and 'features'. Do NOT explanation, or extra commentary. This is a strict output constraint.".

(** The message list before the budget check. *)
Definition assemble_messages (instruction_prompt : string)
    (conflict_data : conflict_data)
    (disconnected_preamble remaining_preamble : string)
    (max_tokens_per_chunk : Z) (model : string) : list message :=
  let messages := [user_message instruction_prompt] in
  let messages :=
    match remaining conflict_data with
    | [] => messages
    | _ => messages ++ part_messages remaining_preamble
             (chunk_entries max_tokens_per_chunk model
                            (remaining conflict_data))
    end in
  let messages :=
    match disconnected conflict_data with
    | [] => messages
    | _ => messages ++ part_messages disconnected_preamble
             (chunk_entries max_tokens_per_chunk model
                            (disconnected conflict_data))
    end in
  let messages :=
    match webpage_contents conflict_data with
    | Some d => messages ++ chunk_dict d
    | None => messages
    end in
  messages ++ [user_message final_instruction].

Definition build_chat_messages_with_disconnected (instruction_prompt : string)
    (conflict_data : conflict_data)
    (disconnected_preamble remaining_preamble : string)
    (max_tokens_per_chunk : Z) (model : string) : result (list message) :=
  let messages :=
    assemble_messages instruction_prompt conflict_data disconnected_preamble
                      remaining_preamble max_tokens_per_chunk model in
  let total_tokens := estimate_total_tokens messages model in
  if total_tokens >? MAX_TOTAL_TOKENS then
    Raise (ValueError ("Prompt too long: " +:+ pretty total_tokens
                       +:+ " tokens. Limit is " +:+ pretty MAX_TOTAL_TOKENS
                       +:+ "."))
  else Ok messages.

(** *** Result parser *)

(** [json.loads(text)]. *)
Variable json_loads : string -> result json.

(** What [parse_result] does with the candidate. *)
Definition load_candidate (found : option string) : io json :=
  match found with
  | None =>
      log_warning "No JSON object found in input." ≫= fun _ => mret (JObj [])
  | Some json_str =>
      match json_loads json_str with
      | Ok v => mret v
      | Raise (JSONDecodeError e) =>
          log_warning ("Failed to parse JSON: " +:+ e) ≫= fun _ =>
          mret (JObj [])
      | Raise e => lift (Raise e)
      end
  end.

Definition parse_result (text : string) : io json :=
  load_candidate (json_candidate text).


(** *** Resumable ledger *)

(** The text of the file at a path; [None] when [os.path.exists] is false. *)
Variable read_file : string -> option string.

Definition load_solved_step (acc : gset pykey * list event) (line : string)
    : gset pykey * list event :=
  let '(solved_keys, logged) := acc in
  if String.eqb (strip line) EmptyString then acc
  else
    match json_loads line ≫= next_iter_key with
    | Ok key => (solved_keys ∪ {[ key ]}, logged)
    | Raise e =>
        (solved_keys,
         logged ++ [EvLog (LogWarning ("Could not parse line: "
                                       +:+ take_str 100 line +:+ "..."))])
    end.

Definition load_solved_conflict_keys (jsonl_path : string) : io (gset pykey) :=
  match read_file jsonl_path with
  | None => mret ∅
  | Some content =>
      let '(solved_keys, logged) :=
        fold_left load_solved_step (file_lines content) (∅, []) in
      IO logged (Ok solved_keys)
  end.

(** *** Oracle clients *)

Definition OR_API_URL : string := "https://openrouter.ai/api/v1/chat/completions".
Definition HF_API_URL : string := "https://api-inference.huggingface.co/models".
Definition REQUESTS_PER_MINUTE : Z := 20.
Definition DELAY_BETWEEN_REQUESTS : Z := 60 / REQUESTS_PER_MINUTE.

(** The API keys read from the environment; [None] when unset. *)
Variable OR_API_KEY : option string.
Variable HF_API_KEY : option string.

(** [requests.post(url, json=payload, ...)]: the response of the attempt
    with the given number (from 1) within one client call, or the exception
    the call raises. *)
Variable http_post : string -> json -> nat -> result http_response.

(** [response.json()]. *)
Definition response_json (response : http_response) : result json :=
  json_loads (text response).

(** [KEY[:4]] inside the log line that precedes the request. *)
Definition key_prefix (api_key : option string) : result string :=
  match api_key with
  | Some k => Ok (take_str 4 k)
  | None => Raise (TypeError "'NoneType' object is not subscriptable")
  end.

(** [response.json()["choices"][0]["message"]["content"].strip()]. *)
Definition chat_content (response : http_response) : result string :=
  j ← response_json response;
  choices ← py_getitem j "choices";
  first ← py_getitem0 choices;
  msg ← py_getitem first "message";
  c ← py_getitem msg "content";
  py_strip c.

(** The [try] block of [query_openrouter]. *)
Definition openrouter_try (response : http_response) : result (string * json) :=
  content ← chat_content response;
  j ← response_json response;
  meta ← py_get j "usage" (JObj []);
  j' ← response_json response;
  provider ← py_get j' "provider" (JStr "");
  meta ← py_setitem meta "provider" provider;
  Ok (content, meta).

Definition openrouter_payload (messages : json) (model : string) : json :=
  JObj [("model", JStr model); ("messages", messages);
        ("temperature", JNum (2 # 10))].

(** The body of [query_openrouter], for one attempt. *)
Definition query_openrouter_attempt (messages : json) (model : string)
    (attempt : nat) : io (string * json) :=
  let payload := openrouter_payload messages model in
  prefix ← lift (key_prefix OR_API_KEY);
  _ ← log_info ("Sending request to OpenRouter API: " +:+ OR_API_URL
                +:+ " with key " +:+ prefix +:+ "...");
  _ ← emit (EvPost OR_API_URL payload);
  response ← lift (http_post OR_API_URL payload attempt);
  let empty :=
    _ ← log_warning "API response was empty";
    mret (EmptyString, JObj []) in
  if status_code response =? 200 then
    match openrouter_try response with
    | Ok (content, meta) =>
        if String.eqb content EmptyString then empty
        else mret (content, meta)
    | Raise _ =>
        (* the handler logs [response.json()] *)
        j ← lift (response_json response);
        _ ← log_warning (text response);
        empty
    end
  else empty.

(** [wait_exponential(multiplier=1, min=2, max=10)] after a failed attempt. *)
Definition wait_exponential (attempt : nat) : Z :=
  Z.max (Z.max 0 2) (Z.min (1 * 2 ^ (Z.of_nat attempt - 1)) 10).

(** [@retry(stop=stop_after_attempt(stop), wait=wait_exponential(...))]:
    the body is run again after each exception, until it returns or the
    attempt with number [stop] has failed. *)
Fixpoint retry_loop {A : Type} (remaining : nat) (attempt : nat)
    (body : nat -> io A) : io A :=
  let r := body attempt in
  match outcome r with
  | Ok a => r
  | Raise e =>
      match remaining with
      | O => IO (trace r) (Raise (RetryError e))
      | S remaining' =>
          IO (trace r) (Ok tt) ≫= fun _ =>
          emit (EvSleep (wait_exponential attempt)) ≫= fun _ =>
          retry_loop remaining' (S attempt) body
      end
  end.

Definition retry {A : Type} (stop : nat) (body : nat -> io A) : io A :=
  retry_loop (stop - 1) 1 body.

Definition query_openrouter (messages : json) (model : string)
    : io (string * json) :=
  retry 3 (query_openrouter_attempt messages model).

(** The [try] block of [query_huggingface_new]. *)
Definition huggingface_new_try (response : http_response) (provider : string)
    : result (string * json) :=
  content ← chat_content response;
  j ← response_json response;
  meta ← py_get j "usage" (JObj []);
  meta ← py_setitem meta "provider" (JStr provider);
  Ok (content, meta).

Definition huggingface_payload (messages : json) (model : string) : json :=
  JObj [("model", JStr model); ("messages", messages)].

Definition huggingface_url (provider : string) : string :=
  "https://router.huggingface.co/" +:+ provider +:+ "/v1/chat/completions".

(** [query_huggingface_new]; its retry decorator is commented out. *)
Definition query_huggingface_new (messages : json) (model provider : string)
    : io (string * json) :=
  let payload := huggingface_payload messages model in
  let URL := huggingface_url provider in
  prefix ← lift (key_prefix HF_API_KEY);
  _ ← log_info ("Sending request to Hugging Face Inference API: " +:+ URL
                +:+ " with key " +:+ prefix +:+ "...");
  _ ← emit (EvPost URL payload);
  response ← lift (http_post URL payload 1);
  _ ← log_info "API response";
  let empty :=
    _ ← log_warning "API response was empty after 3 attempts.";
    mret (EmptyString, JObj []) in
  if status_code response =? 200 then
    match huggingface_new_try response provider with
    | Ok (content, meta) =>
        if String.eqb content EmptyString then empty
        else mret (content, meta)
    | Raise _ =>
        (* the handler formats [response.json()] into its warning *)
        j ← lift (response_json response);
        _ ← log_warning ("Parsing error | Response: " +:+ text response);
        empty
    end
  else empty.

Definition inference_payload (messages : json) : json :=
  JObj [("inputs", messages);
        ("parameters",
         JObj [("temperature", JNum (2 # 10)); ("top_p", JNum (95 # 100));
               ("max_new_tokens", JNum (512 # 1));
               ("return_full_text", JBool false)])].

(** [query_huggingface], the single-prompt client: it returns a pair or
    [None]. *)
Definition query_huggingface (messages : json) (model : string)
    : io (option (string * json)) :=
  let payload := inference_payload messages in
  let URL := HF_API_URL +:+ "/" +:+ model in
  prefix ← lift (key_prefix HF_API_KEY);
  _ ← log_info ("Sending request to Hugging Face Inference API: " +:+ URL
                +:+ " with key " +:+ prefix +:+ "...");
  _ ← emit (EvPost URL payload);
  response ← lift (http_post URL payload 1);
  j ← lift (response_json response);
  _ ← log_info ("API response: " +:+ text response);
  let empty :=
    _ ← log_warning "API response was empty after 3 attempts.";
    mret None in
  if status_code response =? 200 then
    match (first ← py_getitem0 j;
           generated ← py_getitem first "generated_text";
           py_strip generated) with
    | Ok output_text => mret (Some (output_text, JObj []))
    | Raise _ =>
        _ ← log_warning ("Parsing error | Response: " +:+ text response);
        empty
    end
  else empty.

(** *** Benchmark inference loop *)

(** [json.dump(value, f)] as text. *)
Variable json_dumps_value : json -> string.

(** The exception [open(path, mode)] raises, if it raises. *)
Variable open_error : string -> option exn.

(** [end_time - start_time] around the oracle call for these messages. *)
Variable elapsed_seconds : json -> Q.

(** [with open(path, mode) as f: json.dump(value, f); f.write('\n')]. *)
Definition dump_line (path mode : string) (value : json) : io unit :=
  match open_error path with
  | Some e => lift (Raise e)
  | None => emit (EvWrite path mode (json_dumps_value value +:+ nl))
  end.

Definition save_raw_results (result : json) (raw_result_path : string)
    : io unit :=
  _ ← dump_line raw_result_path "w" result;
  log_info ("Raw result saved to " +:+ raw_result_path).

Definition save_inference_stats (meta : json) (meta_file_path : string)
    : io unit :=
  _ ← dump_line meta_file_path "a" meta;
  log_info ("Metadata saved to " +:+ meta_file_path).

Definition save_result (key : string) (parsed_result : json)
    (output_file_path : string) : io unit :=
  dump_line output_file_path "a" (JObj [(key, parsed_result)]).

(** [key.replace(" ", "_").replace("/", "_")]; only a text has [replace]. *)
Definition key_text (key : pykey) : result string :=
  match key with
  | KStr s => Ok s
  | _ => Raise (AttributeError "object has no attribute 'replace'")
  end.

(** The [try] block of the loop of [make_inferences]. *)
Definition make_inferences_try (model results_file_path raw_results_path
    provider : string) (key : pykey) (messages : json) : io unit :=
  answer ←
    (if String.eqb provider "openrouter" then
       _ ← emit (EvQuery "query_openrouter" key messages);
       query_openrouter messages model
     else
       _ ← emit (EvQuery "query_huggingface_new" key messages);
       query_huggingface_new messages model provider);
  let '(result, meta) := answer in
  key_s ← lift (key_text key);
  let key_transformed := replace_char "/" "_" (replace_char " " "_" key_s) in
  let raw_result_path :=
    raw_results_path +:+ "/raw_results_" +:+ key_transformed +:+ ".json" in
  _ ← save_raw_results (JStr result) raw_result_path;
  let meta_file_path :=
    raw_results_path +:+ "/meta_" +:+ key_transformed +:+ ".json" in
  meta ← lift (py_setitem meta "total_time" (JNum (elapsed_seconds messages)));
  meta ← lift (py_setitem meta "key" (JStr key_s));
  _ ← save_inference_stats meta meta_file_path;
  parsed_result ← parse_result result;
  _ ← save_result key_s parsed_result results_file_path;
  log_info "Results for conflict written to file.".

(** One iteration of the loop of [make_inferences]. *)
Definition make_inferences_body (solved_conflicts_keys : gset pykey)
    (model results_file_path raw_results_path provider : string)
    (item : pykey * json) : io unit :=
  let '(key, messages) := item in
  if decide (key ∈ solved_conflicts_keys) then
    log_info "Skipping conflict, already solved."
  else
    _ ← (if String.eqb provider "openrouter"
         then emit (EvSleep DELAY_BETWEEN_REQUESTS) else mret tt);
    _ ← log_info "Making inference for conflict";
    let attempt :=
      make_inferences_try model results_file_path raw_results_path provider
                          key messages in
    match outcome attempt with
    | Ok _ => attempt
    | Raise e =>
        IO (trace attempt ++ [EvLog (LogError "Error processing conflict")])
           (Raise e)
    end.

(** [make_inferences]; [messages_dict] is the dictionary in its iteration
    order. *)
Definition make_inferences (messages_dict : list (pykey * json))
    (model results_file_path raw_results_path provider : string) : io unit :=
  _ ← log_info "Number of cases to process";
  solved_conflicts_keys ← load_solved_conflict_keys results_file_path;
  _ ← io_for messages_dict
        (make_inferences_body solved_conflicts_keys model results_file_path
                              raw_results_path provider);
  log_info "All inferences completed.".

(** *** Link enrichment *)

(** [requests.head(url, allow_redirects=True, timeout=10).url]. *)
Variable head_url : string -> result string.

(** [requests.get(url, ...)]. *)
Variable http_get : string -> result http_response.

(** [urllib.parse.quote(text, safe="")]. *)
Variable url_quote : string -> string.

(** What the protected blocks of the helpers compute.  Each of these
    helpers is one [try] around its requests whose handler returns [None]
    (or an error dictionary), so the helper itself never raises. *)
Variable request_github_metadata : string -> string -> json.
Variable request_github_readme : string -> string -> json.
Variable get_gitlab_repo_readme : string -> string -> json.
Variable get_pypi_project_info : string -> json.
Variable get_bitbucket_metadata : option string -> option string -> json.
Variable get_bitbucket_readme : option string -> option string -> json -> json.
Variable extract_sourceforge_project_info : option string -> json.

(** [get_link_content]: the rendered page, or [None]. *)
Variable get_link_content : string -> option string.

(** [extract_main_text_from_html]; it has no handler of its own. *)
Variable extract_main_text_from_html : string -> result string.

Definition get_redirect (url : string) : option string :=
  match head_url url with
  | Ok u => Some u
  | Raise _ => None
  end.

Definition parse_gitlab_repo_url (repo_url : string) : result string :=
  match re_search GITLAB_RE repo_url with
  | None => Raise (ValueError "Invalid GitLab repository URL.")
  | Some m => Ok (url_quote (group1 m))
  end.

Definition get_gitlab_repo_metadata (repo_url : string) : result json :=
  encoded_project ← parse_gitlab_repo_url repo_url;
  let api_url := "https://gitlab.com/api/v4/projects/" +:+ encoded_project in
  response ← http_get api_url;
  if negb (status_code response =? 200) then
    Raise (Exception ("Failed to get metadata. Status code: "
                      +:+ pretty (status_code response)
                      +:+ ", Response: " +:+ text response))
  else response_json response.

(** [parts[i]]. *)
Definition list_item (parts : list string) (i : nat) : result string :=
  match parts !! i with
  | Some x => Ok x
  | None => Raise (IndexError "list index out of range")
  end.

(** ['main_branch' in metadata]. *)
Definition py_in (needle : string) (v : json) : result bool :=
  match v with
  | JObj members =>
      Ok (match dict_get needle members with Some _ => true | None => false end)
  | JArr items =>
      Ok (existsb (fun x => match x with
                            | JStr s => String.eqb s needle
                            | _ => false
                            end) items)
  | JStr s => Ok (contains needle s)
  | _ => Raise (TypeError "argument is not iterable")
  end.

Definition sourceforge_alternatives : list string :=
  ["sourceforge.net/projects/"; "sf.net/p/"; "sourceforge.net/p/"].

(** The first conditional chain of [enrich_link]: GitHub, GitLab, PyPI. *)
Definition enrich_first_chain (link : string) (new_link : dict json)
    : result (dict json * bool) :=
  if contains "github.com" link then
    let parts := split_char "/" link in
    match (owner ← list_item parts 3;
           repo_name ← list_item parts 4;
           Ok (owner, repo_name)) with
    | Ok (owner, repo_name) =>
        let new_link :=
          dict_set "repo_metadata" (request_github_metadata owner repo_name)
                   new_link in
        let new_link :=
          dict_set "readme_content" (request_github_readme owner repo_name)
                   new_link in
        Ok (new_link, true)
    | Raise _ => Ok (new_link, false)
    end
  else if contains "gitlab.com" link then
    metadata ← get_gitlab_repo_metadata link;
    let new_link := dict_set "repo_metadata" metadata new_link in
    if truthy metadata then
      readme_url ← py_get metadata "readme_url" JNull;
      if truthy readme_url then
        match readme_url with
        | JStr u =>
            Ok (dict_set "readme_content" (get_gitlab_repo_readme u link)
                         new_link, true)
        | _ =>
            (* [readme_url.split] fails inside the helper, which returns [None] *)
            Ok (dict_set "readme_content" JNull new_link, true)
        end
      else Ok (new_link, false)
    else Ok (new_link, false)
  else if contains "pypi.org/project/" link then
    match (after ← list_item (split_str "pypi.org/project/" link) 1;
           list_item (split_char "/" after) 0) with
    | Ok package_name =>
        Ok (dict_set "project_metadata" (get_pypi_project_info package_name)
                     new_link, true)
    | Raise e => Raise e
    end
  else Ok (new_link, false).

(** The second conditional chain: SourceForge, Bitbucket, the Bioconductor
    git host.  Each branch with a [try] keeps what it assigned before the
    exception. *)
Definition enrich_second_chain (link : string) (new_link : dict json)
    (processed : bool) : dict json * bool :=
  if existsb (fun alt => contains alt link) sourceforge_alternatives then
    let content := get_link_content link in
    let project_info := extract_sourceforge_project_info content in
    (dict_set "project_metadata" project_info new_link, true)
  else if contains "bitbucket.org" link then
    let '(user, repo) :=
      match re_match BITBUCKET_RE link with
      | Some [u; r] => (Some u, Some r)
      | _ => (None, None)
      end in
    let metadata := get_bitbucket_metadata user repo in
    let new_link := dict_set "repo_metadata" metadata new_link in
    if truthy metadata then
      match py_in "main_branch" metadata with
      | Ok true =>
          (dict_set "readme_content" (get_bitbucket_readme user repo metadata)
                    new_link, true)
      | Ok false => (new_link, true)
      | Raise _ => (new_link, processed)
      end
    else (new_link, true)
  else if contains "git.bioconductor" link then
    (dict_set "repo_metadata" (JObj [("url", JStr link)]) new_link, true)
  else (new_link, processed).

Definition enrich_link (link : string) : result (dict json) :=
  let new_link := [("url", JStr link)] in
  match get_redirect link with
  | None => Ok new_link
  | Some EmptyString => Ok new_link
  | Some link =>
      first ← enrich_first_chain link new_link;
      let '(new_link, processed) := first in
      let '(new_link, processed) :=
        enrich_second_chain link new_link processed in
      if negb processed then
        match get_link_content link with
        | Some (String c rest) =>
            text ← extract_main_text_from_html (String c rest);
            Ok (dict_set "content" (JStr text) new_link)
        | _ => Ok new_link
        end
      else Ok new_link
  end.

(** *** Conflict assembler *)

(** [chunk_text(value, ...)] for a value read from an evidence record. *)
Definition chunk_value (v : json) (max_tokens : Z) (model : string)
    : result json :=
  match v with
  | JStr s => Ok (JArr (map JStr (chunk_text s max_tokens model)))
  | _ => Raise (AttributeError "object has no attribute 'split'")
  end.

(** [enriched.get(field)], [None] when the key is missing. *)
Definition record_get (enriched : dict json) (field : string) : json :=
  match dict_get field enriched with
  | Some v => v
  | None => JNull
  end.

(** The four conditional assignments into [contents[url]]. *)
Definition collect_labels (enriched : dict json) (max_tokens : Z)
    (model : string) : result (dict json) :=
  let labels : dict json := [] in
  labels ←
    (if truthy (record_get enriched "content") then
       chunks ← chunk_value (record_get enriched "content") max_tokens model;
       Ok (dict_set "Content" chunks labels)
     else Ok labels);
  labels ←
    (if truthy (record_get enriched "readme_content") then
       chunks ← chunk_value (record_get enriched "readme_content")
                            max_tokens model;
       Ok (dict_set "README content" chunks labels)
     else Ok labels);
  let labels :=
    if truthy (record_get enriched "repo_metadata")
    then dict_set "Repository metadata" (record_get enriched "repo_metadata")
                  labels
    else labels in
  let labels :=
    if truthy (record_get enriched "project_metadata")
    then dict_set "Project metadata" (record_get enriched "project_metadata")
                  labels
    else labels in
  Ok labels.

Record collector : Type := {
  contents : dict (dict json);
  seen : gset string
}.

(** One iteration of the loop of [enrich_and_collect_content]. *)
Definition enrich_and_collect_step (max_tokens : Z) (model : string)
    (st : collector) (url : string) : io collector :=
  if bool_decide (url ∈ seen st) || String.eqb url EmptyString then mret st
  else
    let seen' := seen st ∪ {[ url ]} in
    _ ← emit (EvEnrich url);
    enriched ← lift (enrich_link url);
    labels ← lift (collect_labels enriched max_tokens model);
    mret {| contents := dict_set url labels (contents st); seen := seen' |}.

Fixpoint enrich_and_collect_loop (max_tokens : Z) (model : string)
    (url_list : list string) (st : collector) : io collector :=
  match url_list with
  | [] => mret st
  | url :: rest =>
      st' ← enrich_and_collect_step max_tokens model st url;
      enrich_and_collect_loop max_tokens model rest st'
  end.

Definition enrich_and_collect_content (max_tokens : Z) (model : string)
    (url_list : list string) : io (dict (dict json)) :=
  st ← enrich_and_collect_loop max_tokens model url_list
         {| contents := []; seen := ∅ |};
  mret (contents st).

Record link_sets : Type := {
  all_webpages : gset string;
  all_repos : gset string
}.

Definition opt_eqb (o : option string) (s : string) : bool :=
  match o with
  | Some x => String.eqb x s
  | None => false
  end.

(** The loop over [repos] in [strip_content_fields]. *)
Definition collect_repo (sets : link_sets) (repo : repo_ref) : link_sets :=
  let u := default EmptyString (url repo) in
  if opt_eqb (kind repo) "github" && contains "github.com" u then
    {| all_webpages := all_webpages sets; all_repos := all_repos sets ∪ {[ u ]} |}
  else if opt_eqb (kind repo) "bitbucket" && contains "bitbucket.com" u then
    {| all_webpages := all_webpages sets; all_repos := all_repos sets ∪ {[ u ]} |}
  else if opt_eqb (kind repo) "gitlab" && contains "gitlab.com" u then
    {| all_webpages := all_webpages sets; all_repos := all_repos sets ∪ {[ u ]} |}
  else
    {| all_webpages := all_webpages sets ∪ {[ u ]}; all_repos := all_repos sets |}.

(** [strip_content_fields]: the copy that is returned, and the two sets
    after the call. *)
Definition strip_content_fields (sets : link_sets) (e : entry)
    : entry * link_sets :=
  let copy := e in
  let webpages := default [] (webpage copy) in
  let repos := default [] (repository copy) in
  let sets :=
    {| all_webpages := all_webpages sets ∪ list_to_set webpages;
       all_repos := all_repos sets |} in
  let sets := fold_left collect_repo repos sets in
  (copy, sets).

(** [for entry in partition: out.append(strip_content_fields(entry))]. *)
Definition strip_partition (acc : list entry * link_sets) (e : entry)
    : list entry * link_sets :=
  let '(out, sets) := acc in
  let '(copy, sets') := strip_content_fields sets e in
  (out ++ [copy], sets').

Definition build_full_conflict (conflict : conflict_group) (max_tokens : Z)
    (model : string) : io conflict_data :=
  let sets := {| all_webpages := ∅; all_repos := ∅ |} in
  let '(new_disconnected, sets) :=
    fold_left strip_partition (cg_disconnected conflict) ([], sets) in
  let '(new_remaining, sets) :=
    fold_left strip_partition (cg_remaining conflict) ([], sets) in
  let repos_and_webpages := all_webpages sets ∪ all_repos sets in
  let all_links := repos_and_webpages in
  webpage_contents ←
    enrich_and_collect_content max_tokens model (elements all_links);
  mret {| disconnected := new_disconnected;
          remaining := new_remaining;
          webpage_contents := Some webpage_contents |}.

(** *** Preparing the messages file *)

(** The rendered text of each template loaded from the template folder. *)
Variable PROMPT_TEMPLATES : dict string.

(** [str.capitalize]. *)
Variable capitalize : string -> string.

(** The exception [os.makedirs(os.path.dirname(path), exist_ok=True)]
    raises, if it raises. *)
Variable makedirs_error : string -> option exn.

Definition role_tags : dict string :=
  [("system", "### System"); ("user", "### User");
   ("assistant", "### Assistant")].

Definition flatten_messages_to_prompt (messages : list message) : string :=
  let prompt_parts :=
    map (fun msg =>
           let content := strip (content msg) in
           match dict_get (role msg) role_tags with
           | Some tag => tag +:+ nl +:+ content +:+ nl
           | None => "### " +:+ capitalize (role msg) +:+ nl +:+ content +:+ nl
           end)
        messages in
  let prompt_parts := prompt_parts ++ ["### Assistant" +:+ nl] in
  strip (join nl prompt_parts).

(** What [build_prompt_benchmarking] returns: the chat messages, the
    flattened prompt, or [None] for another prompt type. *)
Inductive prompt : Type :=
| ChatMessages (messages : list message)
| FlatPrompt (text : string)
| NoPrompt.

Definition template (name : string) : result string :=
  match dict_get name PROMPT_TEMPLATES with
  | Some rendered => Ok rendered
  | None => Raise (KeyError name)
  end.

(** The two reshaping steps of the chat branch. *)
Definition rebalance (data_dict : conflict_data) : conflict_data :=
  let data_dict :=
    match disconnected data_dict, remaining data_dict with
    | d0 :: d1 :: _, [] =>
        {| disconnected := [d0]; remaining := [d1];
           webpage_contents := webpage_contents data_dict |}
    | _, _ => data_dict
    end in
  match disconnected data_dict, remaining data_dict with
  | [], [r0; r1] =>
      {| disconnected := [r0]; remaining := [r1];
         webpage_contents := webpage_contents data_dict |}
  | _, _ => data_dict
  end.

Definition build_prompt_benchmarking (data_dict : conflict_data)
    (prompt_type : string) : result prompt :=
  let disconnected_preamble := "The first software metadata_entry" in
  let remaining_preamble := "The second software metadata_entry" in
  if String.eqb prompt_type "chat" then
    instruction_prompt ← template "prompt_benchmarking_chat_style";
    let data_dict := rebalance data_dict in
    messages ← build_chat_messages_with_disconnected
                 instruction_prompt data_dict disconnected_preamble
                 remaining_preamble 8000 "gpt-4";
    Ok (ChatMessages messages)
  else if String.eqb prompt_type "flattened" then
    instruction_prompt ← template "prompt_benchmarking_flattened_style";
    messages ← build_chat_messages_with_disconnected
                 instruction_prompt data_dict disconnected_preamble
                 remaining_preamble 8000 "gpt-4";
    Ok (FlatPrompt (flatten_messages_to_prompt messages))
  else Ok NoPrompt.

Definition message_json (m : message) : json :=
  JObj [("role", JStr (role m)); ("content", JStr (content m))].

Definition prompt_json (p : prompt) : json :=
  match p with
  | ChatMessages messages => JArr (map message_json messages)
  | FlatPrompt text => JStr text
  | NoPrompt => JNull
  end.

(** [len(messages)]. *)
Definition prompt_len (p : prompt) : result nat :=
  match p with
  | ChatMessages messages => Ok (length messages)
  | FlatPrompt text => Ok (String.length text)
  | NoPrompt => Raise (TypeError "object of type 'NoneType' has no len()")
  end.

(** [write_to_results_file]: every failure is logged and swallowed. *)
Definition write_to_results_file (result : json) (results_file : string)
    : io unit :=
  match makedirs_error results_file with
  | Some _ => log_error "Error writing to results file"
  | None =>
      match open_error results_file with
      | Some _ => log_error "Error writing to results file"
      | None => emit (EvWrite results_file "a" (json_dumps_value result +:+ nl))
      end
  end.

(** The [try] block of the loop of [prepare_messages_file]. *)
Definition prepare_messages_try (messages_file_path prompt_type : string)
    (key : string) (conflict : conflict_group) : io unit :=
  full_conflict ← build_full_conflict conflict 8000 "gpt-4";
  messages ← lift (build_prompt_benchmarking full_conflict prompt_type);
  n ← lift (prompt_len messages);
  _ ← log_info ("Number of messages: " +:+ pretty n);
  _ ← write_to_results_file (JObj [(key, prompt_json messages)])
                            messages_file_path;
  log_info ("Messages for conflict " +:+ key +:+ " written to file.").

Definition prepare_messages_body (messages_file_path prompt_type : string)
    (item : string * conflict_group) : io unit :=
  let '(key, conflict) := item in
  _ ← log_info ("Building messsages for conflict - " +:+ key);
  let attempt :=
    prepare_messages_try messages_file_path prompt_type key conflict in
  match outcome attempt with
  | Ok _ => attempt
  | Raise e =>
      IO (trace attempt
          ++ [EvLog (LogError ("Error processing conflict " +:+ key))])
         (Raise e)
  end.

(** [prepare_messages_file]; [conflicts] is the dictionary in its iteration
    order. *)
Definition prepare_messages_file (conflicts : list (string * conflict_group))
    (messages_file_path prompt_type : string) : io unit :=
  io_for conflicts (prepare_messages_body messages_file_path prompt_type).

(** *** Prompt selection of the production path *)

(** The rendered text of each template that [disambiguation.py] loads into
    its own [PROMPT_TEMPLATES], from the folder
    [src/application/services/integration/prompts]. *)
Variable PROMPT_TEMPLATES_disambiguation : dict string.

Definition disambiguation_template (name : string) : result string :=
  match dict_get name PROMPT_TEMPLATES_disambiguation with
  | Some rendered => Ok rendered
  | None => Raise (KeyError name)
  end.

Definition unsupported_combination (n_disconnected n_remaining : nat) : exn :=
  ValueError ("Unsupported combination: " +:+ pretty n_disconnected
              +:+ " disconnected, " +:+ pretty n_remaining +:+ " remaining").

Definition build_prompt (disconnected remaining : list entry)
    : result (list message) :=
  let n_disconnected := length disconnected in
  let n_remaining := length remaining in
  instruction_prompt ←
    (if Nat.eqb n_disconnected 1 && Nat.eqb n_remaining 1 then
       disambiguation_template "disconnected_entries"
     else if Nat.ltb 1 n_disconnected && Nat.eqb n_remaining 0 then
       disambiguation_template "disconnected_entries"
     else if Nat.eqb n_disconnected 1 && Nat.ltb 1 n_remaining then
       disambiguation_template "one_disconnected_several_remaining"
     else if Nat.ltb 1 n_disconnected && Nat.ltb 1 n_remaining then
       disambiguation_template "several_disconnected_several_remaining"
     else Raise (unsupported_combination n_disconnected n_remaining));
  let data_dict :=
    {| disconnected := disconnected; remaining := remaining;
       webpage_contents := None |} in
  build_chat_messages_with_disconnected
    instruction_prompt data_dict "**Disconnected tools** to be analyzed"
    "Tools known to be the **same software**" 8000 "gpt-4".

(** *** One inference of the production path *)

(** [make_inference]: the client is chosen by the provider; whatever the
    [try] block raises is logged, and [None] is returned. *)
Definition make_inference (messages : json) (model provider : string)
    : io (option (string * json)) :=
  let attempt : io (option (string * json)) :=
    if String.eqb provider "openrouter" then
      answer ← query_openrouter messages model;
      mret (Some answer)
    else if String.eqb provider "huggingface" then
      answer ← query_huggingface messages model;
      match answer with
      | Some tuple => mret (Some tuple)
      | None =>
          lift (Raise (TypeError "cannot unpack non-iterable NoneType object"))
      end
    else
      (* [query_func] was never assigned: an [UnboundLocalError] *)
      lift (Raise (Exception "local variable 'query_func' referenced before assignment")) in
  match outcome attempt with
  | Ok _ => attempt
  | Raise _ =>
      IO (trace attempt ++ [EvLog (LogError "Error resolving conflict")])
         (Ok None)
  end.

(** *** The production loop *)

(** One iteration of the loop of [disambiguate_disconnected_entries].  In
    its [try] block, [build_full_conflict(...)] is called without [await]:
    the coroutine object it returns is never run, the subscript
    [full_conflict["disconnected"]] raises [TypeError], and the handler
    raises it again; the statements after it are not reached. *)
Definition disambiguate_step {V : Type} (disconnected_entries : dict V)
    (grouped_entries : dict json) (solved_conflicts_keys : gset pykey)
    (disambiguated_grouped : dict json) (key : string) : io (dict json) :=
  match dict_get key disconnected_entries with
  | Some _ =>
      if decide (KStr key ∈ solved_conflicts_keys) then
        mret disambiguated_grouped
      else
        _ ← log_info ("Processing conflict - " +:+ key);
        lift (Raise (TypeError "'coroutine' object is not subscriptable"))
  | None =>
      group ← lift (match dict_get key grouped_entries with
                    | Some group => Ok group
                    | None => Raise (KeyError key)
                    end);
      instances ← lift (py_getitem group "instances");
      mret (dict_set key (JObj [("instances", instances)])
                     disambiguated_grouped)
  end.

(** [disambiguate_disconnected_entries]: the pair of [disambiguated_grouped]
    and [results]. *)
Definition disambiguate_disconnected_entries {V : Type}
    (disconnected_entries : dict V) (instances_dict : pydict json)
    (grouped_entries : dict json) (results_file : string)
    : io (dict json * dict json) :=
  solved_conflicts_keys ← load_solved_conflict_keys results_file;
  disambiguated_grouped ←
    io_fold (disambiguate_step disconnected_entries grouped_entries
                               solved_conflicts_keys)
            (dict_keys grouped_entries) [];
  mret (disambiguated_grouped, []).

(** *** Reading the messages file *)

(** [entry[key]] for a list [entry] whose first item [key] is a number: the
    item at that index when [json.loads] read the number as an [int],
    [TypeError] when it read a [float].  The decoded values here do not keep
    that difference, so the outcome is given per line. *)
Variable list_entry_item : string -> result json.

(** [entry[key]] for the [key] that [next(iter(entry))] gave. *)
Definition first_key_item (line : string) (entry key : json) : result json :=
  match entry, key with
  | JObj _, JStr k => py_getitem entry k
  | JArr items, JBool b =>
      match items !! (if b then 1%nat else 0%nat) with
      | Some x => Ok x
      | None => Raise (IndexError "list index out of range")
      end
  | JArr _, JNum _ => list_entry_item line
  | JArr _, _ => Raise (TypeError "list indices must be integers or slices")
  | JStr _, _ => Raise (TypeError "string indices must be integers")
  | _, _ => Raise (TypeError "object is not subscriptable")
  end.

(** The [try] block of the loop of [parse_messages_file]. *)
Definition parse_messages_try (line : string) : result (pykey * json) :=
  entry ← json_loads line;
  key ← next_iter entry;
  message ← first_key_item line entry key;
  k ← key_of_json key;
  Ok (k, message).

Definition parse_messages_step (acc : pydict json * list event)
    (line : string) : pydict json * list event :=
  let '(messages, logged) := acc in
  if String.eqb (strip line) EmptyString then acc
  else
    match parse_messages_try line with
    | Ok (key, message) => (pydict_set key message messages, logged)
    | Raise e =>
        (messages,
         logged ++ [EvLog (LogWarning ("Could not parse line: "
                                       +:+ take_str 100 line +:+ "..."))])
    end.

(** [parse_messages_file]; [open] raises when there is no file. *)
Definition parse_messages_file (messages_file_path : string)
    : io (pydict json) :=
  match read_file messages_file_path with
  | None => lift (Raise (OSError "No such file or directory"))
  | Some content =>
      let '(messages, logged) :=
        fold_left parse_messages_step (file_lines content) ([], []) in
      IO logged (Ok messages)
  end.

Definition make_inferences_model (messages_file_path model results_file_path
    raw_results_path provider : string) : io unit :=
  messages_dict ← parse_messages_file messages_file_path;
  make_inferences messages_dict model results_file_path raw_results_path
                  provider.

(** *** The instances of the grouped entries *)

(** [instances_keys[instance["_id"]] = instance]. *)
Definition file_instance (instances_keys : pydict json) (instance : json)
    : result (pydict json) :=
  id ← py_getitem instance "_id";
  k ← key_of_json id;
  Ok (pydict_set k instance instances_keys).

(** The body of the loop over [data.items()]. *)
Definition file_group (instances_keys : pydict json) (item : string * json)
    : result (pydict json) :=
  instances ← py_get item.2 "instances" (JArr []);
  items ← py_iter instances;
  fold_result file_instance items instances_keys.

Definition build_instances_keys_dict (data : json) : result (pydict json) :=
  groups ← py_items data;
  fold_result file_group groups [].

(** *** The lines of a results file *)

(** The line that [write_to_results_file] and [save_result] append for the
    result [{key: value}], and the text of a file that holds only such
    lines. *)
Definition ledger_line (key : string) (value : json) : string :=
  json_dumps_value (JObj [(key, value)]) +:+ nl.

Definition ledger_text (entries : list (string * json)) : string :=
  fold_right (fun kv rest => ledger_line kv.1 kv.2 +:+ rest) EmptyString
             entries.

(** * Properties *)

Lemma gtb_false (n m : Z) : (n >? m) = false <-> n <= m.
Proof. rewrite Z.gtb_ltb. apply Z.ltb_ge. Qed.

Lemma gtb_true (n m : Z) : (n >? m) = true <-> m < n.
Proof. rewrite Z.gtb_ltb. apply Z.ltb_lt. Qed.

(** ** Greedy accumulation *)

Section GreedyFacts.

Context {A : Type} (tok : A -> nat) (max_tokens : Z).

Lemma group_tokens_app (g h : list A) :
  group_tokens tok (g ++ h) = group_tokens tok g + group_tokens tok h.
Proof.
  induction g as [|x g IH]; simpl; [reflexivity|]. rewrite IH. lia.
Qed.

Lemma group_tokens_nonneg (g : list A) : 0 <= group_tokens tok g.
Proof. induction g as [|x g IH]; simpl; lia. Qed.

Lemma group_tokens_elem (g : list A) (x : A) :
  In x g -> Z.of_nat (tok x) <= group_tokens tok g.
Proof.
  induction g as [|y g IH]; simpl; [intros []|].
  intros [->|Hin]; [pose proof (group_tokens_nonneg g); lia|].
  specialize (IH Hin). lia.
Qed.

Lemma greedy_step_inv (done : list A) st (x : A) :
  greedy_inv tok max_tokens done st ->
  greedy_inv tok max_tokens (done ++ [x]) (greedy_step tok max_tokens st x).
Proof.
  destruct st as [[closed cur] cnt]. intros (Hcat & Hcnt & Hclosed & Hcur).
  unfold greedy_step.
  destruct (cnt + Z.of_nat (tok x) >? max_tokens) eqn:Hcmp; simpl.
  - repeat split.
    + rewrite concat_app. simpl. rewrite app_nil_r, Hcat. reflexivity.
    + lia.
    + apply Forall_app. split; [exact Hclosed|].
      constructor; [|constructor].
      destruct Hcur as [Hle|[y ->]]; [left; exact Hle|].
      destruct (Z_le_gt_dec (group_tokens tok [y]) max_tokens) as [Hle|Hgt].
      * left. exact Hle.
      * right. exists y. split; [reflexivity|]. simpl in Hgt. lia.
    + right. exists x. reflexivity.
  - repeat split.
    + rewrite app_assoc, Hcat. reflexivity.
    + rewrite group_tokens_app. simpl. lia.
    + exact Hclosed.
    + left. rewrite group_tokens_app. simpl.
      apply gtb_false in Hcmp. lia.
Qed.

Lemma greedy_fold_inv (items done : list A) st :
  greedy_inv tok max_tokens done st ->
  greedy_inv tok max_tokens (done ++ items)
             (fold_left (greedy_step tok max_tokens) items st).
Proof.
  revert done st. induction items as [|x items IH]; intros done st Hinv; simpl.
  - rewrite app_nil_r. exact Hinv.
  - replace (done ++ x :: items) with ((done ++ [x]) ++ items)
      by (rewrite <- app_assoc; reflexivity).
    apply IH, greedy_step_inv, Hinv.
Qed.

Lemma greedy_close_inv (done : list A) st :
  greedy_inv tok max_tokens done st ->
  concat (greedy_close st) = done
  /\ Forall (within_limit tok max_tokens) (greedy_close st).
Proof.
  destruct st as [[closed cur] cnt]. intros (Hcat & Hcnt & Hclosed & Hcur).
  unfold greedy_close. destruct cur as [|y cur'] eqn:Ecur.
  - rewrite app_nil_r in Hcat. split; assumption.
  - split.
    + rewrite concat_app. simpl. rewrite app_nil_r. exact Hcat.
    + apply Forall_app. split; [exact Hclosed|].
      constructor; [|constructor].
      destruct Hcur as [Hle|[z Hz]]; [left; exact Hle|].
      injection Hz as -> ->.
      destruct (Z_le_gt_dec (group_tokens tok [z]) max_tokens) as [Hle|Hgt].
      * left. exact Hle.
      * right. exists z. split; [reflexivity|]. simpl in Hgt. lia.
Qed.

(** The groups partition the items in order and respect the limit. *)
Lemma greedy_groups_spec (items : list A) :
  0 <= max_tokens ->
  concat (greedy_groups tok max_tokens items) = items
  /\ Forall (within_limit tok max_tokens) (greedy_groups tok max_tokens items).
Proof.
  intros Hmax. unfold greedy_groups.
  apply (greedy_close_inv ([] ++ items)), greedy_fold_inv.
  simpl. repeat split; [constructor|left; exact Hmax].
Qed.

Lemma greedy_close_concat (closed : list (list A)) (cur : list A) (cnt : Z) :
  concat (greedy_close (closed, cur, cnt)) = concat closed ++ cur.
Proof.
  unfold greedy_close. destruct cur.
  - rewrite app_nil_r. reflexivity.
  - rewrite concat_app. simpl. rewrite app_nil_r. reflexivity.
Qed.

(** The groups are the items in order, whatever the limit. *)
Lemma greedy_fold_concat (items : list A) st :
  concat (greedy_close (fold_left (greedy_step tok max_tokens) items st))
  = concat (greedy_close st) ++ items.
Proof.
  revert st. induction items as [|x items IH]; intros st; simpl.
  - rewrite app_nil_r. reflexivity.
  - rewrite IH. destruct st as [[closed cur] cnt]. unfold greedy_step.
    destruct (cnt + Z.of_nat (tok x) >? max_tokens);
      rewrite !greedy_close_concat.
    + rewrite concat_app. simpl. rewrite app_nil_r, <- !app_assoc.
      reflexivity.
    + rewrite <- !app_assoc. reflexivity.
Qed.

Lemma greedy_groups_concat (items : list A) :
  concat (greedy_groups tok max_tokens items) = items.
Proof. unfold greedy_groups. rewrite greedy_fold_concat. reflexivity. Qed.

(** An item that alone exceeds the limit is the only item of its group. *)
Lemma within_limit_oversized (g : list A) (x : A) :
  within_limit tok max_tokens g -> In x g ->
  Z.of_nat (tok x) > max_tokens -> g = [x].
Proof.
  intros [Hle|[y [-> Hy]]] Hin Hbig.
  - pose proof (group_tokens_elem g x Hin). lia.
  - destruct Hin as [->|[]]. reflexivity.
Qed.

Lemma greedy_fold_nonempty (items : list A) st :
  nonempty_inv st ->
  nonempty_inv (fold_left (greedy_step tok max_tokens) items st).
Proof.
  revert st. induction items as [|x items IH]; intros st Hinv; simpl;
    [exact Hinv|].
  apply IH. destruct st as [[closed cur] cnt]. destruct Hinv as [Hc Hcur].
  unfold greedy_step.
  destruct (cnt + Z.of_nat (tok x) >? max_tokens); simpl.
  - split; [|discriminate]. apply Forall_app. split; [exact Hc|].
    constructor; [exact Hcur|constructor].
  - split; [exact Hc|]. destruct cur; discriminate.
Qed.

Lemma greedy_groups_nonempty (x : A) (items : list A) :
  Z.of_nat (tok x) <= max_tokens ->
  Forall (fun g => g <> []) (greedy_groups tok max_tokens (x :: items)).
Proof.
  intros Hfit. unfold greedy_groups. simpl.
  assert (Hgt : (0 + Z.of_nat (tok x) >? max_tokens) = false).
  { apply gtb_false. lia. }
  rewrite Hgt.
  pose proof (greedy_fold_nonempty items ([], [] ++ [x], 0 + Z.of_nat (tok x)))
    as Hne.
  destruct (fold_left _ items _) as [[closed cur] cnt].
  destruct Hne as [Hc Hcur]; [split; [constructor|discriminate]|].
  unfold greedy_close. destruct cur; [contradiction|].
  apply Forall_app. split; [exact Hc|]. constructor; [discriminate|constructor].
Qed.

End GreedyFacts.

(** ** Strings *)

Lemma append_cons (x : ascii) (a b : string) :
  String x a +:+ b = String x (a +:+ b).
Proof. reflexivity. Qed.

Lemma append_assoc (a b c : string) : (a +:+ b) +:+ c = a +:+ b +:+ c.
Proof.
  induction a as [|x a IH]; [reflexivity|].
  rewrite !append_cons, IH. reflexivity.
Qed.

Lemma append_nil_r (a : string) : a +:+ "" = a.
Proof.
  induction a as [|x a IH]; [reflexivity|].
  rewrite append_cons, IH. reflexivity.
Qed.


Lemma join_cons (sep w : string) (ws : list string) :
  ws <> [] -> join sep (w :: ws) = w +:+ sep +:+ join sep ws.
Proof. destruct ws; [contradiction|reflexivity]. Qed.

Lemma join_app (sep : string) (l1 l2 : list string) :
  l1 <> [] -> l2 <> [] ->
  join sep (l1 ++ l2) = join sep l1 +:+ sep +:+ join sep l2.
Proof.
  intros H1 H2. induction l1 as [|w l1 IH]; [contradiction|].
  destruct l1 as [|w' l1].
  - simpl app. rewrite join_cons by exact H2. reflexivity.
  - change ((w :: w' :: l1) ++ l2) with (w :: ((w' :: l1) ++ l2)).
    rewrite join_cons by discriminate.
    rewrite IH by discriminate.
    rewrite (join_cons sep w (w' :: l1)) by discriminate.
    rewrite !append_assoc. reflexivity.
Qed.

(** Joining the joined groups is joining all their items, as long as no
    group is empty. *)
Lemma join_groups (sep : string) (groups : list (list string)) :
  Forall (fun g => g <> []) groups ->
  join sep (map (join sep) groups) = join sep (concat groups).
Proof.
  induction 1 as [|g groups Hg Hall IH]; [reflexivity|].
  destruct groups as [|g' groups].
  - simpl. rewrite app_nil_r. reflexivity.
  - change (map (join sep) (g :: g' :: groups))
      with (join sep g :: map (join sep) (g' :: groups)).
    rewrite join_cons by discriminate.
    rewrite IH. simpl concat at 2.
    change (concat (g :: g' :: groups)) with (g ++ concat (g' :: groups)).
    rewrite join_app; [reflexivity|exact Hg|].
    inversion Hall as [|? ? Hg' _]; subst. simpl.
    destruct g'; [contradiction|discriminate].
Qed.

(** ** Words *)

Lemma is_word_cons (c : ascii) (w : string) :
  is_word (String c w)
  = not_space c && match w with EmptyString => true | _ => is_word w end.
Proof. destruct w; simpl; [rewrite andb_true_r|]; reflexivity. Qed.

Lemma split_ws_words (s : string) : Forall (fun w => is_word w = true) (split_ws s).
Proof.
  induction s as [|c s IH]; simpl; [constructor|].
  destruct (is_space c) eqn:Ec; [exact IH|].
  assert (Hc : not_space c = true) by (unfold not_space; rewrite Ec; reflexivity).
  destruct s as [|c' s']; [repeat constructor; exact Hc|].
  destruct (is_space c') eqn:Ec'.
  - constructor; [exact Hc|exact IH].
  - destruct (split_ws (String c' s')) as [|w ws] eqn:Es.
    + repeat constructor. exact Hc.
    + inversion IH as [|? ? Hw Hws]; subst. constructor; [|exact Hws].
      rewrite is_word_cons, Hc. destruct w; [discriminate|exact Hw].
Qed.

Lemma split_ws_word (w : string) : is_word w = true -> split_ws w = [w].
Proof.
  induction w as [|c w IH]; [discriminate|].
  rewrite is_word_cons. intros H. apply andb_prop in H as [Hc Hw].
  unfold not_space in Hc. apply negb_true_iff in Hc.
  simpl. rewrite Hc. destruct w as [|c' w']; [reflexivity|].
  specialize (IH Hw). rewrite is_word_cons in Hw.
  apply andb_prop in Hw as [Hc' _]. unfold not_space in Hc'.
  apply negb_true_iff in Hc'. rewrite Hc', IH. reflexivity.
Qed.

Lemma split_ws_word_space (w rest : string) :
  is_word w = true -> split_ws (w +:+ " " +:+ rest) = w :: split_ws rest.
Proof.
  induction w as [|c w IH]; [discriminate|].
  rewrite is_word_cons. intros H. apply andb_prop in H as [Hc Hw].
  unfold not_space in Hc. apply negb_true_iff in Hc.
  rewrite append_cons. simpl split_ws at 1. rewrite Hc.
  destruct w as [|c' w'].
  - reflexivity.
  - specialize (IH Hw). rewrite is_word_cons in Hw.
    apply andb_prop in Hw as [Hc' _]. unfold not_space in Hc'.
    apply negb_true_iff in Hc'.
    rewrite append_cons in *. rewrite Hc', IH. reflexivity.
Qed.

(** Splitting single-space-separated words gives the words back. *)
Lemma split_ws_join (ws : list string) :
  Forall (fun w => is_word w = true) ws -> split_ws (join " " ws) = ws.
Proof.
  induction 1 as [|w ws Hw Hws IH]; [reflexivity|].
  destruct ws as [|w' ws].
  - simpl. apply split_ws_word. exact Hw.
  - rewrite join_cons by discriminate.
    rewrite split_ws_word_space by exact Hw. rewrite IH. reflexivity.
Qed.

Lemma Forall_concat_inv {A : Type} (P : A -> Prop) (groups : list (list A)) :
  Forall P (concat groups) -> Forall (Forall P) groups.
Proof.
  induction groups as [|g groups IH]; simpl; intros H; [constructor|].
  apply Forall_app in H as [Hg Hrest]. constructor; [exact Hg|apply IH, Hrest].
Qed.

(** ** Chunkers *)

Lemma chunk_text_step_sim (max_tokens : Z) (model : string) g (w : string) :
  chunk_text_step max_tokens model (text_state g) w
  = text_state (greedy_step (word_tokens model) max_tokens g w).
Proof.
  destruct g as [[closed cur] cnt].
  unfold chunk_text_step, greedy_step, word_tokens, text_state. simpl.
  destruct (cnt + Z.of_nat (tokenizer model (w +:+ " ")) >? max_tokens);
    [rewrite map_app|]; reflexivity.
Qed.

Lemma chunk_text_fold (max_tokens : Z) (model : string) (words : list string) g :
  fold_left (chunk_text_step max_tokens model) words (text_state g)
  = text_state (fold_left (greedy_step (word_tokens model) max_tokens) words g).
Proof.
  revert g. induction words as [|w words IH]; intros g; [reflexivity|].
  simpl. rewrite chunk_text_step_sim. apply IH.
Qed.

(** [chunk_text] joins the words of each greedy group. *)
Lemma chunk_text_groups (text : string) (max_tokens : Z) (model : string) :
  chunk_text text max_tokens model
  = map (join " ")
        (greedy_groups (word_tokens model) max_tokens (split_ws text)).
Proof.
  unfold chunk_text, greedy_groups.
  change {| tc_chunks := []; tc_current_chunk := [];
            tc_current_token_count := 0 |}
    with (text_state ([], [], 0)).
  rewrite chunk_text_fold.
  destruct (fold_left (greedy_step _ _) _ _) as [[closed cur] cnt]. simpl.
  destruct cur; [reflexivity|]. rewrite map_app. reflexivity.
Qed.

Lemma chunk_entries_step_sim (max_tokens : Z) (model : string) g (e : entry) :
  chunk_entries_step max_tokens model (entry_state g) e
  = entry_state (greedy_step (entry_tokens model) max_tokens g e).
Proof.
  destruct g as [[closed cur] cnt].
  unfold chunk_entries_step, greedy_step, entry_tokens, entry_state. simpl.
  destruct (cnt + Z.of_nat (tokenizer model (json_dumps e)) >? max_tokens);
    reflexivity.
Qed.

Lemma chunk_entries_fold (max_tokens : Z) (model : string)
    (entries : list entry) g :
  fold_left (chunk_entries_step max_tokens model) entries (entry_state g)
  = entry_state
      (fold_left (greedy_step (entry_tokens model) max_tokens) entries g).
Proof.
  revert g. induction entries as [|e entries IH]; intros g; [reflexivity|].
  simpl. rewrite chunk_entries_step_sim. apply IH.
Qed.

(** [chunk_entries] is the greedy grouping of the entries. *)
Lemma chunk_entries_groups (max_tokens : Z) (model : string)
    (entries : list entry) :
  chunk_entries max_tokens model entries
  = greedy_groups (entry_tokens model) max_tokens entries.
Proof.
  unfold chunk_entries, greedy_groups.
  change {| ec_chunks := []; ec_current_chunk := [];
            ec_current_token_count := 0 |}
    with (entry_state ([], [], 0)).
  rewrite chunk_entries_fold.
  destruct (fold_left (greedy_step _ _) _ _) as [[closed cur] cnt].
  reflexivity.
Qed.

(** Each chunk of [chunk_text] splits back into the words of its group. *)
Lemma chunk_text_words (text : string) (max_tokens : Z) (model : string) :
  map split_ws (chunk_text text max_tokens model)
  = greedy_groups (word_tokens model) max_tokens (split_ws text).
Proof.
  rewrite chunk_text_groups.
  pose proof (split_ws_words text) as Hwords.
  rewrite <- (greedy_groups_concat (word_tokens model) max_tokens
                (split_ws text)) in Hwords.
  apply Forall_concat_inv in Hwords.
  induction Hwords as [|g groups Hg _ IH]; [reflexivity|].
  simpl. rewrite IH, (split_ws_join g Hg). reflexivity.
Qed.

(** C7.  For a positive [max_tokens], the chunks of [chunk_text] are the
    space-joined groups of a partition of the words into consecutive groups,
    each chunk splitting back into the words of its group, and the chunks
    of [chunk_entries] are a partition of the entries into consecutive
    groups (no item is split or dropped); the accumulated token count of
    every group is at most [max_tokens] unless the group is a single item
    that alone exceeds [max_tokens]; and an item that alone exceeds
    [max_tokens] is the only item of its group. *)
Theorem chunk_token_bound (max_tokens : Z) (model text : string)
    (entries : list entry) :
  0 < max_tokens ->
  (exists groups : list (list string),
      chunk_text text max_tokens model = map (join " ") groups
      /\ map split_ws (chunk_text text max_tokens model) = groups
      /\ concat groups = split_ws text
      /\ Forall (within_limit (word_tokens model) max_tokens) groups
      /\ (forall g w, In g groups -> In w g ->
            Z.of_nat (word_tokens model w) > max_tokens -> g = [w]))
  /\ (concat (chunk_entries max_tokens model entries) = entries
      /\ Forall (within_limit (entry_tokens model) max_tokens)
                (chunk_entries max_tokens model entries)
      /\ (forall g e, In g (chunk_entries max_tokens model entries) ->
            In e g -> Z.of_nat (entry_tokens model e) > max_tokens ->
            g = [e])).
Proof.
  intros Hpos. split.
  - exists (greedy_groups (word_tokens model) max_tokens (split_ws text)).
    destruct (greedy_groups_spec (word_tokens model) max_tokens
                (split_ws text)) as [Hcat Hall]; [lia|].
    repeat split;
      [apply chunk_text_groups|apply chunk_text_words|exact Hcat|exact Hall|].
    intros g w Hg Hw Hbig.
    rewrite Forall_forall in Hall.
    apply (within_limit_oversized (word_tokens model) max_tokens); auto.
    apply Hall. apply list_elem_of_In. exact Hg.
  - rewrite chunk_entries_groups.
    destruct (greedy_groups_spec (entry_tokens model) max_tokens entries)
      as [Hcat Hall]; [lia|].
    repeat split; [exact Hcat|exact Hall|].
    intros g e Hg He Hbig.
    rewrite Forall_forall in Hall.
    apply (within_limit_oversized (entry_tokens model) max_tokens); auto.
    apply Hall. apply list_elem_of_In. exact Hg.
Qed.

(** C6, as amended.  When the first word of the text, if there is one, does
    not alone exceed [max_tokens], joining the chunks of [chunk_text] with
    single spaces gives the words of the text joined with single spaces,
    which is the text itself when the text consists of words separated by
    single spaces; and in every case the chunks are the space-joined groups
    of a partition of the word sequence into consecutive groups, so that
    chunk boundaries never reorder the words. *)
Theorem chunk_text_rejoin (text : string) (max_tokens : Z) (model : string) :
  (forall w ws, split_ws text = w :: ws ->
                Z.of_nat (word_tokens model w) <= max_tokens) ->
  join " " (chunk_text text max_tokens model) = join " " (split_ws text)
  /\ (forall ws, Forall (fun w => is_word w = true) ws ->
                 text = join " " ws ->
                 join " " (chunk_text text max_tokens model) = text)
  /\ exists groups : list (list string),
       chunk_text text max_tokens model = map (join " ") groups
       /\ concat groups = split_ws text.
Proof.
  intros Hfirst.
  assert (Hjoin : join " " (chunk_text text max_tokens model)
                  = join " " (split_ws text)).
  { rewrite chunk_text_groups.
    destruct (split_ws text) as [|w ws] eqn:Ewords; [reflexivity|].
    rewrite join_groups.
    - rewrite greedy_groups_concat. reflexivity.
    - apply greedy_groups_nonempty. exact (Hfirst w ws eq_refl). }
  split; [exact Hjoin|]. split.
  - intros ws Hws Htext. rewrite Hjoin, Htext, (split_ws_join ws Hws).
    reflexivity.
  - exists (greedy_groups (word_tokens model) max_tokens (split_ws text)).
    split; [apply chunk_text_groups|apply greedy_groups_concat].
Qed.

(** ** Effectful computations *)

Lemma io_bind_ok {A B : Type} (m : io A) (f : A -> io B) (a : A) :
  outcome m = Ok a ->
  m ≫= f = IO (trace m ++ trace (f a)) (outcome (f a)).
Proof. intros H. unfold mbind, io_bind. rewrite H. reflexivity. Qed.

Lemma io_bind_raise {A B : Type} (m : io A) (f : A -> io B) (e : exn) :
  outcome m = Raise e -> m ≫= f = IO (trace m) (Raise e).
Proof. intros H. unfold mbind, io_bind. rewrite H. reflexivity. Qed.

Lemma io_bind_trace_prefix {A B : Type} (m : io A) (f : A -> io B) :
  exists rest, trace (m ≫= f) = trace m ++ rest.
Proof.
  unfold mbind, io_bind. destruct (outcome m).
  - eexists. reflexivity.
  - exists []. simpl. rewrite app_nil_r. reflexivity.
Qed.

Lemma enrich_calls_app (t1 t2 : list event) :
  enrich_calls (t1 ++ t2) = enrich_calls t1 ++ enrich_calls t2.
Proof. unfold enrich_calls. apply flat_map_app. Qed.

Lemma query_keys_app (t1 t2 : list event) :
  query_keys (t1 ++ t2) = query_keys t1 ++ query_keys t2.
Proof. unfold query_keys. apply flat_map_app. Qed.

(** ** Dictionaries *)

Lemma dict_set_keys {V : Type} (k : string) (v : V) (d : dict V) :
  dict_keys (dict_set k v d)
  = if existsb (String.eqb k) (dict_keys d) then dict_keys d
    else dict_keys d ++ [k].
Proof.
  induction d as [|[k' v'] d IH]; simpl; [reflexivity|].
  destruct (String.eqb k k') eqn:E; simpl.
  - apply String.eqb_eq in E. subst. reflexivity.
  - unfold dict_keys in *. rewrite IH.
    destruct (existsb (String.eqb k) (map fst d)); reflexivity.
Qed.

Lemma existsb_eqb_In (k : string) (l : list string) :
  existsb (String.eqb k) l = true <-> In k l.
Proof.
  rewrite existsb_exists. split.
  - intros (x & Hx & E). apply String.eqb_eq in E. subst. exact Hx.
  - intros H. exists k. split; [exact H|apply String.eqb_refl].
Qed.

Lemma dict_set_keys_In {V : Type} (k k' : string) (v : V) (d : dict V) :
  In k' (dict_keys (dict_set k v d)) <-> k' = k \/ In k' (dict_keys d).
Proof.
  rewrite dict_set_keys.
  destruct (existsb (String.eqb k) (dict_keys d)) eqn:E.
  - apply existsb_eqb_In in E. split; [auto|]. intros [->|H]; assumption.
  - rewrite in_app_iff. simpl. split; [intros [H|[H|[]]]|intros [H|H]]; auto.
Qed.

Lemma dict_set_keys_NoDup {V : Type} (k : string) (v : V) (d : dict V) :
  NoDup (dict_keys d) -> NoDup (dict_keys (dict_set k v d)).
Proof.
  intros Hnd. rewrite dict_set_keys.
  destruct (existsb (String.eqb k) (dict_keys d)) eqn:E; [exact Hnd|].
  apply NoDup_app. split; [exact Hnd|]. split.
  - intros x Hx Hk. apply list_elem_of_In in Hx.
    apply list_elem_of_In in Hk. destruct Hk as [<-|[]].
    apply existsb_eqb_In in Hx. congruence.
  - apply NoDup_singleton.
Qed.

(** ** Conflict assembler *)

Lemma enrich_step_trace (max_tokens : Z) (model : string) (st : collector)
    (url : string) :
  trace (enrich_and_collect_step max_tokens model st url)
  = if bool_decide (url ∈ seen st) || String.eqb url EmptyString then []
    else [EvEnrich url].
Proof.
  unfold enrich_and_collect_step.
  destruct (bool_decide (url ∈ seen st) || String.eqb url EmptyString);
    [reflexivity|].
  unfold mbind, io_bind, lift, emit. simpl.
  destruct (enrich_link url) as [enriched|e]; simpl; [|reflexivity].
  destruct (collect_labels enriched max_tokens model); reflexivity.
Qed.

Lemma enrich_step_ok (max_tokens : Z) (model : string) (st st' : collector)
    (url : string) :
  outcome (enrich_and_collect_step max_tokens model st url) = Ok st' ->
  ((bool_decide (url ∈ seen st) || String.eqb url EmptyString) = true
   /\ st' = st)
  \/ ((bool_decide (url ∈ seen st) || String.eqb url EmptyString) = false
      /\ seen st' = seen st ∪ {[ url ]}
      /\ exists labels, contents st' = dict_set url labels (contents st)).
Proof.
  unfold enrich_and_collect_step.
  destruct (bool_decide (url ∈ seen st) || String.eqb url EmptyString).
  - simpl. intros [= <-]. left. auto.
  - unfold mbind, io_bind, lift, emit. simpl.
    destruct (enrich_link url) as [enriched|e]; simpl; [|discriminate].
    destruct (collect_labels enriched max_tokens model) as [labels|e]; simpl;
      [|discriminate].
    intros [= <-]. right. simpl. eauto.
Qed.

Lemma skip_condition_false (st : collector) (url : string) :
  (bool_decide (url ∈ seen st) || String.eqb url EmptyString) = false ->
  (url ∉ seen st) /\ url <> EmptyString.
Proof.
  intros H. apply orb_false_elim in H as [H1 H2].
  apply bool_decide_eq_false in H1. apply String.eqb_neq in H2. auto.
Qed.

(** The loop calls [enrich_link] for pairwise different URLs, none of them
    seen before, and a dictionary with one key per URL stays so. *)
Lemma enrich_loop_calls (max_tokens : Z) (model : string)
    (url_list : list string) (st : collector) :
  let r := enrich_and_collect_loop max_tokens model url_list st in
  NoDup (enrich_calls (trace r))
  /\ (forall u, u ∈ enrich_calls (trace r) -> (u ∉ seen st) /\ u ∈ url_list)
  /\ (forall st', outcome r = Ok st' ->
        (forall u, u ∈ seen st' <->
                   u ∈ seen st \/ u ∈ enrich_calls (trace r))
        /\ (NoDup (dict_keys (contents st)) ->
            NoDup (dict_keys (contents st')))
        /\ (forall k, k ∈ dict_keys (contents st') ->
              k ∈ dict_keys (contents st) \/ k ∈ enrich_calls (trace r))).
Proof.
  revert st. induction url_list as [|url rest IH]; intros st; simpl.
  - split; [constructor|]. split; [intros u Hu; inversion Hu|].
    intros st' [= <-]. split; [|split]; [|auto|auto].
    intros u. split; [auto|]. intros [H|H]; [exact H|inversion H].
  - pose proof (enrich_step_trace max_tokens model st url) as Htr.
    pose proof (enrich_step_ok max_tokens model st) as Hok.
    destruct (outcome (enrich_and_collect_step max_tokens model st url))
      as [st1|e] eqn:Est.
    + rewrite (io_bind_ok _ _ st1 Est). simpl. rewrite Htr.
      specialize (IH st1). simpl in IH. destruct IH as (Hnd & Hnew & Hfin).
      destruct (Hok st1 url Est) as [[Hc ->]|(Hc & Hseen & labels & Hcont)];
        rewrite Hc; simpl.
      * split; [exact Hnd|]. split.
        { intros u Hu. destruct (Hnew u Hu). split; [auto|]. by right. }
        exact Hfin.
      * apply skip_condition_false in Hc as [Hns Hne].
        split; [|split].
        { constructor; [|exact Hnd]. intros Hin.
          destruct (Hnew url Hin) as [Hn _]. apply Hn. rewrite Hseen.
          apply elem_of_union. right. apply elem_of_singleton. reflexivity. }
        { intros u Hu. apply elem_of_cons in Hu as [->|Hu].
          - split; [exact Hns|by left].
          - destruct (Hnew u Hu) as [Hn Hin]. split; [|by right].
            intros Hs. apply Hn. rewrite Hseen.
            apply elem_of_union. left. exact Hs. }
        intros st' Hst'. destruct (Hfin st' Hst') as (Hs & Hk & Hkeys).
        split; [|split].
        { intros u. rewrite Hs, Hseen, elem_of_cons, elem_of_union,
            elem_of_singleton.
          split; [intros [[H|H]|H]|intros [H|[H|H]]]; auto. }
        { intros Hd. apply Hk. rewrite Hcont.
          apply dict_set_keys_NoDup, Hd. }
        { intros k Hkin. destruct (Hkeys k Hkin) as [H|H].
          - rewrite Hcont in H. apply list_elem_of_In in H.
            apply dict_set_keys_In in H as [->|H].
            + right. by left.
            + left. by apply list_elem_of_In.
          - right. by right. }
    + rewrite (io_bind_raise _ _ e Est). simpl. rewrite Htr.
      split; [|split].
      * destruct (_ || _); simpl; [constructor|apply NoDup_singleton].
      * intros u Hu.
        destruct (bool_decide (url ∈ seen st) || String.eqb url EmptyString)
          eqn:Hc; simpl in Hu; [inversion Hu|].
        apply list_elem_of_singleton in Hu as ->.
        apply skip_condition_false in Hc as [Hns _]. split; [exact Hns|by left].
      * discriminate.
Qed.

Lemma strip_partition_out (entries out : list entry) (sets : link_sets) :
  (fold_left strip_partition entries (out, sets)).1 = out ++ entries.
Proof.
  revert out sets. induction entries as [|e entries IH]; intros out sets; simpl.
  - rewrite app_nil_r. reflexivity.
  - rewrite IH, <- app_assoc. reflexivity.
Qed.

(** [build_full_conflict] returns the entries of both partitions as they
    came in, next to what the collector gathers for a list of links. *)
Lemma build_full_conflict_parts (conflict : conflict_group) (max_tokens : Z)
    (model : string) :
  exists url_list : list string,
    build_full_conflict conflict max_tokens model
    = (enrich_and_collect_content max_tokens model url_list ≫= fun wc =>
       mret {| disconnected := cg_disconnected conflict;
               remaining := cg_remaining conflict;
               webpage_contents := Some wc |}).
Proof.
  unfold build_full_conflict.
  pose proof (strip_partition_out (cg_disconnected conflict) []
                {| all_webpages := ∅; all_repos := ∅ |}) as Hd.
  destruct (fold_left strip_partition (cg_disconnected conflict) _)
    as [new_disconnected sets1].
  pose proof (strip_partition_out (cg_remaining conflict) [] sets1) as Hr.
  destruct (fold_left strip_partition (cg_remaining conflict) _)
    as [new_remaining sets2].
  simpl in Hd, Hr. subst.
  eexists. reflexivity.
Qed.

Lemma enrich_and_collect_content_trace (max_tokens : Z) (model : string)
    (url_list : list string) :
  trace (enrich_and_collect_content max_tokens model url_list)
  = trace (enrich_and_collect_loop max_tokens model url_list
             {| contents := []; seen := ∅ |}).
Proof.
  unfold enrich_and_collect_content, mbind, io_bind.
  destruct (outcome (enrich_and_collect_loop max_tokens model url_list _));
    simpl; rewrite ?app_nil_r; reflexivity.
Qed.

Lemma enrich_and_collect_content_ok (max_tokens : Z) (model : string)
    (url_list : list string) (d : dict (dict json)) :
  outcome (enrich_and_collect_content max_tokens model url_list) = Ok d ->
  exists st,
    outcome (enrich_and_collect_loop max_tokens model url_list
               {| contents := []; seen := ∅ |}) = Ok st
    /\ d = contents st.
Proof.
  unfold enrich_and_collect_content, mbind, io_bind.
  destruct (outcome (enrich_and_collect_loop max_tokens model url_list _))
    as [st|e]; simpl; [|discriminate].
  intros [= <-]. exists st. split; reflexivity.
Qed.

(** C3.  Whatever the reference lists of the entries repeat, the calls of
    [enrich_link] made by [build_full_conflict] are for pairwise different
    URLs, and [webpage_contents] has pairwise different keys, each a URL
    that was enriched.  The same holds for the collector run on any list of
    URLs, repetitions included: a URL is looked up in the seen-set before
    the call. *)
Theorem enrich_at_most_once (conflict : conflict_group) (max_tokens : Z)
    (model : string) (url_list : list string) :
  let r := build_full_conflict conflict max_tokens model in
  let c := enrich_and_collect_content max_tokens model url_list in
  NoDup (enrich_calls (trace r))
  /\ (forall full, outcome r = Ok full ->
        exists d, webpage_contents full = Some d
                  /\ NoDup (dict_keys d)
                  /\ forall k, k ∈ dict_keys d -> k ∈ enrich_calls (trace r))
  /\ NoDup (enrich_calls (trace c))
  /\ (forall d, outcome c = Ok d ->
        NoDup (dict_keys d)
        /\ forall k, k ∈ dict_keys d -> k ∈ enrich_calls (trace c)).
Proof.
  assert (Hgen : forall l,
    let c := enrich_and_collect_content max_tokens model l in
    NoDup (enrich_calls (trace c))
    /\ (forall d, outcome c = Ok d ->
          NoDup (dict_keys d)
          /\ forall k, k ∈ dict_keys d -> k ∈ enrich_calls (trace c))).
  { intros l. simpl. rewrite enrich_and_collect_content_trace.
    destruct (enrich_loop_calls max_tokens model l
                {| contents := []; seen := ∅ |}) as (Hnd & _ & Hfin).
    split; [exact Hnd|].
    intros d Hd. apply enrich_and_collect_content_ok in Hd as (st & Hst & ->).
    destruct (Hfin st Hst) as (_ & Hk & Hkeys). split.
    - apply Hk. constructor.
    - intros k Hkin. destruct (Hkeys k Hkin) as [H|H]; [inversion H|exact H]. }
  simpl. destruct (build_full_conflict_parts conflict max_tokens model)
    as [links ->].
  destruct (Hgen links) as [Hnd Hok]. simpl in Hnd, Hok.
  assert (Htr : trace (enrich_and_collect_content max_tokens model links ≫=
                 fun wc => mret {| disconnected := cg_disconnected conflict;
                                   remaining := cg_remaining conflict;
                                   webpage_contents := Some wc |})
                = trace (enrich_and_collect_content max_tokens model links)).
  { unfold mbind, io_bind. destruct (outcome _); simpl;
      rewrite ?app_nil_r; reflexivity. }
  rewrite Htr. split; [exact Hnd|]. split; [|exact (Hgen url_list)].
  intros full Hfull. unfold mbind, io_bind in Hfull.
  destruct (outcome (enrich_and_collect_content max_tokens model links))
    as [d|e] eqn:Ed; simpl in Hfull; [|discriminate].
  injection Hfull as <-. exists d. simpl. split; [reflexivity|].
  exact (Hok d eq_refl).
Qed.

(** C5, as amended.  The entries that [build_full_conflict] places into the
    output partitions are the input entries unchanged, in the same order:
    [strip_content_fields] copies an entry and reads its [webpage] and
    [repository] lists, and removes neither. *)
Theorem partitions_keep_references (conflict : conflict_group)
    (max_tokens : Z) (model : string) (full : conflict_data) :
  outcome (build_full_conflict conflict max_tokens model) = Ok full ->
  disconnected full = cg_disconnected conflict
  /\ remaining full = cg_remaining conflict
  /\ (forall sets e, (strip_content_fields sets e).1 = e).
Proof.
  destruct (build_full_conflict_parts conflict max_tokens model)
    as [links ->].
  unfold mbind, io_bind.
  destruct (outcome (enrich_and_collect_content max_tokens model links));
    simpl; [|discriminate].
  intros [= <-]. simpl. auto.
Qed.

(** ** Link enrichment *)

Lemma get_gitlab_repo_metadata_invalid (repo_url : string) :
  re_search GITLAB_RE repo_url = None ->
  get_gitlab_repo_metadata repo_url
  = Raise (ValueError "Invalid GitLab repository URL.").
Proof.
  intros H. unfold get_gitlab_repo_metadata, parse_gitlab_repo_url.
  rewrite H. reflexivity.
Qed.

Lemma get_gitlab_repo_metadata_status (repo_url : string) (m : list string)
    (response : http_response) :
  re_search GITLAB_RE repo_url = Some m ->
  http_get ("https://gitlab.com/api/v4/projects/" +:+ url_quote (group1 m))
  = Ok response ->
  status_code response <> 200 ->
  exists msg, get_gitlab_repo_metadata repo_url = Raise (Exception msg).
Proof.
  intros Hm Hget Hstatus. unfold get_gitlab_repo_metadata, parse_gitlab_repo_url.
  rewrite Hm. simpl. rewrite Hget. simpl.
  apply Z.eqb_neq in Hstatus. rewrite Hstatus. simpl. eauto.
Qed.

(** C4, on the code.  [enrich_link] calls [get_gitlab_repo_metadata] outside
    any handler: when the redirect of a link resolves to a GitLab URL and
    that call raises, [enrich_link] raises the same exception; and the call
    does raise when the URL has no [namespace/project] path. *)
Theorem enrich_link_gitlab_raises (link resolved : string) (e : exn) :
  head_url link = Ok resolved ->
  resolved <> EmptyString ->
  contains "github.com" resolved = false ->
  contains "gitlab.com" resolved = true ->
  get_gitlab_repo_metadata resolved = Raise e ->
  enrich_link link = Raise e
  /\ (re_search GITLAB_RE resolved = None ->
      e = ValueError "Invalid GitLab repository URL.").
Proof.
  intros Hhead Hne Hgh Hgl Hmeta. split.
  - unfold enrich_link, get_redirect. rewrite Hhead.
    destruct resolved as [|c rest]; [contradiction|].
    unfold enrich_first_chain. rewrite Hgh, Hgl, Hmeta. reflexivity.
  - intros Hnone. rewrite (get_gitlab_repo_metadata_invalid _ Hnone) in Hmeta.
    congruence.
Qed.

(** ** Message builder and its callers *)

Lemma io_bind_Forall {A B : Type} (P : event -> Prop) (m : io A)
    (f : A -> io B) :
  Forall P (trace m) -> (forall a, Forall P (trace (f a))) ->
  Forall P (trace (m ≫= f)).
Proof.
  intros Hm Hf. unfold mbind, io_bind. destruct (outcome m); simpl.
  - apply Forall_app. split; [exact Hm|apply Hf].
  - exact Hm.
Qed.

Lemma io_for_Forall {A : Type} (P : event -> Prop) (xs : list A)
    (body : A -> io unit) :
  (forall x, Forall P (trace (body x))) -> Forall P (trace (io_for xs body)).
Proof.
  intros Hbody. induction xs as [|x xs IH]; simpl; [constructor|].
  apply io_bind_Forall; [apply Hbody|intros _; exact IH].
Qed.

(** A loop whose body raises at an item, after items that all return,
    raises that exception; no later item is run. *)
Lemma io_for_raise {A : Type} (before after : list A) (x : A)
    (body : A -> io unit) (e : exn) :
  (forall y, In y before -> outcome (body y) = Ok tt) ->
  outcome (body x) = Raise e ->
  outcome (io_for (before ++ x :: after) body) = Raise e
  /\ trace (io_for (before ++ x :: after) body)
     = flat_map (fun y => trace (body y)) before ++ trace (body x).
Proof.
  intros Hbefore Hx. induction before as [|y before IH]; simpl.
  - rewrite (io_bind_raise _ _ e Hx). simpl. auto.
  - rewrite (io_bind_ok _ _ tt (Hbefore y (or_introl eq_refl))). simpl.
    destruct IH as [IHo IHt]; [intros z Hz; apply Hbefore; right; exact Hz|].
    rewrite IHo, IHt, app_assoc. auto.
Qed.

Lemma build_chat_messages_spec (instruction_prompt : string)
    (data : conflict_data) (dp rp : string) (mtpc : Z) (model : string) :
  let messages := assemble_messages instruction_prompt data dp rp mtpc model in
  let total := estimate_total_tokens messages model in
  (total <= MAX_TOTAL_TOKENS ->
   build_chat_messages_with_disconnected instruction_prompt data dp rp mtpc
                                         model = Ok messages)
  /\ (MAX_TOTAL_TOKENS < total ->
      exists msg,
        build_chat_messages_with_disconnected instruction_prompt data dp rp
                                              mtpc model
        = Raise (ValueError msg)).
Proof.
  simpl. unfold build_chat_messages_with_disconnected. split; intros H.
  - apply gtb_false in H. rewrite H. reflexivity.
  - apply gtb_true in H. rewrite H. eauto.
Qed.

(** The assembled list, in order: the instruction, the parts of the
    [remaining] entries, the parts of the [disconnected] entries, the
    evidence of [webpage_contents], the closing directive. *)
Lemma assemble_messages_order (instruction_prompt : string)
    (data : conflict_data) (dp rp : string) (mtpc : Z) (model : string) :
  assemble_messages instruction_prompt data dp rp mtpc model
  = [user_message instruction_prompt]
    ++ part_messages rp (chunk_entries mtpc model (remaining data))
    ++ part_messages dp (chunk_entries mtpc model (disconnected data))
    ++ match webpage_contents data with
       | Some d => chunk_dict d
       | None => []
       end
    ++ [user_message final_instruction].
Proof.
  unfold assemble_messages.
  destruct (remaining data); destruct (disconnected data);
    destruct (webpage_contents data); simpl;
    rewrite ?app_nil_r, <- ?app_assoc; reflexivity.
Qed.

Lemma build_full_conflict_events (conflict : conflict_group) (max_tokens : Z)
    (model : string) :
  Forall (fun ev => is_oracle_event ev = false /\ is_write_event ev = false)
         (trace (build_full_conflict conflict max_tokens model)).
Proof.
  destruct (build_full_conflict_parts conflict max_tokens model) as [l ->].
  apply io_bind_Forall; [|intros; constructor].
  unfold enrich_and_collect_content.
  apply io_bind_Forall; [|intros; constructor].
  generalize {| contents := []; seen := ∅ |}.
  induction l as [|u l IH]; intros st; simpl; [constructor|].
  apply io_bind_Forall; [|intros; apply IH].
  rewrite enrich_step_trace.
  destruct (_ || _); repeat constructor.
Qed.

Lemma write_to_results_file_events (result : json) (path : string) :
  Forall (fun ev => is_oracle_event ev = false)
         (trace (write_to_results_file result path)).
Proof.
  unfold write_to_results_file.
  destruct (makedirs_error path); [repeat constructor|].
  destruct (open_error path); repeat constructor.
Qed.

(** Preparing the messages file never contacts the oracle. *)
Lemma prepare_messages_body_events (path prompt_type : string)
    (item : string * conflict_group) :
  Forall (fun ev => is_oracle_event ev = false)
         (trace (prepare_messages_body path prompt_type item)).
Proof.
  destruct item as [key conflict]. unfold prepare_messages_body.
  apply io_bind_Forall; [repeat constructor|]. intros _.
  assert (Htry : Forall (fun ev => is_oracle_event ev = false)
                   (trace (prepare_messages_try path prompt_type key conflict))).
  { unfold prepare_messages_try.
    apply io_bind_Forall.
    - eapply Forall_impl; [apply build_full_conflict_events|].
      intros ev [H _]. exact H.
    - intros full. apply io_bind_Forall; [constructor|]. intros messages.
      apply io_bind_Forall; [constructor|]. intros n.
      apply io_bind_Forall; [repeat constructor|]. intros _.
      apply io_bind_Forall; [apply write_to_results_file_events|]. intros _.
      repeat constructor. }
  destruct (outcome (prepare_messages_try path prompt_type key conflict));
    simpl; [exact Htry|].
  apply Forall_app. split; [exact Htry|repeat constructor].
Qed.

(** When the prompt cannot be built for an assembled conflict, the loop
    body raises that exception and has written nothing. *)
Lemma prepare_messages_body_raise (path prompt_type key : string)
    (conflict : conflict_group) (full : conflict_data) (e : exn) :
  outcome (build_full_conflict conflict 8000 "gpt-4") = Ok full ->
  build_prompt_benchmarking full prompt_type = Raise e ->
  outcome (prepare_messages_body path prompt_type (key, conflict)) = Raise e
  /\ Forall (fun ev => is_oracle_event ev = false /\ is_write_event ev = false)
            (trace (prepare_messages_body path prompt_type (key, conflict))).
Proof.
  intros Hfull Hprompt.
  assert (Htry : prepare_messages_try path prompt_type key conflict
                 = IO (trace (build_full_conflict conflict 8000 "gpt-4"))
                      (Raise e)).
  { unfold prepare_messages_try. rewrite (io_bind_ok _ _ full Hfull).
    rewrite Hprompt. simpl. rewrite app_nil_r. reflexivity. }
  unfold prepare_messages_body. unfold mbind at 1. unfold io_bind. simpl.
  rewrite Htry. simpl. split; [reflexivity|].
  constructor; [split; reflexivity|].
  apply Forall_app. split; [apply build_full_conflict_events|].
  repeat constructor.
Qed.

(** C1.  [build_chat_messages_with_disconnected] returns the assembled
    message list (the instruction, the parts of the remaining entries, the
    parts of the disconnected entries, the evidence, the closing directive,
    in this order) when the summed token count of its contents is at most
    [MAX_TOTAL_TOKENS], and raises [ValueError] when the sum exceeds it.
    When [prepare_messages_file] reaches such a conflict, chat style or
    flattened, the exception leaves [prepare_messages_file] itself, nothing
    is written to the messages file for that conflict, and no request to an
    oracle client is made. *)
Theorem budget_enforcement (instruction_prompt : string)
    (data : conflict_data) (dp rp : string) (mtpc : Z) (model : string) :
  let messages := assemble_messages instruction_prompt data dp rp mtpc model in
  let total := estimate_total_tokens messages model in
  messages
  = [user_message instruction_prompt]
    ++ part_messages rp (chunk_entries mtpc model (remaining data))
    ++ part_messages dp (chunk_entries mtpc model (disconnected data))
    ++ match webpage_contents data with
       | Some d => chunk_dict d
       | None => []
       end
    ++ [user_message final_instruction]
  /\ (total <= MAX_TOTAL_TOKENS ->
   build_chat_messages_with_disconnected instruction_prompt data dp rp mtpc
                                         model = Ok messages)
  /\ (MAX_TOTAL_TOKENS < total ->
      exists msg,
        build_chat_messages_with_disconnected instruction_prompt data dp rp
                                              mtpc model
        = Raise (ValueError msg))
  /\ (forall prompt_type key conflict full path before after,
        outcome (build_full_conflict conflict 8000 "gpt-4") = Ok full ->
        (prompt_type = "chat" /\ data = rebalance full
         /\ template "prompt_benchmarking_chat_style" = Ok instruction_prompt
         \/ prompt_type = "flattened" /\ data = full
            /\ template "prompt_benchmarking_flattened_style"
               = Ok instruction_prompt) ->
        dp = "The first software metadata_entry" ->
        rp = "The second software metadata_entry" ->
        mtpc = 8000 -> model = "gpt-4" ->
        MAX_TOTAL_TOKENS < total ->
        (forall item, In item before ->
           outcome (prepare_messages_body path prompt_type item) = Ok tt) ->
        let run :=
          prepare_messages_file (before ++ (key, conflict) :: after) path
                                prompt_type in
        (exists msg, outcome run = Raise (ValueError msg))
        /\ Forall (fun ev => is_oracle_event ev = false) (trace run)
        /\ Forall (fun ev => is_oracle_event ev = false
                             /\ is_write_event ev = false)
                  (trace (prepare_messages_body path prompt_type
                                                (key, conflict)))).
Proof.
  pose proof (build_chat_messages_spec instruction_prompt data dp rp mtpc model)
    as Hspec.
  simpl in *. destruct Hspec as [Hok Hraise].
  split; [apply assemble_messages_order|].
  split; [exact Hok|]. split; [exact Hraise|].
  intros prompt_type key conflict full path before after Hfull Hmode -> -> -> ->
         Hbig Hbefore.
  destruct (Hraise Hbig) as [msg Hmsg].
  assert (Hprompt : build_prompt_benchmarking full prompt_type
                    = Raise (ValueError msg)).
  { unfold build_prompt_benchmarking.
    destruct Hmode as [(-> & -> & Ht)|(-> & -> & Ht)]; simpl; rewrite Ht; simpl;
      rewrite Hmsg; reflexivity. }
  destruct (prepare_messages_body_raise path prompt_type key conflict full _
              Hfull Hprompt) as [Hout Hev].
  destruct (io_for_raise before after (key, conflict)
              (prepare_messages_body path prompt_type) _ Hbefore Hout)
    as [Hrun _].
  split; [exists msg; exact Hrun|]. split; [|exact Hev].
  apply io_for_Forall. intros item. apply prepare_messages_body_events.
Qed.

(** ** Regular expressions *)

Lemma strip_prefix_Some (p s s' : string) :
  strip_prefix p s = Some s' <-> s = p +:+ s'.
Proof.
  revert s. induction p as [|a p IH]; intros s; simpl.
  - split; [intros [= ->]|intros ->]; reflexivity.
  - destruct s as [|b s]; [split; discriminate|].
    destruct (Ascii.eqb a b) eqn:E.
    + apply Ascii.eqb_eq in E. subst b. rewrite IH, append_cons.
      split; [intros ->; reflexivity|intros [= ->]; reflexivity].
    + apply Ascii.eqb_neq in E. rewrite append_cons.
      split; [discriminate|intros [= -> _]; contradiction].
Qed.

Lemma strip_prefix_app (p s : string) : strip_prefix p (p +:+ s) = Some s.
Proof. apply strip_prefix_Some. reflexivity. Qed.


Lemma all_chars_app (p : ascii -> bool) (a b : string) :
  all_chars p (a +:+ b) = all_chars p a && all_chars p b.
Proof.
  induction a as [|c a IH]; [reflexivity|].
  rewrite append_cons. simpl. rewrite IH, andb_assoc. reflexivity.
Qed.






Ltac invert H := inversion H; subst; clear H.


(** What the fallback pattern matches: a text from an opening brace to a
    closing brace; the group is that text. *)
Lemma brace_match_shape (w : string) (caps : list string) :
  rmatches BRACE_RE w caps ->
  exists mid, w = "{" +:+ mid +:+ "}" /\ caps = [w].
Proof.
  unfold BRACE_RE, rseq. simpl. intros H.
  repeat match goal with
         | H : rmatches (RSeq _ _) _ _ |- _ => invert H
         | H : rmatches (RLit _) _ _ |- _ => invert H
         | H : rmatches (RStar _ _) _ _ |- _ => invert H
         | H : rmatches (RGroup _) _ _ |- _ => invert H
         end.
  rewrite ?append_nil_r. simpl app. eexists. split; reflexivity.
Qed.










(** ** Result parser *)



(** ** Oracle clients *)

Ltac io_trace :=
  repeat first
    [ apply io_bind_Forall; [|intros ?]
    | match goal with
      | |- Forall _ (trace (if ?c then _ else _)) => destruct c
      | |- Forall _ (trace (match ?x with _ => _ end)) => destruct x
      | |- Forall _ (trace (let '(_, _) := ?x in _)) => destruct x
      end
    | solve [repeat constructor] ].

Lemma retry_loop_Forall {A : Type} (P : event -> Prop) (body : nat -> io A)
    (remaining attempt : nat) :
  (forall n, Forall P (trace (body n))) ->
  (forall n, P (EvSleep (wait_exponential n))) ->
  Forall P (trace (retry_loop remaining attempt body)).
Proof.
  intros Hbody Hsleep. revert attempt.
  induction remaining as [|remaining IH]; intros attempt; simpl;
    destruct (outcome (body attempt)); simpl; try apply Hbody.
  apply Forall_app. split; [apply Hbody|].
  constructor; [apply Hsleep|]. apply IH.
Qed.

(** The clients themselves only log, post and sleep. *)
Lemma query_openrouter_events (messages : json) (model : string) :
  Forall (fun ev => is_query_event ev = false)
         (trace (query_openrouter messages model)).
Proof.
  unfold query_openrouter, retry.
  apply retry_loop_Forall; [|intros; reflexivity].
  intros n. unfold query_openrouter_attempt. io_trace.
Qed.

Lemma query_huggingface_new_events (messages : json) (model provider : string) :
  Forall (fun ev => is_query_event ev = false)
         (trace (query_huggingface_new messages model provider)).
Proof. unfold query_huggingface_new. io_trace. Qed.

Lemma parse_result_events (text : string) :
  Forall (fun ev => is_query_event ev = false) (trace (parse_result text)).
Proof.
  unfold parse_result, load_candidate.
  destruct (json_candidate text) as [g|]; [|repeat constructor].
  destruct (json_loads g) as [v|[]]; repeat constructor.
Qed.

Lemma dump_line_events (path mode : string) (value : json) :
  Forall (fun ev => is_query_event ev = false)
         (trace (dump_line path mode value)).
Proof. unfold dump_line. destruct (open_error path); repeat constructor. Qed.

(** ** Resumable ledger *)

(** A line contributes the key [k]: it is not blank, it decodes, and [k] is
    the first item of what it decodes to. *)
Definition line_key (line : string) (k : pykey) : Prop :=
  strip line <> EmptyString
  /\ exists entry, json_loads line = Ok entry /\ next_iter_key entry = Ok k.

Lemma load_solved_step_keys (acc : gset pykey * list event) (line : string)
    (k : pykey) :
  k ∈ (load_solved_step acc line).1 <-> k ∈ acc.1 \/ line_key line k.
Proof.
  destruct acc as [keys logged]. unfold load_solved_step, line_key. simpl.
  destruct (String.eqb (strip line) EmptyString) eqn:Eb.
  - apply String.eqb_eq in Eb. simpl. split; [auto|].
    intros [H|[H _]]; [exact H|contradiction].
  - apply String.eqb_neq in Eb.
    destruct (json_loads line) as [entry|e] eqn:El; simpl.
    + destruct (next_iter_key entry) as [key|e] eqn:Ek; simpl.
      * rewrite elem_of_union, elem_of_singleton. split.
        -- intros [H| ->]; [auto|]. right. split; [exact Eb|]. eauto.
        -- intros [H|(_ & entry' & [= <-] & Hk)]; [auto|].
           right. congruence.
      * split; [auto|]. intros [H|(_ & entry' & [= <-] & Hk)]; [exact H|].
        congruence.
    + split; [auto|]. intros [H|(_ & entry' & Hl & _)]; [exact H|].
      discriminate.
Qed.

Lemma load_solved_fold_keys (lines : list string)
    (acc : gset pykey * list event) (k : pykey) :
  k ∈ (fold_left load_solved_step lines acc).1
  <-> k ∈ acc.1 \/ exists line, line ∈ lines /\ line_key line k.
Proof.
  revert acc. induction lines as [|line lines IH]; intros acc; simpl.
  - split; [auto|]. intros [H|(line & Hin & _)]; [exact H|inversion Hin].
  - rewrite IH, load_solved_step_keys. split.
    + intros [[H|H]|(l & Hin & Hl)]; [auto| |].
      * right. exists line. split; [by left|exact H].
      * right. exists l. split; [by right|exact Hl].
    + intros [H|(l & Hin & Hl)]; [auto|].
      apply elem_of_cons in Hin as [->|Hin]; [auto|].
      right. exists l. auto.
Qed.

Lemma load_solved_fold_log (lines : list string)
    (acc : gset pykey * list event) :
  Forall (fun ev => exists msg, ev = EvLog (LogWarning msg)) acc.2 ->
  Forall (fun ev => exists msg, ev = EvLog (LogWarning msg))
         (fold_left load_solved_step lines acc).2.
Proof.
  revert acc. induction lines as [|line lines IH]; intros acc Hacc; simpl;
    [exact Hacc|].
  apply IH. destruct acc as [keys logged]. unfold load_solved_step.
  destruct (String.eqb (strip line) EmptyString); [exact Hacc|].
  destruct (json_loads line ≫= next_iter_key); simpl; [exact Hacc|].
  apply Forall_app. split; [exact Hacc|]. constructor; [eauto|constructor].
Qed.

(** The loader never raises; it returns the keys the lines contribute and
    logs warnings only. *)
Lemma load_solved_conflict_keys_spec (jsonl_path : string) :
  exists logged keys,
    load_solved_conflict_keys jsonl_path = IO logged (Ok keys)
    /\ Forall (fun ev => exists msg, ev = EvLog (LogWarning msg)) logged
    /\ match read_file jsonl_path with
       | None => keys = ∅ /\ logged = []
       | Some content =>
           forall k, k ∈ keys <->
                     exists line, line ∈ file_lines content /\ line_key line k
       end.
Proof.
  unfold load_solved_conflict_keys.
  destruct (read_file jsonl_path) as [content|].
  - pose proof (load_solved_fold_keys (file_lines content) (∅, [])) as Hk.
    pose proof (load_solved_fold_log (file_lines content) (∅, [])
                  ltac:(constructor)) as Hl.
    destruct (fold_left load_solved_step (file_lines content) (∅, []))
      as [keys logged].
    exists logged, keys. split; [reflexivity|]. split; [exact Hl|].
    intros k. rewrite Hk. simpl. split; [|auto].
    intros [H|H]; [apply elem_of_empty in H; contradiction|exact H].
  - exists [], ∅. repeat split. constructor.
Qed.

(** ** Benchmark inference loop *)

Lemma not_query_not_solved (solved : gset pykey) (tr : list event) :
  Forall (fun ev => is_query_event ev = false) tr ->
  Forall (query_not_solved solved) tr.
Proof.
  intros Hall. eapply Forall_impl; [exact Hall|].
  intros [] H; simpl; try exact I. discriminate.
Qed.

Lemma not_query_keys (tr : list event) :
  Forall (fun ev => is_query_event ev = false) tr -> query_keys tr = [].
Proof.
  induction 1 as [|ev tr Hev _ IH]; [reflexivity|].
  unfold query_keys in *. simpl. rewrite IH.
  destruct ev; try reflexivity. discriminate.
Qed.

Lemma query_keys_not_solved (solved : gset pykey) (tr : list event)
    (k : pykey) :
  Forall (query_not_solved solved) tr -> k ∈ solved -> k ∉ query_keys tr.
Proof.
  intros Hall Hk Hin. unfold query_keys in Hin.
  apply list_elem_of_In, in_flat_map in Hin as (ev & Hev & Hkev).
  rewrite Forall_forall in Hall. apply list_elem_of_In in Hev.
  specialize (Hall ev Hev).
  destruct ev; simpl in Hkev; try contradiction.
  destruct Hkev as [->|[]]. exact (Hall Hk).
Qed.

(** What follows the oracle call in the [try] block makes no oracle call. *)
Lemma make_inferences_rest_events (results_file_path raw_results_path : string)
    (key : pykey) (messages : json) (answer : string * json) :
  Forall (fun ev => is_query_event ev = false)
    (trace (let '(result, meta) := answer in
            key_s ← lift (key_text key);
            let key_transformed :=
              replace_char "/" "_" (replace_char " " "_" key_s) in
            let raw_result_path :=
              raw_results_path +:+ "/raw_results_" +:+ key_transformed
              +:+ ".json" in
            _ ← save_raw_results (JStr result) raw_result_path;
            let meta_file_path :=
              raw_results_path +:+ "/meta_" +:+ key_transformed +:+ ".json" in
            meta ← lift (py_setitem meta "total_time"
                                    (JNum (elapsed_seconds messages)));
            meta ← lift (py_setitem meta "key" (JStr key_s));
            _ ← save_inference_stats meta meta_file_path;
            parsed_result ← parse_result result;
            _ ← save_result key_s parsed_result results_file_path;
            log_info "Results for conflict written to file.")).
Proof.
  destruct answer as [result meta].
  unfold save_raw_results, save_inference_stats, save_result.
  repeat first
    [ apply io_bind_Forall; [|intros ?]
    | apply dump_line_events
    | apply parse_result_events
    | solve [repeat constructor] ].
Qed.

(** The [try] block calls an oracle client once, for its own key. *)
Lemma make_inferences_try_queries (model results_file_path raw_results_path
    provider : string) (key : pykey) (messages : json) :
  query_keys (trace (make_inferences_try model results_file_path
                       raw_results_path provider key messages))
  = [key].
Proof.
  unfold make_inferences_try.
  match goal with
  | |- query_keys (trace (?m ≫= ?f)) = _ =>
      assert (Hm : query_keys (trace m) = [key]);
      [|assert (Hf : forall a, query_keys (trace (f a)) = [])]
  end.
  - destruct (String.eqb provider "openrouter").
    + unfold mbind at 1. unfold io_bind. simpl.
      pose proof (not_query_keys _ (query_openrouter_events messages model)) as H.
      destruct (outcome (query_openrouter messages model)); simpl;
        unfold query_keys in *; simpl; rewrite H; reflexivity.
    + unfold mbind at 1. unfold io_bind. simpl.
      pose proof (not_query_keys _ (query_huggingface_new_events messages model
                                      provider)) as H.
      destruct (outcome (query_huggingface_new messages model provider)); simpl;
        unfold query_keys in *; simpl; rewrite H; reflexivity.
  - intros a. apply not_query_keys.
    apply (make_inferences_rest_events results_file_path raw_results_path key
             messages a).
  - match goal with
    | |- query_keys (trace (?m ≫= ?f)) = _ =>
        destruct (outcome m) eqn:E;
        [rewrite (io_bind_ok m f _ E)|rewrite (io_bind_raise m f _ E)]
    end; cbn [trace].
    + rewrite query_keys_app, Hm, Hf. reflexivity.
    + exact Hm.
Qed.

(** An iteration calls an oracle client exactly when its key is not in the
    solved set, and then once, for that key. *)
Lemma make_inferences_body_queries (solved : gset pykey)
    (model results_file_path raw_results_path provider : string)
    (key : pykey) (messages : json) :
  query_keys (trace (make_inferences_body solved model results_file_path
                       raw_results_path provider (key, messages)))
  = if decide (key ∈ solved) then [] else [key].
Proof.
  unfold make_inferences_body.
  destruct (decide (key ∈ solved)); [reflexivity|].
  pose proof (make_inferences_try_queries model results_file_path
                raw_results_path provider key messages) as Htry.
  unfold mbind at 1. unfold io_bind at 1.
  assert (Hsleep : exists tr,
    (if String.eqb provider "openrouter"
     then emit (EvSleep DELAY_BETWEEN_REQUESTS) else mret tt)
    = IO tr (Ok tt) /\ query_keys tr = []).
  { destruct (String.eqb provider "openrouter"); eexists; split; reflexivity. }
  destruct Hsleep as (tr & -> & Htr). simpl.
  rewrite query_keys_app, Htr. simpl.
  destruct (outcome (make_inferences_try model results_file_path
                       raw_results_path provider key messages)); simpl.
  - exact Htry.
  - rewrite query_keys_app, Htry. reflexivity.
Qed.

Lemma make_inferences_body_not_solved (solved : gset pykey)
    (model results_file_path raw_results_path provider : string)
    (item : pykey * json) :
  Forall (query_not_solved solved)
         (trace (make_inferences_body solved model results_file_path
                   raw_results_path provider item)).
Proof.
  destruct item as [key messages].
  pose proof (make_inferences_body_queries solved model results_file_path
                raw_results_path provider key messages) as Hq.
  apply Forall_forall. intros ev Hev.
  destruct ev; simpl; try exact I.
  assert (Hin : key0 ∈ query_keys
                  (trace (make_inferences_body solved model results_file_path
                            raw_results_path provider (key, messages)))).
  { unfold query_keys. apply list_elem_of_In, in_flat_map.
    eexists. split; [apply list_elem_of_In; exact Hev|]. simpl. auto. }
  rewrite Hq in Hin. destruct (decide (key ∈ solved)) as [|Hns].
  - inversion Hin.
  - apply list_elem_of_singleton in Hin as ->. exact Hns.
Qed.

(** C2.  [load_solved_conflict_keys] never raises.  For a ledger file it
    returns exactly the keys that the lines contribute: a key is in the set
    if and only if some line of the file is not blank, decodes, and has the
    key as the first item of what it decodes to; for a line that decodes to
    an object that is its first key.  A line that is blank or
    does not decode, or decodes to something without a first item, only adds
    a logged warning or nothing.  And [make_inferences], run with that
    ledger, calls no oracle client for a key of the set. *)
Theorem solved_keys_never_queried (results_file_path : string)
    (messages_dict : list (pykey * json))
    (model raw_results_path provider : string) :
  exists logged solved,
    load_solved_conflict_keys results_file_path = IO logged (Ok solved)
    /\ Forall (fun ev => exists msg, ev = EvLog (LogWarning msg)) logged
    /\ (forall content, read_file results_file_path = Some content ->
          (forall k, k ∈ solved <->
             exists line, line ∈ file_lines content
                          /\ strip line <> EmptyString
                          /\ exists entry, json_loads line = Ok entry
                                           /\ next_iter_key entry = Ok k)
          /\ (forall line k v rest,
                line ∈ file_lines content -> strip line <> EmptyString ->
                json_loads line = Ok (JObj ((k, v) :: rest)) ->
                KStr k ∈ solved))
    /\ (forall k, k ∈ solved ->
          k ∉ query_keys
                (trace (make_inferences messages_dict model results_file_path
                          raw_results_path provider))).
Proof.
  destruct (load_solved_conflict_keys_spec results_file_path)
    as (logged & solved & Hload & Hlog & Hkeys).
  exists logged, solved. split; [exact Hload|]. split; [exact Hlog|]. split.
  - intros content Hc. rewrite Hc in Hkeys.
    assert (Hiff : forall k, k ∈ solved <->
              exists line, line ∈ file_lines content
                           /\ strip line <> EmptyString
                           /\ exists entry, json_loads line = Ok entry
                                            /\ next_iter_key entry = Ok k).
    { intros k. rewrite Hkeys. unfold line_key. split.
      - intros (line & Hin & Hs & He). exists line. auto.
      - intros (line & Hin & Hs & He). exists line. auto. }
    split; [exact Hiff|].
    intros line k v rest Hin Hs Hl. apply Hiff.
    exists line. split; [exact Hin|]. split; [exact Hs|].
    eexists. split; [exact Hl|reflexivity].
  - intros k Hk. apply (query_keys_not_solved solved); [|exact Hk].
    unfold make_inferences.
    apply io_bind_Forall; [repeat constructor|]. intros _.
    rewrite Hload. unfold mbind at 1. unfold io_bind at 1. cbn [outcome trace].
    apply Forall_app. split.
    + eapply Forall_impl; [exact Hlog|]. intros ev [msg ->]. exact I.
    + apply io_bind_Forall; [|intros; repeat constructor].
      apply io_for_Forall. intros item.
      apply make_inferences_body_not_solved.
Qed.

(** C10.  When no file exists at the path, [load_solved_conflict_keys]
    returns the empty set without raising or logging, so that no key is in
    the solved set and every iteration of [make_inferences] that is reached
    calls an oracle client for its key. *)
Theorem missing_ledger_is_empty (jsonl_path : string) :
  read_file jsonl_path = None ->
  load_solved_conflict_keys jsonl_path = IO [] (Ok ∅)
  /\ forall model raw_results_path provider key messages,
       query_keys
         (trace (make_inferences_body ∅ model jsonl_path raw_results_path
                   provider (key, messages)))
       = [key].
Proof.
  intros Hnone. split.
  - unfold load_solved_conflict_keys. rewrite Hnone. reflexivity.
  - intros model raw_results_path provider key messages.
    rewrite make_inferences_body_queries.
    destruct (decide (key ∈ (∅ : gset pykey))) as [Hin|]; [|reflexivity].
    apply elem_of_empty in Hin. contradiction.
Qed.

(** ** Retry and the empty answer *)


















(** * Further properties

    Properties of the same code beyond the ones above: edge cases, round
    trips, and the behaviour of the callers and of the production path. *)

(** ** Edge cases of the chunkers *)

Lemma split_ws_nil (s : string) :
  split_ws s = [] <-> all_chars is_space s = true.
Proof.
  induction s as [|c s IH]; [split; reflexivity|].
  cbn [split_ws all_chars].
  destruct (is_space c) eqn:Ec; [exact IH|].
  split; [|discriminate].
  destruct s as [|c' s']; [discriminate|].
  destruct (is_space c'); [discriminate|].
  destruct (split_ws (String c' s')); discriminate.
Qed.

Lemma greedy_fold_fits {A : Type} (tok : A -> nat) (max_tokens : Z)
    (items cur : list A) (closed : list (list A)) :
  group_tokens tok (cur ++ items) <= max_tokens ->
  fold_left (greedy_step tok max_tokens) items
            (closed, cur, group_tokens tok cur)
  = (closed, cur ++ items, group_tokens tok (cur ++ items)).
Proof.
  revert cur. induction items as [|x items IH]; intros cur Hfit.
  - rewrite app_nil_r. reflexivity.
  - assert (Hx : (group_tokens tok cur + Z.of_nat (tok x) >? max_tokens)
                 = false).
    { apply gtb_false. rewrite group_tokens_app in Hfit. simpl in Hfit.
      pose proof (group_tokens_nonneg tok items). lia. }
    cbn [fold_left]. unfold greedy_step at 2. rewrite Hx.
    replace (group_tokens tok cur + Z.of_nat (tok x))
      with (group_tokens tok (cur ++ [x]))
      by (rewrite group_tokens_app; simpl; lia).
    rewrite IH; rewrite <- app_assoc; [reflexivity|exact Hfit].
Qed.

(** Items that fit together form one group. *)
Lemma greedy_groups_fits {A : Type} (tok : A -> nat) (max_tokens : Z)
    (items : list A) :
  items <> [] -> group_tokens tok items <= max_tokens ->
  greedy_groups tok max_tokens items = [items].
Proof.
  intros Hne Hfit. unfold greedy_groups.
  pose proof (greedy_fold_fits tok max_tokens items [] [] Hfit) as H.
  simpl in H. rewrite H. simpl. destruct items; [contradiction|reflexivity].
Qed.

(** Closed groups stay where they are. *)
Lemma greedy_fold_closed {A : Type} (tok : A -> nat) (max_tokens : Z)
    (items : list A) st :
  exists more,
    (fold_left (greedy_step tok max_tokens) items st).1.1 = st.1.1 ++ more.
Proof.
  revert st. induction items as [|x items IH]; intros st.
  - exists []. rewrite app_nil_r. reflexivity.
  - cbn [fold_left]. destruct (IH (greedy_step tok max_tokens st x))
      as [more Hmore].
    rewrite Hmore. destruct st as [[closed cur] cnt]. unfold greedy_step.
    destruct (cnt + Z.of_nat (tok x) >? max_tokens); simpl.
    + exists ([cur] ++ more). rewrite app_assoc. reflexivity.
    + exists more. reflexivity.
Qed.

(** A first item over the limit closes the still empty first group. *)
Lemma greedy_groups_oversized_first {A : Type} (tok : A -> nat)
    (max_tokens : Z) (x : A) (items : list A) :
  max_tokens < Z.of_nat (tok x) ->
  exists groups, greedy_groups tok max_tokens (x :: items) = [] :: groups.
Proof.
  intros Hbig. unfold greedy_groups. cbn [fold_left].
  unfold greedy_step at 2.
  assert (Hx : (0 + Z.of_nat (tok x) >? max_tokens) = true)
    by (apply gtb_true; lia).
  rewrite Hx.
  destruct (greedy_fold_closed tok max_tokens items
              ([] ++ [[]], [x], Z.of_nat (tok x))) as [more Hmore].
  destruct (fold_left _ items _) as [[closed cur] cnt]. simpl in Hmore.
  subst closed. unfold greedy_close. destruct cur; eexists; reflexivity.
Qed.

(** X1.  [chunk_text] returns no chunk exactly for a text without a word
    (empty or all whitespace); when the accumulated count of all the words
    is within [max_tokens] it returns one chunk, the words joined by single
    spaces; [chunk_entries] likewise returns its entries as one chunk when
    they fit together, and no chunk for no entry. *)
Theorem chunk_edge_cases (text : string) (max_tokens : Z) (model : string)
    (entries : list entry) :
  (chunk_text text max_tokens model = [] <-> all_chars is_space text = true)
  /\ (split_ws text <> [] ->
      group_tokens (word_tokens model) (split_ws text) <= max_tokens ->
      chunk_text text max_tokens model = [join " " (split_ws text)])
  /\ chunk_entries max_tokens model [] = []
  /\ (entries <> [] ->
      group_tokens (entry_tokens model) entries <= max_tokens ->
      chunk_entries max_tokens model entries = [entries]).
Proof.
  split; [|split; [|split]].
  - rewrite <- split_ws_nil, chunk_text_groups. split.
    + intros H.
      pose proof (greedy_groups_concat (word_tokens model) max_tokens
                    (split_ws text)) as Hcat.
      destruct (greedy_groups _ _ _); [|discriminate].
      symmetry. exact Hcat.
    + intros ->. reflexivity.
  - intros Hne Hfit.
    rewrite chunk_text_groups, greedy_groups_fits by assumption. reflexivity.
  - reflexivity.
  - intros Hne Hfit. rewrite chunk_entries_groups.
    apply greedy_groups_fits; assumption.
Qed.

(** X2.  When the first entry of a partition alone exceeds the limit per
    chunk, [chunk_entries] closes the still empty chunk first: the first
    chunk is empty, and the message builder sends a part 1 that holds the
    empty list before the part with the entry. *)
Theorem oversized_first_entry_empty_part (max_tokens : Z) (model : string)
    (e : entry) (rest : list entry) (preamble : string) :
  max_tokens < Z.of_nat (entry_tokens model e) ->
  exists chunks later,
    chunk_entries max_tokens model (e :: rest) = [] :: chunks
    /\ concat chunks = e :: rest
    /\ part_messages preamble (chunk_entries max_tokens model (e :: rest))
       = user_message (preamble +:+ " - part " +:+ pretty 1%nat +:+ ":" +:+ nl
                       +:+ "```json" +:+ nl +:+ json_dumps_indent [] +:+ nl
                       +:+ "```")
         :: later.
Proof.
  intros Hbig. rewrite chunk_entries_groups.
  destruct (greedy_groups_oversized_first (entry_tokens model) max_tokens e
              rest Hbig) as [chunks Hchunks].
  pose proof (greedy_groups_concat (entry_tokens model) max_tokens (e :: rest))
    as Hcat.
  rewrite Hchunks in *. simpl in Hcat.
  exists chunks. eexists. split; [reflexivity|]. split; [exact Hcat|].
  unfold part_messages. rewrite imap_cons. reflexivity.
Qed.

(** ** The flattened prompt *)

Lemma lstrip_not_space (c : ascii) (s : string) :
  is_space c = false -> lstrip (String c s) = String c s.
Proof. intros H. simpl. rewrite H. reflexivity. Qed.

Lemma rstrip_app (a b : string) :
  rstrip b <> EmptyString -> rstrip (a +:+ b) = a +:+ rstrip b.
Proof.
  intros Hb. induction a as [|c a IH]; [reflexivity|].
  rewrite !append_cons. cbn [rstrip]. rewrite IH.
  destruct (a +:+ rstrip b) eqn:E; [|reflexivity].
  destruct a; [|discriminate]. contradiction.
Qed.

Lemma join_snoc (sep x : string) (l : list string) :
  l <> [] -> join sep (l ++ [x]) = join sep l +:+ sep +:+ x.
Proof. intros Hl. apply join_app; [exact Hl|discriminate]. Qed.

Lemma join_head (sep : string) (c : ascii) (p : string) (ps : list string) :
  exists rest, join sep (String c p :: ps) = String c rest.
Proof.
  destruct ps as [|p' ps].
  - exists p. reflexivity.
  - rewrite join_cons by discriminate. rewrite append_cons. eauto.
Qed.

Lemma role_tag_head (r tag : string) :
  dict_get r role_tags = Some tag -> exists rest, tag = String "#" rest.
Proof.
  unfold role_tags. simpl.
  repeat match goal with
         | |- context [if ?c then _ else _] => destruct c
         end; intros [= <-]; eauto.
Qed.

(** X3.  The final [strip] of [flatten_messages_to_prompt] only drops the
    line break after the closing marker: the prompt is the sections of the
    messages (a header line for the role, the stripped content, an empty
    line) followed by the line [### Assistant], with which it ends; for no
    message it is that marker alone. *)
Theorem flatten_prompt_shape (messages : list message) :
  let header msg :=
    match dict_get (role msg) role_tags with
    | Some tag => tag
    | None => "### " +:+ capitalize (role msg)
    end in
  flatten_messages_to_prompt messages
  = join nl (map (fun msg => header msg +:+ nl +:+ strip (content msg) +:+ nl)
                 messages
             ++ ["### Assistant"])
  /\ (exists body,
        flatten_messages_to_prompt messages = body +:+ "### Assistant")
  /\ flatten_messages_to_prompt [] = "### Assistant".
Proof.
  intros header.
  assert (Hmain : flatten_messages_to_prompt messages
    = join nl (map (fun msg => header msg +:+ nl +:+ strip (content msg) +:+ nl)
                   messages ++ ["### Assistant"])).
  { unfold flatten_messages_to_prompt. cbv zeta.
    assert (Hparts :
      map (fun msg =>
             match dict_get (role msg) role_tags with
             | Some tag => tag +:+ nl +:+ strip (content msg) +:+ nl
             | None => "### " +:+ capitalize (role msg) +:+ nl
                       +:+ strip (content msg) +:+ nl
             end) messages
      = map (fun msg => header msg +:+ nl +:+ strip (content msg) +:+ nl)
            messages).
    { apply map_ext. intros msg. unfold header. cbv beta zeta.
      destruct (dict_get (role msg) role_tags); [reflexivity|].
      rewrite append_assoc. reflexivity. }
    rewrite Hparts.
    destruct (map (fun msg => header msg +:+ nl +:+ strip (content msg) +:+ nl)
                  messages) as [|p ps] eqn:Eparts.
    - reflexivity.
    - assert (Hp : exists c p', p = String c p' /\ is_space c = false).
      { destruct messages as [|msg messages]; [discriminate|].
        simpl in Eparts. injection Eparts as <- _. unfold header.
        destruct (dict_get (role msg) role_tags) as [tag|] eqn:Et.
        - destruct (role_tag_head _ _ Et) as [rest ->].
          rewrite append_cons. eexists _, _. split; reflexivity.
        - eexists _, _. split; reflexivity. }
      destruct Hp as (c & p' & -> & Hc).
      rewrite !join_snoc by discriminate.
      destruct (join_head nl c p' ps) as [rest Hrest].
      unfold strip. rewrite Hrest, append_cons, (lstrip_not_space _ _ Hc).
      rewrite <- append_cons, <- Hrest.
      rewrite <- append_assoc, rstrip_app by (vm_compute; discriminate).
      rewrite append_assoc. reflexivity. }
  split; [exact Hmain|]. split; [|reflexivity].
  rewrite Hmain.
  destruct (map _ messages) as [|p ps].
  - exists EmptyString. reflexivity.
  - rewrite join_snoc by discriminate.
    exists (join nl (p :: ps) +:+ nl). rewrite append_assoc. reflexivity.
Qed.

(** ** Preparing the messages file: layout and failures *)

(** X4.  For a conflict of one disconnected and one remaining entry, each
    within the limit per chunk, the chat-style benchmarking prompt is, in
    this order: the instruction, the remaining entry under the preamble of
    the second software entry, the disconnected entry under the preamble of
    the first software entry, the evidence messages, the closing
    directive. *)
Theorem benchmark_pair_prompt_layout (e1 e2 : entry) (wc : dict (dict json))
    (instruction_prompt : string) :
  let data := {| disconnected := [e1]; remaining := [e2];
                 webpage_contents := Some wc |} in
  let part preamble e :=
    user_message (preamble +:+ " - part 1:" +:+ nl +:+ "```json" +:+ nl
                  +:+ json_dumps_indent [e] +:+ nl +:+ "```") in
  let messages :=
    [user_message instruction_prompt;
     part "The second software metadata_entry" e2;
     part "The first software metadata_entry" e1]
    ++ chunk_dict wc ++ [user_message final_instruction] in
  template "prompt_benchmarking_chat_style" = Ok instruction_prompt ->
  Z.of_nat (entry_tokens "gpt-4" e1) <= 8000 ->
  Z.of_nat (entry_tokens "gpt-4" e2) <= 8000 ->
  estimate_total_tokens messages "gpt-4" <= MAX_TOTAL_TOKENS ->
  build_prompt_benchmarking data "chat" = Ok (ChatMessages messages).
Proof.
  intros data part messages Ht H1 H2 Hbudget.
  assert (Hasm : assemble_messages instruction_prompt data
                   "The first software metadata_entry"
                   "The second software metadata_entry" 8000 "gpt-4"
                 = messages).
  { rewrite assemble_messages_order. subst data.
    cbn [remaining disconnected webpage_contents].
    rewrite !chunk_entries_groups.
    rewrite !greedy_groups_fits by (try discriminate; simpl; lia).
    reflexivity. }
  unfold build_prompt_benchmarking. cbn [String.eqb Ascii.eqb Bool.eqb].
  rewrite Ht. cbn [mbind result_bind].
  change (rebalance data) with data.
  unfold build_chat_messages_with_disconnected. rewrite Hasm.
  apply gtb_false in Hbudget. rewrite Hbudget. reflexivity.
Qed.

(** X5.  [prepare_messages_file] does not look at the prompt type before
    the links of a conflict have been enriched: with a prompt type other
    than [chat] and [flattened], [build_prompt_benchmarking] returns
    [None], [len(messages)] raises [TypeError] for the first conflict, after
    all its [enrich_link] calls, and nothing is written. *)
Theorem unknown_prompt_type_fails_late (path prompt_type key : string)
    (conflict : conflict_group) (rest : list (string * conflict_group))
    (full : conflict_data) :
  prompt_type <> "chat" -> prompt_type <> "flattened" ->
  outcome (build_full_conflict conflict 8000 "gpt-4") = Ok full ->
  let run := prepare_messages_file ((key, conflict) :: rest) path prompt_type in
  outcome run = Raise (TypeError "object of type 'NoneType' has no len()")
  /\ enrich_calls (trace run)
     = enrich_calls (trace (build_full_conflict conflict 8000 "gpt-4"))
  /\ Forall (fun ev => is_write_event ev = false) (trace run).
Proof.
  intros Hc Hf Hfull run.
  apply String.eqb_neq in Hc, Hf.
  assert (Htry : prepare_messages_try path prompt_type key conflict
                 = IO (trace (build_full_conflict conflict 8000 "gpt-4"))
                      (Raise (TypeError
                                "object of type 'NoneType' has no len()"))).
  { unfold prepare_messages_try. rewrite (io_bind_ok _ _ full Hfull).
    unfold build_prompt_benchmarking. rewrite Hc, Hf. simpl.
    rewrite app_nil_r. reflexivity. }
  assert (Hbody : prepare_messages_body path prompt_type (key, conflict)
    = IO (EvLog (LogInfo ("Building messsages for conflict - " +:+ key))
          :: trace (build_full_conflict conflict 8000 "gpt-4")
          ++ [EvLog (LogError ("Error processing conflict " +:+ key))])
         (Raise (TypeError "object of type 'NoneType' has no len()"))).
  { unfold prepare_messages_body. unfold mbind at 1. unfold io_bind. simpl.
    rewrite Htry. reflexivity. }
  subst run. unfold prepare_messages_file. cbn [io_for].
  rewrite (io_bind_raise _ _ _ (f_equal outcome Hbody)), Hbody.
  cbn [trace outcome]. split; [reflexivity|]. split.
  - change (EvLog ?x :: ?l) with ([EvLog x] ++ l).
    rewrite !enrich_calls_app. simpl. rewrite app_nil_r. reflexivity.
  - constructor; [reflexivity|]. apply Forall_app. split.
    + eapply Forall_impl; [apply build_full_conflict_events|].
      intros ev [_ H]. exact H.
    + repeat constructor.
Qed.

(** X6.  [write_to_results_file] swallows every failure: when the
    directory of the messages file cannot be made or the file cannot be
    opened, an iteration of [prepare_messages_file] whose prompt was built
    still returns normally, writes nothing, logs the error, and then logs
    that the messages were written. *)
Theorem unwritable_messages_file_is_silent (path prompt_type key : string)
    (conflict : conflict_group) (full : conflict_data) (messages : prompt)
    (n : nat) :
  makedirs_error path <> None \/ open_error path <> None ->
  outcome (build_full_conflict conflict 8000 "gpt-4") = Ok full ->
  build_prompt_benchmarking full prompt_type = Ok messages ->
  prompt_len messages = Ok n ->
  prepare_messages_body path prompt_type (key, conflict)
  = IO ([EvLog (LogInfo ("Building messsages for conflict - " +:+ key))]
        ++ trace (build_full_conflict conflict 8000 "gpt-4")
        ++ [EvLog (LogInfo ("Number of messages: " +:+ pretty n));
            EvLog (LogError "Error writing to results file");
            EvLog (LogInfo ("Messages for conflict " +:+ key
                            +:+ " written to file."))])
       (Ok tt)
  /\ Forall (fun ev => is_write_event ev = false)
            (trace (prepare_messages_body path prompt_type (key, conflict)))
  /\ forall result file,
       outcome (write_to_results_file result file) = Ok tt.
Proof.
  intros Hfail Hfull Hprompt Hlen.
  assert (Hw : forall result,
            write_to_results_file result path
            = log_error "Error writing to results file").
  { intros result. unfold write_to_results_file.
    destruct (makedirs_error path); [reflexivity|].
    destruct (open_error path); [reflexivity|].
    destruct Hfail as [H|H]; contradiction. }
  assert (Htry : prepare_messages_try path prompt_type key conflict
    = IO (trace (build_full_conflict conflict 8000 "gpt-4")
          ++ [EvLog (LogInfo ("Number of messages: " +:+ pretty n));
              EvLog (LogError "Error writing to results file");
              EvLog (LogInfo ("Messages for conflict " +:+ key
                              +:+ " written to file."))])
         (Ok tt)).
  { unfold prepare_messages_try. rewrite (io_bind_ok _ _ full Hfull).
    rewrite Hprompt. unfold mbind, io_bind, lift. cbn [outcome trace].
    rewrite Hlen. cbn [outcome trace]. rewrite Hw. reflexivity. }
  assert (Hbody : prepare_messages_body path prompt_type (key, conflict)
    = IO ([EvLog (LogInfo ("Building messsages for conflict - " +:+ key))]
          ++ trace (build_full_conflict conflict 8000 "gpt-4")
          ++ [EvLog (LogInfo ("Number of messages: " +:+ pretty n));
              EvLog (LogError "Error writing to results file");
              EvLog (LogInfo ("Messages for conflict " +:+ key
                              +:+ " written to file."))])
         (Ok tt)).
  { unfold prepare_messages_body. unfold mbind at 1. unfold io_bind. simpl.
    rewrite Htry. reflexivity. }
  split; [exact Hbody|]. split.
  - rewrite Hbody. cbn [trace]. apply Forall_app. split; [repeat constructor|].
    apply Forall_app. split; [|repeat constructor].
    eapply Forall_impl; [apply build_full_conflict_events|].
    intros ev [_ H]. exact H.
  - intros result file. unfold write_to_results_file.
    destruct (makedirs_error file); [reflexivity|].
    destruct (open_error file); reflexivity.
Qed.

(** ** The inference loop: what it writes, where it stops *)

Lemma filter_false {A : Type} (f : A -> bool) (l : list A) :
  Forall (fun x => f x = false) l -> List.filter f l = [].
Proof.
  induction 1 as [|x l Hx _ IH]; [reflexivity|].
  simpl. rewrite Hx. exact IH.
Qed.

Lemma query_openrouter_no_write (messages : json) (model : string) :
  Forall (fun ev => is_write_event ev = false)
         (trace (query_openrouter messages model)).
Proof.
  unfold query_openrouter, retry.
  apply retry_loop_Forall; [|intros; reflexivity].
  intros n. unfold query_openrouter_attempt. io_trace.
Qed.

Lemma query_huggingface_new_no_write (messages : json)
    (model provider : string) :
  Forall (fun ev => is_write_event ev = false)
         (trace (query_huggingface_new messages model provider)).
Proof. unfold query_huggingface_new. io_trace. Qed.

Lemma parse_result_no_write (text : string) :
  Forall (fun ev => is_write_event ev = false) (trace (parse_result text)).
Proof.
  unfold parse_result, load_candidate.
  destruct (json_candidate text) as [g|]; [|repeat constructor].
  destruct (json_loads g) as [v|[]]; repeat constructor.
Qed.

(** X7.  An iteration of [make_inferences] whose oracle client returns
    writes three lines, in this order: the raw answer (the file is
    truncated), the metadata with the elapsed time and the key (appended),
    and the ledger line [{key: parse_result(answer)}] (appended to the
    results file).  An empty answer is no exception: its ledger line is
    [{key: {}}], so the conflict counts as solved from then on. *)
Theorem answered_conflict_is_recorded (solved : gset pykey)
    (model results_file_path raw_results_path provider key : string)
    (messages : json) (answer : string) (meta : list (string * json))
    (asked logged : list event) (parsed : json) :
  let client :=
    if String.eqb provider "openrouter" then query_openrouter messages model
    else query_huggingface_new messages model provider in
  let key_transformed := replace_char "/" "_" (replace_char " " "_" key) in
  let step :=
    make_inferences_body solved model results_file_path raw_results_path
                         provider (KStr key, messages) in
  KStr key ∉ solved ->
  client = IO asked (Ok (answer, JObj meta)) ->
  (forall path, open_error path = None) ->
  parse_result answer = IO logged (Ok parsed) ->
  outcome step = Ok tt
  /\ List.filter is_write_event (trace step)
     = [EvWrite (raw_results_path +:+ "/raw_results_" +:+ key_transformed
                 +:+ ".json")
                "w" (json_dumps_value (JStr answer) +:+ nl);
        EvWrite (raw_results_path +:+ "/meta_" +:+ key_transformed
                 +:+ ".json")
                "a"
                (json_dumps_value
                   (JObj (dict_set "key" (JStr key)
                            (dict_set "total_time"
                               (JNum (elapsed_seconds messages)) meta)))
                 +:+ nl);
        EvWrite results_file_path "a" (ledger_line key parsed)]
  /\ (answer = EmptyString -> parsed = JObj []).
Proof.
  intros client key_transformed step Hns Hclient Hopen Hparse.
  assert (Hasked : List.filter is_write_event asked = []).
  { apply filter_false. change asked with (trace (IO asked (Ok (answer, JObj meta)))).
    rewrite <- Hclient. subst client.
    destruct (String.eqb provider "openrouter");
      [apply query_openrouter_no_write|apply query_huggingface_new_no_write]. }
  assert (Hlogged : List.filter is_write_event logged = []).
  { apply filter_false. change logged with (trace (IO logged (Ok parsed))).
    rewrite <- Hparse. apply parse_result_no_write. }
  assert (Htry : exists before,
    make_inferences_try model results_file_path raw_results_path provider
                        (KStr key) messages
    = IO (before
          ++ [EvWrite (raw_results_path +:+ "/raw_results_" +:+ key_transformed
                       +:+ ".json")
                      "w" (json_dumps_value (JStr answer) +:+ nl);
              EvLog (LogInfo ("Raw result saved to " +:+ raw_results_path
                              +:+ "/raw_results_" +:+ key_transformed
                              +:+ ".json"));
              EvWrite (raw_results_path +:+ "/meta_" +:+ key_transformed
                       +:+ ".json")
                      "a"
                      (json_dumps_value
                         (JObj (dict_set "key" (JStr key)
                                  (dict_set "total_time"
                                     (JNum (elapsed_seconds messages)) meta)))
                       +:+ nl);
              EvLog (LogInfo ("Metadata saved to " +:+ raw_results_path
                              +:+ "/meta_" +:+ key_transformed +:+ ".json"))]
          ++ logged
          ++ [EvWrite results_file_path "a" (ledger_line key parsed);
              EvLog (LogInfo "Results for conflict written to file.")])
         (Ok tt)
    /\ List.filter is_write_event before = []).
  { unfold make_inferences_try. subst client.
    destruct (String.eqb provider "openrouter");
      rewrite Hclient;
      unfold mbind, io_bind, lift, emit, save_raw_results,
        save_inference_stats, save_result, dump_line, log_info;
      cbn [outcome trace key_text py_setitem];
      rewrite !Hopen; cbn [outcome trace];
      rewrite Hparse; cbn [outcome trace].
    - exists ([EvQuery "query_openrouter" (KStr key) messages] ++ asked).
      split; [|exact Hasked].
      rewrite ?app_nil_r, <- ?app_assoc. reflexivity.
    - exists ([EvQuery "query_huggingface_new" (KStr key) messages] ++ asked).
      split; [|exact Hasked].
      rewrite ?app_nil_r, <- ?app_assoc. reflexivity. }
  destruct Htry as (before & Htry & Hbefore).
  assert (Hstep : exists pre,
    step = IO (pre ++ trace (make_inferences_try model results_file_path
                               raw_results_path provider (KStr key) messages))
              (Ok tt)
    /\ List.filter is_write_event pre = []).
  { subst step. unfold make_inferences_body.
    destruct (decide (KStr key ∈ solved)) as [Hin|_]; [contradiction|].
    rewrite Htry.
    destruct (String.eqb provider "openrouter");
      unfold mbind, io_bind, emit, log_info; cbn [outcome trace].
    - exists [EvSleep DELAY_BETWEEN_REQUESTS;
              EvLog (LogInfo "Making inference for conflict")].
      split; reflexivity.
    - exists [EvLog (LogInfo "Making inference for conflict")].
      split; reflexivity. }
  destruct Hstep as (pre & Hstep & Hpre).
  rewrite Hstep, Htry. cbn [outcome trace]. split; [reflexivity|]. split.
  - rewrite !List.filter_app, Hpre, Hbefore, Hlogged. reflexivity.
  - intros ->. unfold parse_result in Hparse. simpl in Hparse.
    injection Hparse as _ <-. reflexivity.
Qed.

(** X8.  [make_inferences] stops at the first iteration that raises: the
    error is logged, the exception leaves [make_inferences], and no later
    key is asked; the keys asked are the unsolved keys up to and including
    the failing one. *)
Theorem inference_failure_stops_the_run (before after : list (pykey * json))
    (key : pykey) (messages : json)
    (model results_file_path raw_results_path provider : string) (e : exn)
    (logged : list event) (solved : gset pykey) :
  let body :=
    make_inferences_body solved model results_file_path raw_results_path
                         provider in
  let run :=
    make_inferences (before ++ (key, messages) :: after) model
                    results_file_path raw_results_path provider in
  load_solved_conflict_keys results_file_path = IO logged (Ok solved) ->
  (forall item, In item before -> outcome (body item) = Ok tt) ->
  outcome (body (key, messages)) = Raise e ->
  outcome run = Raise e
  /\ query_keys (trace run)
     = List.filter (fun k => bool_decide (k ∉ solved)) (map fst before)
       ++ [key]
  /\ last (trace run) = Some (EvLog (LogError "Error processing conflict")).
Proof.
  intros body run Hload Hbefore Hraise.
  destruct (io_for_raise before after (key, messages) body e Hbefore Hraise)
    as [Hout Htr].
  assert (Hlogged : query_keys logged = []).
  { destruct (load_solved_conflict_keys_spec results_file_path)
      as (logged' & keys' & Hl & Hwarn & _).
    rewrite Hload in Hl. injection Hl as -> _.
    apply not_query_keys. eapply Forall_impl; [exact Hwarn|].
    intros ev [msg ->]. reflexivity. }
  assert (Hrun : run
    = IO ([EvLog (LogInfo "Number of cases to process")] ++ logged
          ++ flat_map (fun y => trace (body y)) before
          ++ trace (body (key, messages)))
         (Raise e)).
  { subst run. unfold make_inferences. rewrite Hload.
    unfold mbind, io_bind, log_info, emit. cbn [outcome trace].
    fold body. rewrite Hout, Htr. reflexivity. }
  assert (Hkey : key ∉ solved).
  { intros Hin. subst body. unfold make_inferences_body in Hraise.
    destruct (decide (key ∈ solved)); [discriminate|contradiction]. }
  assert (Hbody_tr : exists tr,
    trace (body (key, messages))
    = tr ++ [EvLog (LogError "Error processing conflict")]).
  { subst body. unfold make_inferences_body in *.
    destruct (decide (key ∈ solved)); [contradiction|].
    revert Hraise. unfold mbind, io_bind.
    destruct (String.eqb provider "openrouter");
      cbn [outcome trace emit log_info mret io_ret];
      destruct (outcome (make_inferences_try model results_file_path
                           raw_results_path provider key messages)) eqn:E;
      cbn [outcome trace]; rewrite ?E; try discriminate; intros _.
    - exists ([EvSleep DELAY_BETWEEN_REQUESTS;
               EvLog (LogInfo "Making inference for conflict")]
              ++ trace (make_inferences_try model results_file_path
                          raw_results_path provider key messages)).
      rewrite <- !app_assoc. reflexivity.
    - exists ([EvLog (LogInfo "Making inference for conflict")]
              ++ trace (make_inferences_try model results_file_path
                          raw_results_path provider key messages)).
      rewrite <- !app_assoc. reflexivity. }
  rewrite Hrun. cbn [outcome trace]. split; [reflexivity|]. split.
  - rewrite !query_keys_app, Hlogged.
    change (query_keys [EvLog (LogInfo "Number of cases to process")])
      with (@nil pykey).
    cbn [app]. subst body. rewrite make_inferences_body_queries.
    destruct (decide (key ∈ solved)); [contradiction|]. f_equal.
    clear. induction before as [|[k m] before IH]; [reflexivity|].
    cbn [flat_map map fst List.filter].
    rewrite query_keys_app, make_inferences_body_queries, IH.
    destruct (decide (k ∈ solved)) as [Hin|Hnin].
    + rewrite bool_decide_eq_false_2 by (intros H; exact (H Hin)).
      reflexivity.
    + rewrite bool_decide_eq_true_2 by exact Hnin. reflexivity.
  - destruct Hbody_tr as [tr ->].
    rewrite !app_assoc. apply last_snoc.
Qed.

(** X9.  Without an API key no request is sent.  [query_openrouter] fails
    before its request in each of its three attempts, sleeps twice for two
    seconds, and raises [RetryError]; [query_huggingface_new] and
    [query_huggingface] raise [TypeError] at once. *)
Theorem missing_api_key_sends_nothing (messages : json)
    (model provider : string) :
  (OR_API_KEY = None ->
   query_openrouter messages model
   = IO [EvSleep 2; EvSleep 2]
        (Raise (RetryError
                  (TypeError "'NoneType' object is not subscriptable"))))
  /\ (HF_API_KEY = None ->
      query_huggingface_new messages model provider
      = IO [] (Raise (TypeError "'NoneType' object is not subscriptable"))
      /\ query_huggingface messages model
         = IO [] (Raise (TypeError "'NoneType' object is not subscriptable"))).
Proof.
  split.
  - intros Hkey.
    assert (Hb : forall n, query_openrouter_attempt messages model n
              = IO [] (Raise (TypeError
                                "'NoneType' object is not subscriptable"))).
    { intros n. unfold query_openrouter_attempt. rewrite Hkey. reflexivity. }
    unfold query_openrouter, retry. simpl. rewrite !Hb. reflexivity.
  - intros Hkey. unfold query_huggingface_new, query_huggingface.
    rewrite Hkey. split; reflexivity.
Qed.

(** ** Link enrichment: what the record keeps, and how it can fail *)

Lemma dict_get_set_other {V : Type} (k k' : string) (v : V) (d : dict V) :
  k <> k' -> dict_get k (dict_set k' v d) = dict_get k d.
Proof.
  intros Hne. induction d as [|[k0 v0] d IH]; simpl.
  - apply String.eqb_neq in Hne. rewrite Hne. reflexivity.
  - destruct (String.eqb k' k0) eqn:E'; simpl.
    + apply String.eqb_eq in E'. subst k0.
      apply String.eqb_neq in Hne. rewrite Hne. reflexivity.
    + rewrite IH. reflexivity.
Qed.

Lemma dict_get_set_same {V : Type} (k : string) (v : V) (d : dict V) :
  dict_get k (dict_set k v d) = Some v.
Proof.
  induction d as [|[k0 v0] d IH]; simpl.
  - rewrite String.eqb_refl. reflexivity.
  - destruct (String.eqb k k0) eqn:E; simpl.
    + rewrite String.eqb_refl. reflexivity.
    + rewrite E. exact IH.
Qed.

Ltac split_matches H :=
  repeat match type of H with
         | context [match ?x with _ => _ end] => destruct x eqn:?
         | context [if ?c then _ else _] => destruct c eqn:?
         end.

Lemma enrich_first_chain_url (link : string) (d d' : dict json)
    (processed : bool) :
  enrich_first_chain link d = Ok (d', processed) ->
  dict_get "url" d' = dict_get "url" d.
Proof.
  unfold enrich_first_chain, mbind, result_bind. intros H.
  split_matches H; try discriminate; injection H as <- _;
    rewrite ?dict_get_set_other by discriminate; reflexivity.
Qed.

Lemma enrich_second_chain_url (link : string) (d : dict json)
    (processed : bool) :
  dict_get "url" (enrich_second_chain link d processed).1 = dict_get "url" d.
Proof.
  unfold enrich_second_chain.
  repeat match goal with
         | |- context [match ?x with _ => _ end] => destruct x eqn:?
         | |- context [if ?c then _ else _] => destruct c eqn:?
         end; simpl;
    rewrite ?dict_get_set_other by discriminate; reflexivity.
Qed.

(** X10.  The record that [enrich_link] returns is filed under the link as
    it was given, not under the address the redirect resolved to; and when
    the [HEAD] request fails or resolves to nothing, the record holds the
    link and nothing else. *)
Theorem enrich_link_keeps_given_url (link : string) :
  (forall d, enrich_link link = Ok d -> dict_get "url" d = Some (JStr link))
  /\ (forall e, head_url link = Raise e ->
        enrich_link link = Ok [("url", JStr link)])
  /\ (head_url link = Ok EmptyString ->
      enrich_link link = Ok [("url", JStr link)]).
Proof.
  split; [|split].
  - intros d. unfold enrich_link.
    destruct (get_redirect link) as [[|c resolved]|];
      [intros [= <-]; reflexivity| |intros [= <-]; reflexivity].
    unfold mbind, result_bind.
    destruct (enrich_first_chain (String c resolved) [("url", JStr link)])
      as [[d1 p1]|e] eqn:E1; [|discriminate].
    apply enrich_first_chain_url in E1.
    pose proof (enrich_second_chain_url (String c resolved) d1 p1) as E2.
    destruct (enrich_second_chain (String c resolved) d1 p1) as [d2 p2].
    simpl in E2. rewrite E1 in E2.
    destruct (negb p2); [|intros [= <-]; exact E2].
    destruct (get_link_content (String c resolved)) as [[|c' page]|];
      try (intros [= <-]; exact E2).
    destruct (extract_main_text_from_html (String c' page)); [|discriminate].
    intros [= <-]. rewrite dict_get_set_other by discriminate. exact E2.
  - intros e He. unfold enrich_link, get_redirect. rewrite He. reflexivity.
  - intros He. unfold enrich_link, get_redirect. rewrite He. reflexivity.
Qed.

Lemma split_str_go_nonempty (sep : string) (skip : nat) (s : string) :
  split_str_go sep skip s <> [].
Proof.
  revert skip. induction s as [|c s IH]; intros skip; simpl; [discriminate|].
  destruct skip; [|apply IH].
  destruct (strip_prefix sep (String c s)); [discriminate|].
  destruct (split_str_go sep 0 s); discriminate.
Qed.

(** A text that contains the separator splits into at least two parts. *)
Lemma split_str_contains (sep s : string) :
  sep <> EmptyString -> contains sep s = true ->
  exists a b rest, split_str sep s = a :: b :: rest.
Proof.
  intros Hsep. unfold split_str. induction s as [|c s IH]; simpl.
  - destruct sep; [contradiction|discriminate].
  - destruct (strip_prefix sep (String c s)) eqn:E.
    + intros _.
      pose proof (split_str_go_nonempty sep (String.length sep - 1) s) as Hne.
      destruct (split_str_go sep (String.length sep - 1) s) as [|b rest];
        [contradiction|]. eauto.
    + intros Hc. destruct (IH Hc) as (a & b & rest & ->). eauto.
Qed.

Lemma split_char_nonempty (sep : ascii) (s : string) :
  split_char sep s <> [].
Proof.
  destruct s as [|c s]; simpl; [discriminate|].
  destruct (Ascii.eqb c sep); [discriminate|].
  destruct (split_char sep s); discriminate.
Qed.

(** X11.  [enrich_link] raises in two places only.  On a link that
    resolves to a GitLab address (and not a GitHub one), what
    [get_gitlab_repo_metadata] raises, or the lookup of [readme_url] in
    metadata that is not a dictionary, leaves [enrich_link]; and on a link
    that no branch has processed, what [extract_main_text_from_html] raises
    on the rendered page does.  The GitHub, PyPI, SourceForge, Bitbucket
    and Bioconductor branches raise nothing. *)
Theorem enrich_link_failure_modes (link : string) (e : exn) :
  enrich_link link = Raise e ->
  exists resolved,
    head_url link = Ok resolved
    /\ resolved <> EmptyString
    /\ ((contains "github.com" resolved = false
         /\ contains "gitlab.com" resolved = true
         /\ (get_gitlab_repo_metadata resolved = Raise e
             \/ exists metadata,
                  get_gitlab_repo_metadata resolved = Ok metadata
                  /\ truthy metadata = true
                  /\ py_get metadata "readme_url" JNull = Raise e))
        \/ (exists page,
              get_link_content resolved = Some page
              /\ extract_main_text_from_html page = Raise e)).
Proof.
  unfold enrich_link, get_redirect.
  destruct (head_url link) as [[|c rest]|e0] eqn:Eh; try discriminate.
  set (resolved := String c rest). intros H.
  exists resolved. split; [reflexivity|]. split; [discriminate|].
  unfold mbind, result_bind in H.
  destruct (enrich_first_chain resolved [("url", JStr link)])
    as [[d1 p1]|e1] eqn:E1.
  - right.
    destruct (enrich_second_chain resolved d1 p1) as [d2 p2].
    destruct (negb p2); [|discriminate].
    destruct (get_link_content resolved) as [[|c' page]|]; try discriminate.
    exists (String c' page). split; [reflexivity|].
    destruct (extract_main_text_from_html (String c' page)); [discriminate|].
    injection H as ->. reflexivity.
  - injection H as ->. left.
    unfold enrich_first_chain, mbind, result_bind in E1.
    destruct (contains "github.com" resolved) eqn:Egh.
    { split_matches E1; discriminate. }
    destruct (contains "gitlab.com" resolved) eqn:Egl.
    { split; [reflexivity|]. split; [reflexivity|].
      destruct (get_gitlab_repo_metadata resolved) as [metadata|e2] eqn:Em.
      - right. exists metadata. split; [reflexivity|].
        destruct (truthy metadata); [|discriminate]. split; [reflexivity|].
        destruct (py_get metadata "readme_url" JNull); [|congruence].
        split_matches E1; discriminate.
      - left. congruence. }
    destruct (contains "pypi.org/project/" resolved) eqn:Epy; [|discriminate].
    exfalso.
    destruct (split_str_contains "pypi.org/project/" resolved
                ltac:(discriminate) Epy) as (a & b & parts & Hs).
    rewrite Hs in E1. simpl in E1.
    pose proof (split_char_nonempty "/" b) as Hne.
    destruct (split_char "/" b); [contradiction|]. simpl in E1. discriminate.
Qed.

(** ** The conflict assembler: which links are enriched *)

(** The links an entry refers to: its web pages, and the address of each of
    its repositories (the empty text for a repository without one). *)
Definition entry_links (e : entry) : list string :=
  default [] (webpage e)
  ++ map (fun repo => default EmptyString (url repo)) (default [] (repository e)).

Definition link_set (sets : link_sets) : gset string :=
  all_webpages sets ∪ all_repos sets.

Lemma collect_repo_links (sets : link_sets) (repo : repo_ref) (u : string) :
  u ∈ link_set (collect_repo sets repo)
  <-> u ∈ link_set sets \/ u = default EmptyString (url repo).
Proof.
  unfold collect_repo, link_set.
  repeat match goal with
         | |- context [if ?c then _ else _] => destruct c
         end; simpl;
    rewrite !elem_of_union, elem_of_singleton;
    (split; [intros [H|H]|intros [[H|H]|H]]); auto;
    destruct H; auto.
Qed.

Lemma collect_repos_links (repos : list repo_ref) (sets : link_sets)
    (u : string) :
  u ∈ link_set (fold_left collect_repo repos sets)
  <-> u ∈ link_set sets
      \/ u ∈ map (fun repo => default EmptyString (url repo)) repos.
Proof.
  revert sets. induction repos as [|repo repos IH]; intros sets; simpl.
  - split; [auto|]. intros [H|H]; [exact H|inversion H].
  - rewrite IH, collect_repo_links, elem_of_cons.
    split; [intros [[H|H]|H]|intros [H|[H|H]]]; auto.
Qed.

Lemma strip_content_fields_links (sets : link_sets) (e : entry) (u : string) :
  u ∈ link_set (strip_content_fields sets e).2
  <-> u ∈ link_set sets \/ u ∈ entry_links e.
Proof.
  unfold strip_content_fields, entry_links. simpl.
  rewrite collect_repos_links, elem_of_app. unfold link_set at 1. simpl.
  rewrite !elem_of_union, elem_of_list_to_set. unfold link_set.
  rewrite elem_of_union.
  split; [intros [[[H|H]|H]|H]|intros [[H|H]|[H|H]]]; auto.
Qed.

Lemma strip_partition_links (entries out : list entry) (sets : link_sets)
    (u : string) :
  u ∈ link_set (fold_left strip_partition entries (out, sets)).2
  <-> u ∈ link_set sets \/ exists e, e ∈ entries /\ u ∈ entry_links e.
Proof.
  revert out sets. induction entries as [|e entries IH]; intros out sets.
  - simpl. split; [auto|]. intros [H|(e & He & _)]; [exact H|inversion He].
  - cbn [fold_left]. unfold strip_partition at 2.
    pose proof (strip_content_fields_links sets e u) as Hs.
    destruct (strip_content_fields sets e) as [copy sets'].
    rewrite IH. simpl in Hs. rewrite Hs. split.
    + intros [[H|H]|(e' & He' & Hu)]; [auto| |].
      * right. exists e. split; [by left|exact H].
      * right. exists e'. split; [by right|exact Hu].
    + intros [H|(e' & He' & Hu)]; [auto|].
      apply elem_of_cons in He' as [->|He']; [auto|].
      right. exists e'. auto.
Qed.

(** The links [build_full_conflict] hands to the collector are the links
    its entries refer to. *)
Lemma build_full_conflict_links (conflict : conflict_group) (max_tokens : Z)
    (model : string) :
  exists url_list : list string,
    build_full_conflict conflict max_tokens model
    = (enrich_and_collect_content max_tokens model url_list ≫= fun wc =>
       mret {| disconnected := cg_disconnected conflict;
               remaining := cg_remaining conflict;
               webpage_contents := Some wc |})
    /\ forall u, u ∈ url_list <->
                 exists e, e ∈ cg_disconnected conflict ++ cg_remaining conflict
                           /\ u ∈ entry_links e.
Proof.
  unfold build_full_conflict.
  pose proof (strip_partition_out (cg_disconnected conflict) []
                {| all_webpages := ∅; all_repos := ∅ |}) as Hd.
  pose proof (fun u => strip_partition_links (cg_disconnected conflict) []
                {| all_webpages := ∅; all_repos := ∅ |} u) as Hdl.
  destruct (fold_left strip_partition (cg_disconnected conflict) _)
    as [new_disconnected sets1].
  pose proof (strip_partition_out (cg_remaining conflict) [] sets1) as Hr.
  pose proof (fun u => strip_partition_links (cg_remaining conflict) []
                sets1 u) as Hrl.
  destruct (fold_left strip_partition (cg_remaining conflict) _)
    as [new_remaining sets2].
  simpl in Hd, Hr, Hdl, Hrl. subst.
  eexists. split; [reflexivity|].
  intros u. rewrite elem_of_elements.
  change (all_webpages sets2 ∪ all_repos sets2) with (link_set sets2).
  rewrite Hrl, Hdl. unfold link_set at 1. simpl. rewrite elem_of_union.
  split.
  - intros [[[H|H]|(e & He & Hu)]|(e & He & Hu)].
    + apply elem_of_empty in H. contradiction.
    + apply elem_of_empty in H. contradiction.
    + exists e. split; [apply elem_of_app; by left|exact Hu].
    + exists e. split; [apply elem_of_app; by right|exact Hu].
  - intros (e & He & Hu). apply elem_of_app in He as [He|He].
    + left. right. exists e. auto.
    + right. exists e. auto.
Qed.

(** Every link that is not empty ends up as a key of the collected
    contents, and no call is made for the empty link. *)
Lemma enrich_loop_complete (max_tokens : Z) (model : string)
    (url_list : list string) (st st' : collector) :
  outcome (enrich_and_collect_loop max_tokens model url_list st) = Ok st' ->
  (forall u, u ∈ seen st -> u ∈ dict_keys (contents st)) ->
  (forall u, u ∈ seen st' -> u ∈ dict_keys (contents st'))
  /\ (forall u, u ∈ seen st -> u ∈ seen st')
  /\ (forall u, u ∈ url_list -> u <> EmptyString -> u ∈ seen st').
Proof.
  revert st. induction url_list as [|url rest IH]; intros st Hout Hinv.
  - simpl in Hout. injection Hout as <-.
    split; [exact Hinv|]. split; [auto|]. intros u Hu. inversion Hu.
  - cbn [enrich_and_collect_loop] in Hout.
    destruct (outcome (enrich_and_collect_step max_tokens model st url))
      as [st1|e] eqn:Est.
    2: { rewrite (io_bind_raise _ _ e Est) in Hout. discriminate. }
    rewrite (io_bind_ok _ _ st1 Est) in Hout. cbn [outcome] in Hout.
    assert (Hstep : (forall u, u ∈ seen st1 -> u ∈ dict_keys (contents st1))
                    /\ (forall u, u ∈ seen st -> u ∈ seen st1)
                    /\ (url <> EmptyString -> url ∈ seen st1)).
    { destruct (enrich_step_ok max_tokens model st st1 url Est)
        as [[Hc ->]|(Hc & Hseen & labels & Hcont)].
      - split; [exact Hinv|]. split; [auto|]. intros Hne.
        apply orb_true_iff in Hc as [Hc|Hc].
        + apply bool_decide_eq_true in Hc. exact Hc.
        + apply String.eqb_eq in Hc. contradiction.
      - split; [|split].
        + intros u. rewrite Hseen, Hcont, elem_of_union, elem_of_singleton.
          intros [Hu| ->]; apply list_elem_of_In, dict_set_keys_In.
          * right. apply list_elem_of_In, Hinv, Hu.
          * left. reflexivity.
        + intros u Hu. rewrite Hseen. apply elem_of_union. by left.
        + intros _. rewrite Hseen. apply elem_of_union. right.
          apply elem_of_singleton. reflexivity. }
    destruct Hstep as (Hinv1 & Hmono1 & Hurl).
    destruct (IH st1 Hout Hinv1) as (Hinv' & Hmono' & Hall).
    split; [exact Hinv'|]. split; [auto|].
    intros u Hu Hne. apply elem_of_cons in Hu as [->|Hu]; [|auto].
    apply Hmono', Hurl, Hne.
Qed.

Lemma enrich_loop_calls_nonempty (max_tokens : Z) (model : string)
    (url_list : list string) (st : collector) :
  Forall (fun u => u <> EmptyString)
         (enrich_calls
            (trace (enrich_and_collect_loop max_tokens model url_list st))).
Proof.
  revert st. induction url_list as [|url rest IH]; intros st; [constructor|].
  cbn [enrich_and_collect_loop].
  pose proof (enrich_step_trace max_tokens model st url) as Htr.
  assert (Hfirst : Forall (fun u => u <> EmptyString)
            (enrich_calls
               (trace (enrich_and_collect_step max_tokens model st url)))).
  { rewrite Htr.
    destruct (bool_decide (url ∈ seen st) || String.eqb url EmptyString)
      eqn:Hc; [constructor|].
    apply skip_condition_false in Hc as [_ Hne]. repeat constructor. exact Hne. }
  destruct (outcome (enrich_and_collect_step max_tokens model st url))
    as [st1|e] eqn:Est.
  - rewrite (io_bind_ok _ _ st1 Est). cbn [trace].
    rewrite enrich_calls_app. apply Forall_app. split; [exact Hfirst|apply IH].
  - rewrite (io_bind_raise _ _ e Est). exact Hfirst.
Qed.

(** X12.  When [build_full_conflict] returns, [webpage_contents] has one
    key for every link that an entry of either partition refers to (a web
    page, or the address of a repository) and that is not the empty text,
    and no other key; these are also exactly the links for which
    [enrich_link] was called. *)
Theorem every_referenced_link_is_enriched (conflict : conflict_group)
    (max_tokens : Z) (model : string) (full : conflict_data) :
  let r := build_full_conflict conflict max_tokens model in
  let referenced u :=
    u <> EmptyString
    /\ exists e, e ∈ cg_disconnected conflict ++ cg_remaining conflict
                 /\ u ∈ entry_links e in
  outcome r = Ok full ->
  exists d,
    webpage_contents full = Some d
    /\ (forall u, u ∈ dict_keys d <-> referenced u)
    /\ (forall u, u ∈ enrich_calls (trace r) <-> referenced u).
Proof.
  intros r referenced. subst r.
  destruct (build_full_conflict_links conflict max_tokens model)
    as (links & -> & Hlinks).
  intros Hfull.
  assert (Htr : trace (enrich_and_collect_content max_tokens model links ≫=
                 fun wc => mret {| disconnected := cg_disconnected conflict;
                                   remaining := cg_remaining conflict;
                                   webpage_contents := Some wc |})
                = trace (enrich_and_collect_loop max_tokens model links
                           {| contents := []; seen := ∅ |})).
  { rewrite <- enrich_and_collect_content_trace.
    unfold mbind at 1. unfold io_bind at 1.
    destruct (outcome (enrich_and_collect_content max_tokens model links));
      simpl; rewrite ?app_nil_r; reflexivity. }
  rewrite Htr. clear Htr.
  unfold mbind at 1 in Hfull. unfold io_bind at 1 in Hfull.
  destruct (outcome (enrich_and_collect_content max_tokens model links))
    as [d|e] eqn:Ed; simpl in Hfull; [|discriminate].
  injection Hfull as <-. exists d. split; [reflexivity|].
  apply enrich_and_collect_content_ok in Ed as (st & Hst & ->).
  destruct (enrich_loop_calls max_tokens model links
              {| contents := []; seen := ∅ |}) as (_ & Hcalls & Hfin).
  destruct (Hfin st Hst) as (Hseen & _ & Hkeys).
  destruct (enrich_loop_complete max_tokens model links _ st Hst)
    as (Hinv & _ & Hall).
  { intros u Hu. apply elem_of_empty in Hu. contradiction. }
  pose proof (enrich_loop_calls_nonempty max_tokens model links
                {| contents := []; seen := ∅ |}) as Hne.
  rewrite Forall_forall in Hne.
  assert (Hcall_ref : forall u,
            u ∈ enrich_calls
                  (trace (enrich_and_collect_loop max_tokens model links
                            {| contents := []; seen := ∅ |})) ->
            referenced u).
  { intros u Hu. split; [apply Hne, Hu|].
    apply Hlinks. destruct (Hcalls u Hu) as [_ H]. exact H. }
  assert (Href_seen : forall u, referenced u -> u ∈ seen st).
  { intros u [Hu He]. apply Hall; [apply Hlinks, He|exact Hu]. }
  split.
  - intros u. split.
    + intros Hk. destruct (Hkeys u Hk) as [H|H]; [inversion H|].
      apply Hcall_ref, H.
    + intros Hr. apply Hinv, Href_seen, Hr.
  - intros u. split; [apply Hcall_ref|].
    intros Hr. apply Href_seen, Hseen in Hr as [H|H]; [|exact H].
    apply elem_of_empty in H. contradiction.
Qed.

(** ** Results files: what is written is read back *)

Lemma pydict_get_set_same {V : Type} (k : pykey) (v : V) (d : pydict V) :
  pydict_get k (pydict_set k v d) = Some v.
Proof.
  induction d as [|[k0 v0] d IH]; simpl.
  - destruct (decide (k = k)); [reflexivity|contradiction].
  - destruct (decide (k = k0)) as [E|E]; simpl.
    + destruct (decide (k = k)); [reflexivity|contradiction].
    + destruct (decide (k = k0)); [contradiction|exact IH].
Qed.

Lemma pydict_get_set_other {V : Type} (k k' : pykey) (v : V) (d : pydict V) :
  k <> k' -> pydict_get k (pydict_set k' v d) = pydict_get k d.
Proof.
  intros Hne. induction d as [|[k0 v0] d IH]; simpl.
  - destruct (decide (k = k')); [contradiction|reflexivity].
  - destruct (decide (k' = k0)) as [E|E]; simpl.
    + subst k0. destruct (decide (k = k')); [contradiction|reflexivity].
    + destruct (decide (k = k0)); [reflexivity|exact IH].
Qed.

Lemma pydict_set_keys_in {V : Type} (k k' : pykey) (v : V) (d : pydict V) :
  k' ∈ map fst (pydict_set k v d) <-> k' = k \/ k' ∈ map fst d.
Proof.
  induction d as [|[k0 v0] d IH]; simpl.
  - rewrite elem_of_cons. split; [intros [H|H]|intros [H|H]]; auto.
  - destruct (decide (k = k0)) as [E|E]; simpl.
    + subst k0. rewrite !elem_of_cons.
      split; [intros [H|H]|intros [H|[H|H]]]; auto.
    + rewrite !elem_of_cons, IH.
      split; [intros [H|[H|H]]|intros [H|[H|H]]]; auto.
Qed.

Lemma pydict_set_keys_NoDup {V : Type} (k : pykey) (v : V) (d : pydict V) :
  NoDup (map fst d) -> NoDup (map fst (pydict_set k v d)).
Proof.
  induction d as [|[k0 v0] d IH]; simpl; intros Hnd.
  - apply NoDup_singleton.
  - destruct (decide (k = k0)) as [E|E]; simpl.
    + subst k0. exact Hnd.
    + apply NoDup_cons in Hnd as [Hk0 Hnd]. apply NoDup_cons. split.
      * rewrite pydict_set_keys_in. intros [H|H]; [congruence|contradiction].
      * apply IH, Hnd.
Qed.

Lemma next_iter_key_eq (entry : json) :
  next_iter_key entry = next_iter entry ≫= key_of_json.
Proof.
  destruct entry as [| | |[|c s]|[|x items]|[|[k v] members]]; reflexivity.
Qed.

Definition not_CR (c : ascii) : bool := negb (Ascii.eqb c CR).
Definition not_LF (c : ascii) : bool := negb (Ascii.eqb c LF).

(** A character that ends no line. *)
Definition no_line_break (c : ascii) : bool := not_LF c && not_CR c.

Lemma universal_newlines_id (s : string) :
  all_chars not_CR s = true -> universal_newlines s = s.
Proof.
  induction s as [|c s IH]; [reflexivity|]. cbn [all_chars universal_newlines].
  intros H. apply andb_prop in H as [Hc Hs]. unfold not_CR in Hc.
  apply negb_true_iff in Hc. rewrite Hc, (IH Hs). reflexivity.
Qed.

Lemma lines_keepends_line (l rest : string) :
  all_chars not_LF l = true ->
  lines_keepends (l +:+ nl +:+ rest) = (l +:+ nl) :: lines_keepends rest.
Proof.
  induction l as [|c l IH]; intros H; [reflexivity|].
  cbn [all_chars] in H. apply andb_prop in H as [Hc Hl].
  unfold not_LF in Hc. apply negb_true_iff in Hc.
  rewrite !append_cons. cbn [lines_keepends]. rewrite Hc, (IH Hl).
  reflexivity.
Qed.

Lemma all_chars_weaken (p q : ascii -> bool) (s : string) :
  (forall c, p c = true -> q c = true) ->
  all_chars p s = true -> all_chars q s = true.
Proof.
  intros Hpq. induction s as [|c s IH]; [reflexivity|]. cbn [all_chars].
  intros H. apply andb_prop in H as [Hc Hs].
  rewrite (Hpq c Hc), (IH Hs). reflexivity.
Qed.

Lemma no_line_break_CR (s : string) :
  all_chars no_line_break s = true -> all_chars not_CR s = true.
Proof.
  apply all_chars_weaken. intros c Hc. unfold no_line_break in Hc.
  apply andb_prop in Hc as [_ Hc]. exact Hc.
Qed.

Lemma no_line_break_LF (s : string) :
  all_chars no_line_break s = true -> all_chars not_LF s = true.
Proof.
  apply all_chars_weaken. intros c Hc. unfold no_line_break in Hc.
  apply andb_prop in Hc as [Hc _]. exact Hc.
Qed.

(** The value [{key: value}] is written on one line that is not blank. *)
Definition one_line (key : string) (value : json) : Prop :=
  all_chars no_line_break (json_dumps_value (JObj [(key, value)])) = true
  /\ strip (ledger_line key value) <> EmptyString.

(** The line reads back as the value that was written. *)
Definition reads_back (key : string) (value : json) : Prop :=
  one_line key value
  /\ json_loads (ledger_line key value) = Ok (JObj [(key, value)]).

(** The line reads back as something whose first item is the key. *)
Definition records_key (key : string) (value : json) : Prop :=
  one_line key value
  /\ exists entry,
       json_loads (ledger_line key value) = Ok entry
       /\ next_iter_key entry = Ok (KStr key).

Lemma reads_back_records_key (key : string) (value : json) :
  reads_back key value -> records_key key value.
Proof. intros [H1 Hl]. split; [exact H1|]. eexists. split; [exact Hl|reflexivity]. Qed.

Lemma ledger_text_lines (entries : list (string * json)) :
  Forall (fun kv => one_line kv.1 kv.2) entries ->
  file_lines (ledger_text entries)
  = map (fun kv => ledger_line kv.1 kv.2) entries.
Proof.
  intros Hall. unfold file_lines.
  assert (Hcr : all_chars not_CR (ledger_text entries) = true).
  { induction Hall as [|[k v] entries (Hk & _) _ IH]; [reflexivity|].
    cbn [fst snd] in Hk.
    unfold ledger_text. cbn [fold_right fst snd]. unfold ledger_line at 1.
    rewrite !all_chars_app. fold (ledger_text entries). rewrite IH.
    rewrite (no_line_break_CR _ Hk). reflexivity. }
  rewrite (universal_newlines_id _ Hcr). clear Hcr.
  induction Hall as [|[k v] entries (Hk & _) _ IH]; [reflexivity|].
  cbn [fst snd] in Hk.
  unfold ledger_text. cbn [fold_right fst snd map]. unfold ledger_line at 1.
  rewrite append_assoc, lines_keepends_line.
  - fold (ledger_text entries). rewrite IH. reflexivity.
  - apply no_line_break_LF, Hk.
Qed.

Lemma load_solved_fold_lines (entries : list (string * json))
    (acc : gset pykey) (logged : list event) :
  Forall (fun kv => reads_back kv.1 kv.2) entries ->
  fold_left load_solved_step (map (fun kv => ledger_line kv.1 kv.2) entries)
            (acc, logged)
  = (acc ∪ list_to_set (map (fun kv => KStr kv.1) entries), logged).
Proof.
  intros Hall. revert acc.
  induction Hall as [|[k v] entries ((_ & Hs) & Hl) _ IH]; intros acc.
  - simpl. rewrite (right_id_L ∅ (∪)). reflexivity.
  - cbn [map fold_left fst snd]. unfold load_solved_step at 2.
    apply String.eqb_neq in Hs. simpl in Hs, Hl. rewrite Hs, Hl.
    cbn [mbind result_bind next_iter_key]. rewrite IH.
    cbn [list_to_set]. rewrite (assoc_L (∪)). reflexivity.
Qed.

Lemma parse_messages_fold_lines (entries : list (string * json))
    (acc : pydict json) (logged : list event) :
  Forall (fun kv => reads_back kv.1 kv.2) entries ->
  fold_left parse_messages_step
            (map (fun kv => ledger_line kv.1 kv.2) entries) (acc, logged)
  = (fold_left (fun d kv => pydict_set (KStr kv.1) kv.2 d) entries acc,
     logged).
Proof.
  intros Hall. revert acc.
  induction Hall as [|[k v] entries ((_ & Hs) & Hl) _ IH]; intros acc;
    [reflexivity|].
  cbn [map fold_left fst snd]. unfold parse_messages_step at 2.
  apply String.eqb_neq in Hs. simpl in Hs, Hl. rewrite Hs.
  unfold parse_messages_try. rewrite Hl.
  cbn [mbind result_bind next_iter py_iter map fst first_key_item py_getitem
       dict_get key_of_json].
  rewrite String.eqb_refl. apply IH.
Qed.

(** X13.  A results file that holds only lines appended by
    [write_to_results_file] or [save_result], each for a result
    [{key: value}] that [json] writes on one line and reads back, is read in
    full and without a warning: [load_solved_conflict_keys] returns exactly
    the keys that were written, and [parse_messages_file] returns the
    dictionary of the written entries, a repeated key with its last
    value. *)
Theorem results_file_round_trip (path : string)
    (entries : list (string * json)) :
  Forall (fun kv => reads_back kv.1 kv.2) entries ->
  read_file path = Some (ledger_text entries) ->
  load_solved_conflict_keys path
  = IO [] (Ok (list_to_set (map (fun kv => KStr kv.1) entries)))
  /\ parse_messages_file path
     = IO [] (Ok (fold_left (fun d kv => pydict_set (KStr kv.1) kv.2 d)
                            entries [])).
Proof.
  intros Hall Hfile.
  assert (Hone : Forall (fun kv => one_line kv.1 kv.2) entries).
  { eapply Forall_impl; [exact Hall|]. intros kv [H _]. exact H. }
  split.
  - unfold load_solved_conflict_keys. rewrite Hfile.
    rewrite (ledger_text_lines _ Hone), (load_solved_fold_lines _ _ _ Hall).
    rewrite (left_id_L ∅ (∪)). reflexivity.
  - unfold parse_messages_file. rewrite Hfile.
    rewrite (ledger_text_lines _ Hone), (parse_messages_fold_lines _ _ _ Hall).
    reflexivity.
Qed.

(** ** Reading the messages file *)

Lemma parse_messages_try_key (line : string) (k : pykey) (message : json) :
  parse_messages_try line = Ok (k, message) ->
  exists entry, json_loads line = Ok entry /\ next_iter_key entry = Ok k.
Proof.
  unfold parse_messages_try. intros H.
  destruct (json_loads line) as [entry|e]; [|discriminate].
  exists entry. split; [reflexivity|]. rewrite next_iter_key_eq.
  cbn [mbind result_bind] in *.
  destruct (next_iter entry) as [key|e]; [|discriminate].
  cbn [mbind result_bind] in *.
  destruct (first_key_item line entry key); [|discriminate].
  cbn [mbind result_bind] in *.
  destruct (key_of_json key); [|discriminate].
  injection H as -> _. reflexivity.
Qed.

Lemma parse_messages_step_spec (acc : pydict json * list event)
    (line : string) :
  (exists k message,
      line_key line k
      /\ parse_messages_step acc line = (pydict_set k message acc.1, acc.2)
      /\ parse_messages_try line = Ok (k, message))
  \/ (exists msg,
        (parse_messages_step acc line).1 = acc.1
        /\ ((parse_messages_step acc line).2 = acc.2
            \/ (parse_messages_step acc line).2
               = acc.2 ++ [EvLog (LogWarning msg)])
        /\ forall k message, strip line <> EmptyString ->
                             parse_messages_try line <> Ok (k, message)).
Proof.
  destruct acc as [messages logged]. unfold parse_messages_step.
  destruct (String.eqb (strip line) EmptyString) eqn:Eb.
  - right. exists EmptyString. apply String.eqb_eq in Eb.
    split; [reflexivity|]. split; [left; reflexivity|].
    intros k message Hne. contradiction.
  - apply String.eqb_neq in Eb.
    destruct (parse_messages_try line) as [[k message]|e] eqn:Et.
    + left. exists k, message. split; [|split; reflexivity].
      split; [exact Eb|]. eapply parse_messages_try_key, Et.
    + right. eexists. split; [reflexivity|]. split; [right; reflexivity|].
      intros k message _. discriminate.
Qed.

Lemma parse_messages_fold_spec (lines : list string)
    (acc : pydict json * list event) :
  let r := fold_left parse_messages_step lines acc in
  (Forall (fun ev => exists msg, ev = EvLog (LogWarning msg)) acc.2 ->
   Forall (fun ev => exists msg, ev = EvLog (LogWarning msg)) r.2)
  /\ (NoDup (map fst acc.1) -> NoDup (map fst r.1))
  /\ (forall k, k ∈ map fst r.1 ->
        k ∈ map fst acc.1 \/ exists line, line ∈ lines /\ line_key line k).
Proof.
  revert acc. induction lines as [|line lines IH]; intros acc; simpl.
  - split; [auto|]. split; auto.
  - destruct (IH (parse_messages_step acc line)) as (Hlog & Hnd & Hkeys).
    destruct (parse_messages_step_spec acc line)
      as [(k & message & Hk & Hstep & _)|(msg & H1 & H2 & _)].
    + rewrite Hstep in *. simpl in *. split; [exact Hlog|]. split.
      * intros H. apply Hnd, pydict_set_keys_NoDup, H.
      * intros k' Hk'. destruct (Hkeys k' Hk') as [H|(l & Hl & Hlk)].
        -- apply pydict_set_keys_in in H as [->|H]; [|auto].
           right. exists line. split; [by left|exact Hk].
        -- right. exists l. split; [by right|exact Hlk].
    + split; [|split].
      * intros H. apply Hlog. destruct H2 as [->| ->]; [exact H|].
        apply Forall_app. split; [exact H|]. repeat constructor. eauto.
      * rewrite H1 in Hnd. exact Hnd.
      * intros k' Hk'. rewrite H1 in Hkeys.
        destruct (Hkeys k' Hk') as [H|(l & Hl & Hlk)]; [auto|].
        right. exists l. split; [by right|exact Hlk].
Qed.

Lemma parse_messages_fold_get (lines : list string)
    (acc : pydict json * list event) (k : pykey) :
  (forall l, l ∈ lines -> ~ line_key l k) ->
  pydict_get k (fold_left parse_messages_step lines acc).1
  = pydict_get k acc.1.
Proof.
  revert acc. induction lines as [|line lines IH]; intros acc Hno;
    [reflexivity|].
  cbn [fold_left]. rewrite IH.
  - destruct (parse_messages_step_spec acc line)
      as [(k' & message & Hk & Hstep & _)|(msg & H1 & _)].
    + rewrite Hstep. simpl. apply pydict_get_set_other.
      intros ->. apply (Hno line); [by left|exact Hk].
    + rewrite H1. reflexivity.
  - intros l Hl. apply Hno. by right.
Qed.

(** X14.  [parse_messages_file] raises when the messages file is missing
    (where the ledger loader returns the empty set), so that
    [make_inferences_model] stops before any oracle call and before it reads
    the ledger.  On a file it never raises and logs warnings only; the keys
    of the dictionary it returns are pairwise different, each the first item
    of a line that decodes; and a line that decodes to an object files the
    value of its first key under that key, the last such line winning. *)
Theorem messages_file_reader (messages_file_path model results_file_path
    raw_results_path provider : string) :
  (read_file messages_file_path = None ->
   make_inferences_model messages_file_path model results_file_path
                         raw_results_path provider
   = IO [] (Raise (OSError "No such file or directory")))
  /\ (forall content,
        read_file messages_file_path = Some content ->
        exists logged messages,
          parse_messages_file messages_file_path = IO logged (Ok messages)
          /\ Forall (fun ev => exists msg, ev = EvLog (LogWarning msg)) logged
          /\ NoDup (map fst messages)
          /\ (forall k, k ∈ map fst messages ->
                exists line, line ∈ file_lines content /\ line_key line k)
          /\ (forall before line after k v rest,
                file_lines content = before ++ line :: after ->
                strip line <> EmptyString ->
                json_loads line = Ok (JObj ((k, v) :: rest)) ->
                (forall l, l ∈ after -> ~ line_key l (KStr k)) ->
                pydict_get (KStr k) messages = Some v)).
Proof.
  split.
  - intros Hnone. unfold make_inferences_model, parse_messages_file.
    rewrite Hnone. reflexivity.
  - intros content Hfile. unfold parse_messages_file. rewrite Hfile.
    pose proof (parse_messages_fold_spec (file_lines content) ([], []))
      as (Hlog & Hnd & Hkeys).
    pose proof (fun before line after =>
                  parse_messages_fold_get after
                    (parse_messages_step
                       (fold_left parse_messages_step before ([], [])) line))
      as Hget.
    destruct (fold_left parse_messages_step (file_lines content) ([], []))
      as [messages logged] eqn:Efold.
    exists logged, messages. split; [reflexivity|]. simpl in *.
    split; [apply Hlog; constructor|]. split; [apply Hnd; constructor|].
    split.
    + intros k Hk. destruct (Hkeys k Hk) as [H|H]; [inversion H|exact H].
    + intros before line after k v rest Hlines Hs Hl Hafter.
      rewrite Hlines, fold_left_app in Efold. cbn [fold_left] in Efold.
      specialize (Hget before line after (KStr k) Hafter).
      rewrite Efold in Hget. simpl in Hget. rewrite Hget.
      assert (Htry : parse_messages_try line = Ok (KStr k, v)).
      { unfold parse_messages_try. rewrite Hl.
        cbn [mbind result_bind next_iter py_iter map fst first_key_item
             py_getitem dict_get key_of_json].
        rewrite String.eqb_refl. reflexivity. }
      destruct (parse_messages_step_spec
                  (fold_left parse_messages_step before ([], [])) line)
        as [(k' & message & _ & Hstep & Ht)|(msg & _ & _ & Hno)].
      * rewrite Htry in Ht. injection Ht as <- <-. rewrite Hstep. simpl.
        apply pydict_get_set_same.
      * exfalso. exact (Hno (KStr k) v Hs Htry).
Qed.

(** ** The production path *)

Lemma prompt_too_long_is_not_unsupported (total limit : Z) (n m : nat) :
  ValueError ("Prompt too long: " +:+ pretty total +:+ " tokens. Limit is "
              +:+ pretty limit +:+ ".")
  <> unsupported_combination n m.
Proof. unfold unsupported_combination. intros H. injection H as H. discriminate H. Qed.

Lemma build_chat_messages_shape (instruction_prompt : string)
    (data : conflict_data) (dp rp : string) (mtpc : Z) (model : string)
    (r : result (list message)) :
  build_chat_messages_with_disconnected instruction_prompt data dp rp mtpc model
  = r ->
  (forall n m, r <> Raise (unsupported_combination n m))
  /\ (forall messages, r = Ok messages ->
        messages = assemble_messages instruction_prompt data dp rp mtpc model).
Proof.
  unfold build_chat_messages_with_disconnected. intros <-.
  destruct (_ >? MAX_TOTAL_TOKENS); split.
  - intros n m H.
    apply (prompt_too_long_is_not_unsupported
             (estimate_total_tokens
                (assemble_messages instruction_prompt data dp rp mtpc model)
                model) MAX_TOTAL_TOKENS n m).
    exact (f_equal (fun r => match r with
                             | Raise e => e
                             | Ok _ => StopIteration
                             end) H).
  - discriminate.
  - discriminate.
  - intros messages [= <-]. reflexivity.
Qed.

(** X15.  [build_prompt] supports four combinations of partition sizes and
    raises [ValueError] for the others: no disconnected entry, one
    disconnected entry without a remaining one, and several disconnected
    entries with exactly one remaining entry.  When it returns, the messages
    are the instruction of the chosen template, the parts of the remaining
    entries, the parts of the disconnected entries and the closing
    directive: no evidence message, since it passes no [webpage_contents]
    on. *)
Theorem build_prompt_combinations (disconnected remaining : list entry) :
  let n_disconnected := length disconnected in
  let n_remaining := length remaining in
  (build_prompt disconnected remaining
   = Raise (unsupported_combination n_disconnected n_remaining)
   <-> (n_disconnected = 0 \/ (n_disconnected = 1 /\ n_remaining = 0)
        \/ (1 < n_disconnected /\ n_remaining = 1))%nat)
  /\ (forall messages,
        build_prompt disconnected remaining = Ok messages ->
        exists name instruction_prompt,
          disambiguation_template name = Ok instruction_prompt
          /\ ((name = "disconnected_entries"
               /\ ((n_disconnected = 1 /\ n_remaining = 1)
                   \/ (1 < n_disconnected /\ n_remaining = 0)))
              \/ (name = "one_disconnected_several_remaining"
                  /\ n_disconnected = 1 /\ 1 < n_remaining)
              \/ (name = "several_disconnected_several_remaining"
                  /\ 1 < n_disconnected /\ 1 < n_remaining))%nat
          /\ messages
             = [user_message instruction_prompt]
               ++ part_messages "Tools known to be the **same software**"
                    (chunk_entries 8000 "gpt-4" remaining)
               ++ part_messages "**Disconnected tools** to be analyzed"
                    (chunk_entries 8000 "gpt-4" disconnected)
               ++ [user_message final_instruction]).
Proof.
  intros n_disconnected n_remaining.
  assert (Hsupported : forall name,
    (instruction_prompt ← disambiguation_template name;
     build_chat_messages_with_disconnected instruction_prompt
       {| disconnected := disconnected; remaining := remaining;
          webpage_contents := None |}
       "**Disconnected tools** to be analyzed"
       "Tools known to be the **same software**" 8000 "gpt-4")
    <> Raise (unsupported_combination n_disconnected n_remaining)
    /\ forall messages,
         (instruction_prompt ← disambiguation_template name;
          build_chat_messages_with_disconnected instruction_prompt
            {| disconnected := disconnected; remaining := remaining;
               webpage_contents := None |}
            "**Disconnected tools** to be analyzed"
            "Tools known to be the **same software**" 8000 "gpt-4")
         = Ok messages ->
         exists instruction_prompt,
           disambiguation_template name = Ok instruction_prompt
           /\ messages
              = [user_message instruction_prompt]
                ++ part_messages "Tools known to be the **same software**"
                     (chunk_entries 8000 "gpt-4" remaining)
                ++ part_messages "**Disconnected tools** to be analyzed"
                     (chunk_entries 8000 "gpt-4" disconnected)
                ++ [user_message final_instruction]).
  { intros name. unfold disambiguation_template.
    destruct (dict_get name PROMPT_TEMPLATES_disambiguation) as [text|];
      cbn [mbind result_bind]; [|split; [discriminate|discriminate]].
    destruct (build_chat_messages_shape text
                {| disconnected := disconnected; remaining := remaining;
                   webpage_contents := None |}
                "**Disconnected tools** to be analyzed"
                "Tools known to be the **same software**" 8000 "gpt-4"
                _ eq_refl) as [Hno Hshape].
    split; [apply Hno|].
    intros messages Hm. exists text. split; [reflexivity|].
    rewrite (Hshape messages Hm), assemble_messages_order. reflexivity. }
  unfold build_prompt. fold n_disconnected n_remaining.
  destruct (Nat.eqb_spec n_disconnected 1) as [Ed1|Ed1];
    destruct (Nat.eqb_spec n_remaining 1) as [Er1|Er1];
    destruct (Nat.ltb_spec 1 n_disconnected) as [Ed|Ed];
    destruct (Nat.eqb_spec n_remaining 0) as [Er0|Er0];
    destruct (Nat.ltb_spec 1 n_remaining) as [Er|Er];
    cbn [andb];
    try (exfalso; lia);
    first
      [ (* a supported combination *)
        match goal with
        | |- context [disambiguation_template ?name] =>
            destruct (Hsupported name) as [Hno Hshape];
            split;
            [ split; [intros H; exfalso; exact (Hno H)
                     |intros H; exfalso; lia]
            | intros messages Hm;
              destruct (Hshape messages Hm) as (text & Ht & ->);
              exists name, text; split; [exact Ht|];
              split; [|reflexivity];
              first [ left; split; [reflexivity|lia]
                    | right; left; split; [reflexivity|lia]
                    | right; right; split; [reflexivity|lia] ] ]
        end
      | (* an unsupported combination *)
        cbn [mbind result_bind];
        split; [split; [intros _; lia|reflexivity]|discriminate] ].
Qed.

Lemma query_huggingface_no_oracle_free (messages : json) (model : string) :
  Forall (fun ev => is_query_event ev = false /\ is_write_event ev = false)
         (trace (query_huggingface messages model)).
Proof. unfold query_huggingface. io_trace. Qed.

(** X16.  [make_inference] never raises: whatever its client raises is
    logged and answered with [None].  It returns [None] without any request
    when the provider is neither [openrouter] nor [huggingface], when
    [query_openrouter] has used up its attempts, and when
    [query_huggingface] returns [None]; it returns a pair only if its client
    returned that pair. *)
Theorem make_inference_never_raises (messages : json)
    (model provider : string) :
  (exists answer,
      outcome (make_inference messages model provider) = Ok answer)
  /\ (provider <> "openrouter" -> provider <> "huggingface" ->
      make_inference messages model provider
      = IO [EvLog (LogError "Error resolving conflict")] (Ok None))
  /\ (forall e, outcome (query_openrouter messages model) = Raise e ->
        outcome (make_inference messages model "openrouter") = Ok None)
  /\ (outcome (query_huggingface messages model) = Ok None ->
      outcome (make_inference messages model "huggingface") = Ok None)
  /\ (forall answer meta,
        outcome (make_inference messages model provider)
        = Ok (Some (answer, meta)) ->
        (provider = "openrouter"
         /\ outcome (query_openrouter messages model) = Ok (answer, meta))
        \/ (provider = "huggingface"
            /\ outcome (query_huggingface messages model)
               = Ok (Some (answer, meta)))).
Proof.
  split; [|split; [|split; [|split]]].
  - unfold make_inference.
    match goal with
    | |- context [match outcome ?a with _ => _ end] =>
        destruct (outcome a) eqn:E
    end; [rewrite E|]; eauto.
  - intros Ho Hh. apply String.eqb_neq in Ho, Hh.
    unfold make_inference. rewrite Ho, Hh. reflexivity.
  - intros e He. unfold make_inference. cbn [String.eqb Ascii.eqb Bool.eqb].
    rewrite (io_bind_raise _ _ e He). reflexivity.
  - intros Hn. unfold make_inference. cbn [String.eqb Ascii.eqb Bool.eqb].
    rewrite (io_bind_ok _ _ None Hn). reflexivity.
  - intros answer meta. unfold make_inference.
    destruct (String.eqb provider "openrouter") eqn:Eo.
    + apply String.eqb_eq in Eo. subst provider.
      destruct (outcome (query_openrouter messages model)) as [a|e] eqn:E.
      * rewrite (io_bind_ok _ _ a E). cbn [outcome].
        intros [= ->]. left. auto.
      * rewrite (io_bind_raise _ _ e E). cbn [outcome]. discriminate.
    + destruct (String.eqb provider "huggingface") eqn:Eh.
      * apply String.eqb_eq in Eh. subst provider.
        destruct (outcome (query_huggingface messages model)) as [[a|]|e] eqn:E.
        -- rewrite (io_bind_ok _ _ (Some a) E). cbn [outcome].
           intros [= ->]. right. auto.
        -- rewrite (io_bind_ok _ _ None E). cbn [outcome]. discriminate.
        -- rewrite (io_bind_raise _ _ e E). cbn [outcome]. discriminate.
      * cbn [outcome lift]. discriminate.
Qed.

Lemma io_fold_Forall {A B : Type} (P : event -> Prop) (f : B -> A -> io B)
    (xs : list A) (acc : B) :
  (forall b x, Forall P (trace (f b x))) ->
  Forall P (trace (io_fold f xs acc)).
Proof.
  intros Hf. revert acc. induction xs as [|x xs IH]; intros acc; simpl;
    [constructor|].
  apply io_bind_Forall; [apply Hf|intros b; apply IH].
Qed.

Lemma disambiguate_step_ok {V : Type} (disconnected_entries : dict V)
    (grouped_entries : dict json) (solved : gset pykey)
    (acc acc' : dict json) (key : string) :
  outcome (disambiguate_step disconnected_entries grouped_entries solved acc
                             key) = Ok acc' ->
  (dict_get key disconnected_entries <> None /\ KStr key ∈ solved
   /\ acc' = acc)
  \/ (dict_get key disconnected_entries = None
      /\ exists instances,
           acc' = dict_set key (JObj [("instances", instances)]) acc).
Proof.
  unfold disambiguate_step.
  destruct (dict_get key disconnected_entries) as [conflict|].
  - destruct (decide (KStr key ∈ solved)) as [Hin|Hnin].
    + intros [= <-]. left. split; [discriminate|]. auto.
    + discriminate.
  - unfold mbind, io_bind, lift. cbn [outcome trace].
    destruct (dict_get key grouped_entries) as [group|]; cbn [outcome trace];
      [|discriminate].
    destruct (py_getitem group "instances") as [instances|];
      cbn [outcome trace]; [|discriminate].
    intros [= <-]. right. split; [reflexivity|]. eauto.
Qed.

Lemma disambiguate_fold_ok {V : Type} (disconnected_entries : dict V)
    (grouped_entries : dict json) (solved : gset pykey) (keys : list string)
    (acc acc' : dict json) :
  outcome (io_fold (disambiguate_step disconnected_entries grouped_entries
                                      solved) keys acc) = Ok acc' ->
  (forall k, k ∈ keys -> dict_get k disconnected_entries <> None ->
             KStr k ∈ solved)
  /\ (forall k, k ∈ dict_keys acc' ->
        k ∈ dict_keys acc
        \/ (k ∈ keys /\ dict_get k disconnected_entries = None)).
Proof.
  revert acc. induction keys as [|key keys IH]; intros acc; simpl.
  - intros [= <-]. split; [intros k Hk; inversion Hk|auto].
  - destruct (outcome (disambiguate_step disconnected_entries grouped_entries
                         solved acc key)) as [acc1|e] eqn:E.
    2: { rewrite (io_bind_raise _ _ e E). discriminate. }
    rewrite (io_bind_ok _ _ acc1 E). cbn [outcome]. intros Hrest.
    destruct (IH acc1 Hrest) as [Hsolved Hkeys].
    apply disambiguate_step_ok in E.
    split.
    + intros k Hk Hd. apply elem_of_cons in Hk as [->|Hk]; [|auto].
      destruct E as [(_ & Hs & _)|(Hn & _)]; [exact Hs|contradiction].
    + intros k Hk. destruct (Hkeys k Hk) as [H|[H1 H2]].
      * destruct E as [(_ & _ & ->)|(Hn & instances & ->)]; [auto|].
        apply list_elem_of_In, dict_set_keys_In in H as [->|H].
        -- right. split; [by left|exact Hn].
        -- left. by apply list_elem_of_In.
      * right. split; [by right|exact H2].
Qed.

(** X17.  [disambiguate_disconnected_entries] calls [build_full_conflict]
    without awaiting it, so it cannot process a conflict: it makes no
    [enrich_link] call, no oracle call and no write, and it returns only if
    every disconnected group among the grouped entries is already a key of
    the results file; then [results] is empty and [disambiguated_grouped]
    holds only groups that are not disconnected.  A disconnected group that
    is not yet solved makes it raise. *)
Theorem production_loop_resolves_nothing {V : Type}
    (disconnected_entries : dict V) (instances_dict : pydict json)
    (grouped_entries : dict json) (results_file : string)
    (logged : list event) (solved : gset pykey) :
  let run :=
    disambiguate_disconnected_entries disconnected_entries instances_dict
                                      grouped_entries results_file in
  load_solved_conflict_keys results_file = IO logged (Ok solved) ->
  Forall (fun ev => exists line, ev = EvLog line) (trace run)
  /\ (forall disambiguated_grouped results,
        outcome run = Ok (disambiguated_grouped, results) ->
        results = []
        /\ (forall k, k ∈ dict_keys grouped_entries ->
              dict_get k disconnected_entries <> None -> KStr k ∈ solved)
        /\ (forall k, k ∈ dict_keys disambiguated_grouped ->
              k ∈ dict_keys grouped_entries
              /\ dict_get k disconnected_entries = None))
  /\ ((exists k, k ∈ dict_keys grouped_entries
                 /\ dict_get k disconnected_entries <> None
                 /\ KStr k ∉ solved) ->
      exists e, outcome run = Raise e).
Proof.
  intros run Hload.
  assert (Hlog : Forall (fun ev => exists line, ev = EvLog line) logged).
  { destruct (load_solved_conflict_keys_spec results_file)
      as (logged' & keys' & Hl & Hwarn & _).
    rewrite Hload in Hl. injection Hl as -> _.
    eapply Forall_impl; [exact Hwarn|]. intros ev [msg ->]. eauto. }
  assert (Hok : forall disambiguated_grouped results,
            outcome run = Ok (disambiguated_grouped, results) ->
            results = []
            /\ (forall k, k ∈ dict_keys grouped_entries ->
                  dict_get k disconnected_entries <> None -> KStr k ∈ solved)
            /\ (forall k, k ∈ dict_keys disambiguated_grouped ->
                  k ∈ dict_keys grouped_entries
                  /\ dict_get k disconnected_entries = None)).
  { intros dg results. subst run. unfold disambiguate_disconnected_entries.
    rewrite Hload. unfold mbind at 1. unfold io_bind at 1.
    cbn [outcome trace].
    destruct (outcome (io_fold (disambiguate_step disconnected_entries
                                  grouped_entries solved)
                               (dict_keys grouped_entries) [])) as [acc|e] eqn:E.
    - rewrite (io_bind_ok _ _ acc E). cbn [outcome]. intros [= <- <-].
      destruct (disambiguate_fold_ok _ _ _ _ _ _ E) as [Hs Hk].
      split; [reflexivity|]. split; [exact Hs|].
      intros k Hin. destruct (Hk k Hin) as [H|H]; [inversion H|exact H].
    - rewrite (io_bind_raise _ _ e E). discriminate. }
  split; [|split; [exact Hok|]].
  - subst run. unfold disambiguate_disconnected_entries. rewrite Hload.
    apply io_bind_Forall; [exact Hlog|]. intros keys.
    apply io_bind_Forall; [|intros; constructor].
    apply io_fold_Forall. intros acc key. unfold disambiguate_step.
    destruct (dict_get key disconnected_entries).
    + destruct (decide (KStr key ∈ keys)); [constructor|].
      apply io_bind_Forall; [repeat constructor; eauto|intros; constructor].
    + apply io_bind_Forall; [constructor|]. intros group.
      apply io_bind_Forall; [constructor|]. intros instances. constructor.
  - intros (k & Hk & Hd & Hns).
    destruct (outcome run) as [[dg results]|e] eqn:E; [|eauto].
    exfalso. destruct (Hok dg results eq_refl) as (_ & Hs & _).
    exact (Hns (Hs k Hk Hd)).
Qed.

(** ** The instances of the grouped entries *)

Definition filed_under_id (kv : pykey * json) : Prop :=
  (py_getitem kv.2 "_id" ≫= key_of_json) = Ok kv.1.

Lemma pydict_set_Forall {V : Type} (P : pykey * V -> Prop) (k : pykey) (v : V)
    (d : pydict V) :
  Forall P d -> P (k, v) -> Forall P (pydict_set k v d).
Proof.
  intros Hd Hkv. induction Hd as [|[k0 v0] d H0 Hd IH]; simpl.
  - repeat constructor. exact Hkv.
  - destruct (decide (k = k0)).
    + constructor; [exact Hkv|exact Hd].
    + constructor; [exact H0|exact IH].
Qed.

Lemma pydict_get_in {V : Type} (k : pykey) (d : pydict V) :
  k ∈ map fst d -> exists v, pydict_get k d = Some v.
Proof.
  induction d as [|[k0 v0] d IH]; simpl; intros H; [inversion H|].
  destruct (decide (k = k0)); [eauto|].
  apply elem_of_cons in H as [H|H]; [contradiction|auto].
Qed.

Lemma file_instance_spec (d d' : pydict json) (instance : json) :
  file_instance d instance = Ok d' ->
  exists k, (py_getitem instance "_id" ≫= key_of_json) = Ok k
            /\ d' = pydict_set k instance d.
Proof.
  unfold file_instance, mbind, result_bind.
  destruct (py_getitem instance "_id") as [id|]; [|discriminate].
  destruct (key_of_json id) as [k|]; [|discriminate].
  intros [= <-]. eauto.
Qed.

Lemma file_instances_spec (items : list json) (d d' : pydict json) :
  fold_result file_instance items d = Ok d' ->
  NoDup (map fst d) -> Forall filed_under_id d ->
  NoDup (map fst d') /\ Forall filed_under_id d'
  /\ (forall k, k ∈ map fst d -> k ∈ map fst d')
  /\ (forall instance, instance ∈ items ->
        exists k, (py_getitem instance "_id" ≫= key_of_json) = Ok k
                  /\ k ∈ map fst d').
Proof.
  revert d. induction items as [|x items IH]; intros d; simpl.
  - intros [= <-] Hnd Hall. split; [exact Hnd|]. split; [exact Hall|].
    split; [auto|]. intros instance H. inversion H.
  - destruct (file_instance d x) as [d1|] eqn:E; [|discriminate].
    intros Hrest Hnd Hall.
    apply file_instance_spec in E as (k & Hk & ->).
    destruct (IH _ Hrest) as (Hnd' & Hall' & Hmono & Hitems).
    { apply pydict_set_keys_NoDup, Hnd. }
    { apply pydict_set_Forall; [exact Hall|exact Hk]. }
    split; [exact Hnd'|]. split; [exact Hall'|]. split.
    + intros k' Hk'. apply Hmono, pydict_set_keys_in. auto.
    + intros instance Hin. apply elem_of_cons in Hin as [->|Hin]; [|auto].
      exists k. split; [exact Hk|]. apply Hmono, pydict_set_keys_in. auto.
Qed.

Lemma file_groups_spec (groups : list (string * json)) (d d' : pydict json) :
  fold_result file_group groups d = Ok d' ->
  NoDup (map fst d) -> Forall filed_under_id d ->
  NoDup (map fst d') /\ Forall filed_under_id d'
  /\ (forall k, k ∈ map fst d -> k ∈ map fst d')
  /\ (forall group instances instance,
        group ∈ groups ->
        (py_get group.2 "instances" (JArr []) ≫= py_iter) = Ok instances ->
        instance ∈ instances ->
        exists k, (py_getitem instance "_id" ≫= key_of_json) = Ok k
                  /\ k ∈ map fst d').
Proof.
  revert d. induction groups as [|g groups IH]; intros d; simpl.
  - intros [= <-] Hnd Hall. split; [exact Hnd|]. split; [exact Hall|].
    split; [auto|]. intros group instances instance H. inversion H.
  - destruct (file_group d g) as [d1|] eqn:E; [|discriminate].
    intros Hrest Hnd Hall.
    unfold file_group, mbind, result_bind in E.
    destruct (py_get g.2 "instances" (JArr [])) as [instances|] eqn:Ei;
      [|discriminate].
    destruct (py_iter instances) as [items|] eqn:Eit; [|discriminate].
    destruct (file_instances_spec _ _ _ E Hnd Hall)
      as (Hnd1 & Hall1 & Hmono1 & Hitems1).
    destruct (IH _ Hrest Hnd1 Hall1) as (Hnd' & Hall' & Hmono & Hgroups).
    split; [exact Hnd'|]. split; [exact Hall'|]. split; [auto|].
    intros group insts instance Hg Hi Hin.
    apply elem_of_cons in Hg as [->|Hg].
    + unfold mbind, result_bind in Hi. rewrite Ei, Eit in Hi.
      injection Hi as <-.
      destruct (Hitems1 instance Hin) as (k & Hk & Hkin).
      exists k. split; [exact Hk|apply Hmono, Hkin].
    + eapply Hgroups; eassumption.
Qed.

(** X18.  When [build_instances_keys_dict] returns, every instance of every
    group of the grouped entries is found under its own [_id]: the keys are
    pairwise different, every stored instance has the key it is stored
    under as its [_id], and the [_id] of every instance of the input is a
    key (of that instance, or of a later one with the same [_id]). *)
Theorem instances_are_filed_under_their_id (data : json)
    (instances_keys : pydict json) :
  build_instances_keys_dict data = Ok instances_keys ->
  NoDup (map fst instances_keys)
  /\ Forall (fun kv => (py_getitem kv.2 "_id" ≫= key_of_json) = Ok kv.1)
            instances_keys
  /\ (forall groups key value instances instance,
        py_items data = Ok groups -> (key, value) ∈ groups ->
        (py_get value "instances" (JArr []) ≫= py_iter) = Ok instances ->
        instance ∈ instances ->
        exists k stored,
          (py_getitem instance "_id" ≫= key_of_json) = Ok k
          /\ pydict_get k instances_keys = Some stored
          /\ (py_getitem stored "_id" ≫= key_of_json) = Ok k).
Proof.
  unfold build_instances_keys_dict. unfold mbind at 1, result_bind at 1.
  destruct (py_items data) as [groups|] eqn:Eg; [|discriminate].
  intros Hfold.
  destruct (file_groups_spec groups [] instances_keys Hfold)
    as (Hnd & Hall & _ & Hgroups); [constructor|constructor|].
  split; [exact Hnd|]. split; [exact Hall|].
  intros groups' key value instances instance [= <-] Hin Hi Hinst.
  destruct (Hgroups (key, value) instances instance Hin Hi Hinst)
    as (k & Hk & Hkin).
  destruct (pydict_get_in k instances_keys Hkin) as [stored Hs].
  exists k, stored. split; [exact Hk|]. split; [exact Hs|].
  clear - Hall Hs. induction Hall as [|[k0 v0] d H0 _ IH]; [discriminate|].
  simpl in Hs. destruct (decide (k = k0)) as [->|].
  - injection Hs as <-. exact H0.
  - apply IH, Hs.
Qed.

(** ** Resuming a run *)

(** The results file after the ledger lines of [entries] were appended, one
    [open(path, "a")] each. *)
Definition append_lines (before : option string)
    (entries : list (string * json)) : option string :=
  fold_left (fun content kv =>
               Some (default EmptyString content +:+ ledger_line kv.1 kv.2))
            entries before.

Lemma ledger_text_app (a b : list (string * json)) :
  ledger_text (a ++ b) = ledger_text a +:+ ledger_text b.
Proof.
  induction a as [|[k v] a IH]; [reflexivity|].
  cbn [app ledger_text fold_right fst snd] in *.
  unfold ledger_text in IH. rewrite IH, append_assoc. reflexivity.
Qed.

Lemma ledger_text_snoc (a : list (string * json)) (k : string) (v : json) :
  ledger_text (a ++ [(k, v)]) = ledger_text a +:+ ledger_line k v.
Proof.
  rewrite ledger_text_app. f_equal. unfold ledger_text.
  cbn [fold_right fst snd]. apply append_nil_r.
Qed.

Lemma append_lines_text (old new : list (string * json)) :
  append_lines (Some (ledger_text old)) new = Some (ledger_text (old ++ new)).
Proof.
  revert old. induction new as [|[k v] new IH]; intros old.
  - rewrite app_nil_r. reflexivity.
  - unfold append_lines in *. cbn [fold_left fst snd default from_option id].
    rewrite <- ledger_text_snoc, IH, <- app_assoc. reflexivity.
Qed.

Lemma append_lines_new (new : list (string * json)) :
  new <> [] -> append_lines None new = Some (ledger_text new).
Proof.
  destruct new as [|[k v] new]; [congruence|]. intros _.
  unfold append_lines. cbn [fold_left fst snd default from_option id].
  change (EmptyString +:+ ledger_line k v) with (ledger_line k v).
  rewrite <- (append_nil_r (ledger_line k v)) at 1.
  change (ledger_line k v +:+ EmptyString) with (ledger_text [(k, v)]).
  apply (append_lines_text [(k, v)] new).
Qed.

Lemma append_lines_app (before : option string)
    (a b : list (string * json)) :
  append_lines before (a ++ b) = append_lines (append_lines before a) b.
Proof. apply fold_left_app. Qed.

Lemma file_after_app (path : string) (before : option string)
    (t1 t2 : list event) :
  file_after path before (t1 ++ t2)
  = file_after path (file_after path before t1) t2.
Proof. apply fold_left_app. Qed.

Lemma file_after_no_write (path : string) (before : option string)
    (tr : list event) :
  Forall (fun ev => is_write_event ev = false) tr ->
  file_after path before tr = before.
Proof.
  intros Hall. induction Hall as [|ev tr Hev _ IH]; [reflexivity|].
  destruct ev; try discriminate; exact IH.
Qed.

(** A path below a directory is not a path that does not start with the
    directory. *)
Lemma path_below_differs (dir path rest : string) :
  strip_prefix (dir +:+ "/") path = None ->
  String.eqb (dir +:+ String "/" rest) path = false.
Proof.
  revert path. induction dir as [|c dir IH]; intros path Hp.
  - destruct path as [|b path]; [reflexivity|].
    change (strip_prefix (String "/" EmptyString) (String b path) = None) in Hp.
    change (String.eqb (String "/" rest) (String b path) = false).
    cbn [strip_prefix] in Hp. cbn [String.eqb].
    destruct (Ascii.eqb "/" b); [discriminate|reflexivity].
  - destruct path as [|b path]; [reflexivity|].
    change (strip_prefix (String c (dir +:+ "/")) (String b path) = None) in Hp.
    change (String.eqb (String c (dir +:+ String "/" rest)) (String b path) = false).
    cbn [strip_prefix] in Hp. cbn [String.eqb].
    destruct (Ascii.eqb c b); [apply IH; exact Hp|reflexivity].
Qed.

(** A [try] block that ends well has appended one line to the results
    file, the line of its key, and nothing else to that file. *)
Lemma make_inferences_try_ledger
    (model results_file_path raw_results_path provider : string)
    (key : pykey) (messages : json) :
  outcome (make_inferences_try model results_file_path raw_results_path
             provider key messages) = Ok tt ->
  strip_prefix (raw_results_path +:+ "/") results_file_path = None ->
  exists k v,
    key = KStr k
    /\ forall before,
         file_after results_file_path before
           (trace (make_inferences_try model results_file_path
                     raw_results_path provider key messages))
         = Some (default EmptyString before +:+ ledger_line k v).
Proof.
  intros Hok Hbelow. unfold make_inferences_try in *.
  assert (Hclient : exists asked oc,
    (if String.eqb provider "openrouter" then
       _ ← emit (EvQuery "query_openrouter" key messages);
       query_openrouter messages model
     else
       _ ← emit (EvQuery "query_huggingface_new" key messages);
       query_huggingface_new messages model provider)
    = IO asked oc
    /\ Forall (fun ev => is_write_event ev = false) asked).
  { destruct (String.eqb provider "openrouter").
    - eexists _, _. split; [reflexivity|].
      constructor; [reflexivity|apply query_openrouter_no_write].
    - eexists _, _. split; [reflexivity|].
      constructor; [reflexivity|apply query_huggingface_new_no_write]. }
  destruct Hclient as (asked & oc & Hclient & Hasked).
  rewrite Hclient in *. clear Hclient.
  destruct oc as [[answer meta]|e]; [|discriminate].
  destruct key as [| |k]; try discriminate.
  pose proof (parse_result_no_write answer) as Hlogged.
  pose proof (path_below_differs raw_results_path results_file_path
                ("raw_results_"
                 +:+ replace_char "/" "_" (replace_char " " "_" k)
                 +:+ ".json") Hbelow) as Hraw.
  pose proof (path_below_differs raw_results_path results_file_path
                ("meta_"
                 +:+ replace_char "/" "_" (replace_char " " "_" k)
                 +:+ ".json") Hbelow) as Hmeta.
  revert Hok.
  unfold save_raw_results, save_inference_stats, save_result, dump_line,
    log_info.
  unfold mbind, io_bind, lift, emit.
  cbn [outcome trace key_text].
  destruct (open_error (raw_results_path +:+ "/raw_results_"
                        +:+ replace_char "/" "_" (replace_char " " "_" k)
                        +:+ ".json")); cbn [outcome trace];
    [discriminate|].
  destruct (py_setitem meta "total_time" (JNum (elapsed_seconds messages)))
    as [m1|]; cbn [outcome trace]; [|discriminate].
  destruct (py_setitem m1 "key" (JStr k)) as [m2|]; cbn [outcome trace];
    [|discriminate].
  destruct (open_error (raw_results_path +:+ "/meta_"
                        +:+ replace_char "/" "_" (replace_char " " "_" k)
                        +:+ ".json")); cbn [outcome trace];
    [discriminate|].
  destruct (parse_result answer) as [logged [parsed|]]; cbn [outcome trace];
    [|discriminate].
  cbn [trace] in Hlogged.
  destruct (open_error results_file_path); cbn [outcome trace];
    [discriminate|].
  intros _. exists k, parsed. split; [reflexivity|]. intros before.
  rewrite !file_after_app, (file_after_no_write _ _ asked Hasked).
  cbn [app].
  change ("/raw_results_"
          +:+ replace_char "/" "_" (replace_char " " "_" k) +:+ ".json")
    with (String "/" ("raw_results_"
          +:+ replace_char "/" "_" (replace_char " " "_" k) +:+ ".json")).
  change ("/meta_"
          +:+ replace_char "/" "_" (replace_char " " "_" k) +:+ ".json")
    with (String "/" ("meta_"
          +:+ replace_char "/" "_" (replace_char " " "_" k) +:+ ".json")).
  pose proof (fun content =>
                file_after_no_write results_file_path content logged Hlogged)
    as Hkeep.
  unfold file_after in *. cbn [fold_left].
  rewrite Hraw, Hmeta, Hkeep, String.eqb_refl. reflexivity.
Qed.

(** An iteration that ends well either skipped a solved key and left the
    results file alone, or appended the line of its key. *)
Lemma make_inferences_body_ledger (solved : gset pykey)
    (model results_file_path raw_results_path provider : string)
    (key : pykey) (messages : json) :
  outcome (make_inferences_body solved model results_file_path
             raw_results_path provider (key, messages)) = Ok tt ->
  strip_prefix (raw_results_path +:+ "/") results_file_path = None ->
  exists new,
    (forall before,
       file_after results_file_path before
         (trace (make_inferences_body solved model results_file_path
                   raw_results_path provider (key, messages)))
       = append_lines before new)
    /\ (key ∈ solved \/ exists k v, key = KStr k /\ (k, v) ∈ new)
    /\ (forall k v, (k, v) ∈ new -> key = KStr k).
Proof.
  intros Hok Hbelow. unfold make_inferences_body in *.
  destruct (decide (key ∈ solved)) as [Hin|Hns].
  - exists []. split; [reflexivity|]. split; [by left|].
    intros k v H. inversion H.
  - assert (Hsleep : exists tr,
      (if String.eqb provider "openrouter"
       then emit (EvSleep DELAY_BETWEEN_REQUESTS) else mret tt)
      = IO tr (Ok tt) /\ Forall (fun ev => is_write_event ev = false) tr).
    { destruct (String.eqb provider "openrouter"); eexists; split;
        try reflexivity; repeat constructor. }
    destruct Hsleep as (tr & Hsleep & Htr). rewrite Hsleep in *.
    clear Hsleep. revert Hok.
    unfold mbind, io_bind, log_info, emit. cbn [outcome trace].
    destruct (outcome (make_inferences_try model results_file_path
                         raw_results_path provider key messages))
      as [[]|e] eqn:Etry; cbn [outcome trace]; [|discriminate].
    intros _.
    destruct (make_inferences_try_ledger _ _ _ _ _ _ Etry Hbelow)
      as (k & v & -> & Hfile).
    exists [(k, v)]. split; [|split].
    + intros before. rewrite !file_after_app.
      rewrite (file_after_no_write _ _ tr Htr).
      rewrite (file_after_no_write _ _ [_]) by (repeat constructor).
      rewrite Hfile. reflexivity.
    + right. exists k, v. split; [reflexivity|by left].
    + intros k' v' Hin. apply list_elem_of_singleton in Hin.
      congruence.
Qed.

Lemma make_inferences_loop_ledger (solved : gset pykey)
    (model results_file_path raw_results_path provider : string)
    (messages_dict : list (pykey * json)) :
  outcome (io_for messages_dict
             (make_inferences_body solved model results_file_path
                                   raw_results_path provider)) = Ok tt ->
  strip_prefix (raw_results_path +:+ "/") results_file_path = None ->
  exists new,
    (forall before,
       file_after results_file_path before
         (trace (io_for messages_dict
                   (make_inferences_body solved model results_file_path
                                         raw_results_path provider)))
       = append_lines before new)
    /\ (forall key, key ∈ map fst messages_dict ->
          key ∈ solved \/ exists k v, key = KStr k /\ (k, v) ∈ new)
    /\ (forall k v, (k, v) ∈ new -> KStr k ∈ map fst messages_dict).
Proof.
  intros Hok Hbelow.
  induction messages_dict as [|[key messages] rest IH].
  - exists []. split; [reflexivity|]. split.
    + intros key H. inversion H.
    + intros k v H. inversion H.
  - cbn [io_for] in *. revert Hok.
    set (rest_loop := io_for rest _) in *.
    unfold mbind, io_bind.
    destruct (outcome (make_inferences_body solved model results_file_path
                         raw_results_path provider (key, messages)))
      as [[]|e] eqn:Ebody; cbn [outcome trace]; [|discriminate].
    intros Hok.
    destruct (make_inferences_body_ledger _ _ _ _ _ _ _ Ebody Hbelow)
      as (new1 & Hfile1 & Hkey1 & Hnew1).
    destruct (IH Hok) as (new2 & Hfile2 & Hkey2 & Hnew2).
    exists (new1 ++ new2). split; [|split].
    + intros before.
      rewrite file_after_app, Hfile1, Hfile2, append_lines_app. reflexivity.
    + intros key' Hin. cbn [map fst] in Hin.
      apply elem_of_cons in Hin as [->|Hin].
      * destruct Hkey1 as [H|(k & v & -> & H)]; [by left|].
        right. exists k, v. split; [reflexivity|].
        apply elem_of_app. by left.
      * destruct (Hkey2 key' Hin) as [H|(k & v & -> & H)]; [by left|].
        right. exists k, v. split; [reflexivity|].
        apply elem_of_app. by right.
    + intros k v Hin. cbn [map fst].
      apply elem_of_app in Hin as [Hin|Hin].
      * rewrite <- (Hnew1 k v Hin). by left.
      * right. exact (Hnew2 k v Hin).
Qed.

(** What a run of [make_inferences] that ends well leaves in the results
    file: the lines of the keys it asked, after what was there. *)
Lemma make_inferences_ledger (messages_dict : list (pykey * json))
    (model results_file_path raw_results_path provider : string)
    (logged : list event) (solved : gset pykey) :
  load_solved_conflict_keys results_file_path = IO logged (Ok solved) ->
  Forall (fun ev => exists msg, ev = EvLog (LogWarning msg)) logged ->
  outcome (make_inferences messages_dict model results_file_path
             raw_results_path provider) = Ok tt ->
  strip_prefix (raw_results_path +:+ "/") results_file_path = None ->
  exists new,
    (forall before,
       file_after results_file_path before
         (trace (make_inferences messages_dict model results_file_path
                   raw_results_path provider))
       = append_lines before new)
    /\ (forall key, key ∈ map fst messages_dict ->
          key ∈ solved \/ exists k v, key = KStr k /\ (k, v) ∈ new)
    /\ (forall k v, (k, v) ∈ new -> KStr k ∈ map fst messages_dict).
Proof.
  intros Hload Hlog Hok Hbelow. unfold make_inferences in *.
  rewrite Hload in *. revert Hok.
  unfold mbind, io_bind, log_info, emit. cbn [outcome trace].
  destruct (outcome (io_for messages_dict
                       (make_inferences_body solved model results_file_path
                          raw_results_path provider)))
    as [[]|e] eqn:Eloop; cbn [outcome trace]; [|discriminate].
  intros _.
  destruct (make_inferences_loop_ledger _ _ _ _ _ _ Eloop Hbelow)
    as (new & Hfile & Hkeys & Hnew).
  exists new. split; [|split; assumption].
  intros before. cbn [app]. unfold file_after at 1. cbn [fold_left].
  fold (file_after results_file_path before
          (logged ++ trace (io_for messages_dict
             (make_inferences_body solved model results_file_path
                raw_results_path provider))
           ++ [EvLog (LogInfo "All inferences completed.")])).
  rewrite !file_after_app.
  rewrite (file_after_no_write _ _ logged).
  2:{ eapply Forall_impl; [exact Hlog|]. intros ev [msg ->]. reflexivity. }
  rewrite Hfile. reflexivity.
Qed.

(** With every key solved, [make_inferences] asks nothing, posts nothing,
    writes nothing and ends well. *)
Lemma make_inferences_all_solved (messages_dict : list (pykey * json))
    (model results_file_path raw_results_path provider : string)
    (logged : list event) (solved : gset pykey) :
  load_solved_conflict_keys results_file_path = IO logged (Ok solved) ->
  Forall (fun ev => exists msg, ev = EvLog (LogWarning msg)) logged ->
  (forall key, key ∈ map fst messages_dict -> key ∈ solved) ->
  outcome (make_inferences messages_dict model results_file_path
             raw_results_path provider) = Ok tt
  /\ Forall (fun ev => exists l, ev = EvLog l)
            (trace (make_inferences messages_dict model results_file_path
                      raw_results_path provider)).
Proof.
  intros Hload Hlog Hall. unfold make_inferences. rewrite Hload.
  assert (Hloop : exists tr,
    io_for messages_dict
      (make_inferences_body solved model results_file_path raw_results_path
                            provider) = IO tr (Ok tt)
    /\ Forall (fun ev => exists l, ev = EvLog l) tr).
  { induction messages_dict as [|[key messages] rest IH].
    - exists []. split; [reflexivity|constructor].
    - destruct IH as (tr & IH & Htr).
      { intros key' Hin. apply Hall. cbn [map fst]. by right. }
      cbn [io_for]. rewrite IH. unfold make_inferences_body.
      destruct (decide (key ∈ solved)) as [_|Hns].
      2:{ exfalso. apply Hns, Hall. cbn [map fst]. by left. }
      unfold mbind, io_bind, log_info, emit. cbn [outcome trace].
      eexists. split; [reflexivity|].
      constructor; [eauto|exact Htr]. }
  destruct Hloop as (tr & Hloop & Htr).
  unfold mbind, io_bind, log_info, emit. cbn [outcome trace].
  rewrite !Hloop. cbn [outcome trace].
  split; [reflexivity|].
  constructor; [eauto|]. apply Forall_app. split.
  - eapply Forall_impl; [exact Hlog|]. intros ev [msg ->]. eauto.
  - apply Forall_app. split; [exact Htr|]. repeat constructor. eauto.
Qed.

End Program.

(** * Properties of the text and registry helpers *)

(** ** Line breaks *)

(** The text left when the leading characters of a class are dropped, and
    the number of leading line breaks. *)
Fixpoint drop_class (p : ascii -> bool) (s : string) : string :=
  match s with
  | EmptyString => EmptyString
  | String c s' => if p c then drop_class p s' else s
  end.

Fixpoint leading_LF (s : string) : nat :=
  match s with
  | EmptyString => 0
  | String c s' => if is_LF c then S (leading_LF s') else 0
  end.

Lemma star_greedy_total {R : Type} (p : ascii -> bool) (s : string)
    (f : string -> R) :
  star_greedy p s (fun s' => Some (f s')) = Some (f (drop_class p s)).
Proof.
  induction s as [|c s IH]; simpl; [reflexivity|].
  destruct (p c); [rewrite IH|]; reflexivity.
Qed.

Lemma match_rest_newlines (s : string) :
  match_rest NEWLINES_RE s
  = match strip_prefix (nl +:+ nl +:+ nl) s with
    | Some s' => Some (drop_class is_LF s')
    | None => None
    end.
Proof.
  unfold match_rest, NEWLINES_RE. cbn [rmatch].
  destruct (strip_prefix (nl +:+ nl +:+ nl) s) as [s'|]; [|reflexivity].
  rewrite (star_greedy_total is_LF s' (fun s'' => [s''])). reflexivity.
Qed.

Lemma drop_class_length (p : ascii -> bool) (s : string) :
  (String.length (drop_class p s) <= String.length s)%nat.
Proof.
  induction s as [|c s IH]; simpl; [lia|]. destruct (p c); simpl; lia.
Qed.

Lemma drop_class_leading (s : string) : leading_LF (drop_class is_LF s) = 0%nat.
Proof.
  induction s as [|c s IH]; simpl; [reflexivity|].
  destruct (is_LF c) eqn:E; [exact IH|]. simpl. rewrite E. reflexivity.
Qed.

Lemma is_LF_sym (c : ascii) : Ascii.eqb LF c = is_LF c.
Proof. unfold is_LF. apply Ascii.eqb_sym. Qed.

(** Three line breaks start a text exactly when it has at least three
    leading line breaks. *)
Lemma strip_prefix_newlines (s : string) :
  match strip_prefix (nl +:+ nl +:+ nl) s with
  | Some s' =>
      (3 <= leading_LF s)%nat
      /\ String.length s = (3 + String.length s')%nat
  | None => (leading_LF s < 3)%nat
  end.
Proof.
  change (nl +:+ nl +:+ nl) with (String LF (String LF (String LF EmptyString))).
  destruct s as [|c1 s]; cbn [strip_prefix leading_LF String.length];
    [lia|].
  rewrite (is_LF_sym c1). destruct (is_LF c1); [|lia].
  destruct s as [|c2 s]; cbn [strip_prefix leading_LF String.length];
    [lia|].
  rewrite (is_LF_sym c2). destruct (is_LF c2); [|lia].
  destruct s as [|c3 s]; cbn [strip_prefix leading_LF String.length];
    [lia|].
  rewrite (is_LF_sym c3). destruct (is_LF c3); [|lia]. split; lia.
Qed.

Lemma contains_newlines_cons (c : ascii) (s : string) :
  contains (nl +:+ nl +:+ nl) (String c s)
  = if (3 <=? leading_LF (String c s))%nat then true
    else contains (nl +:+ nl +:+ nl) s.
Proof.
  cbn [contains].
  pose proof (strip_prefix_newlines (String c s)) as H.
  destruct (strip_prefix (nl +:+ nl +:+ nl) (String c s)).
  - destruct H as [H _]. apply Nat.leb_le in H. rewrite H. reflexivity.
  - apply Nat.leb_gt in H. rewrite H. reflexivity.
Qed.

(** After the substitution no three line breaks are left in a row. *)
Lemma re_sub_newlines (fuel : nat) (s : string) :
  (String.length s <= fuel)%nat ->
  let out := re_sub_go fuel NEWLINES_RE (nl +:+ nl) s in
  leading_LF out = Nat.min (leading_LF s) 2
  /\ contains (nl +:+ nl +:+ nl) out = false.
Proof.
  revert s. induction fuel as [|fuel IH]; intros s Hlen.
  - destruct s; [|simpl in Hlen; lia]. split; reflexivity.
  - destruct s as [|c s]; [split; reflexivity|].
    cbn [re_sub_go]. rewrite match_rest_newlines.
    pose proof (strip_prefix_newlines (String c s)) as Hp.
    destruct (strip_prefix (nl +:+ nl +:+ nl) (String c s)) as [s3|].
    + destruct Hp as [Hlead Hl3].
      pose proof (drop_class_length is_LF s3) as Hd.
      assert (Hlt : (String.length (drop_class is_LF s3)
                     <? String.length (String c s))%nat = true)
        by (apply Nat.ltb_lt; lia).
      rewrite Hlt.
      destruct (IH (drop_class is_LF s3)) as [Hout Hfree].
      { simpl in Hlen, Hl3. lia. }
      rewrite drop_class_leading in Hout. cbn [Nat.min] in Hout.
      set (rest := re_sub_go fuel NEWLINES_RE (nl +:+ nl)
                     (drop_class is_LF s3)) in *.
      change ((nl +:+ nl) +:+ rest) with (String LF (String LF rest)).
      split.
      * cbn [leading_LF] in Hlead |- *. change (is_LF LF) with true.
        cbv iota. rewrite Hout. lia.
      * rewrite !contains_newlines_cons. cbn [leading_LF].
        change (is_LF LF) with true. cbv iota. rewrite Hout. simpl.
        exact Hfree.
    + destruct (IH s) as [Hout Hfree]; [simpl in Hlen; lia|].
      assert (Hgoal :
        let out := String c (re_sub_go fuel NEWLINES_RE (nl +:+ nl) s) in
        leading_LF out = Nat.min (leading_LF (String c s)) 2
        /\ contains (nl +:+ nl +:+ nl) out = false).
      { cbv zeta. rewrite contains_newlines_cons.
        cbn [leading_LF] in *. destruct (is_LF c).
        - rewrite Hout.
          assert (Hle : (leading_LF s <= 1)%nat) by lia.
          replace (Nat.min (leading_LF s) 2) with (leading_LF s) by lia.
          split; [lia|].
          assert (Hn : (3 <=? S (leading_LF s))%nat = false)
            by (apply Nat.leb_gt; lia).
          rewrite Hn. exact Hfree.
        - split; [reflexivity|]. simpl. exact Hfree. }
      exact Hgoal.
Qed.

Lemma contains_tail (sub : string) (c : ascii) (s : string) :
  contains sub (String c s) = false -> contains sub s = false.
Proof.
  cbn [contains]. destruct (strip_prefix sub (String c s)); [discriminate|].
  auto.
Qed.

Lemma lstrip_contains (sub s : string) :
  contains sub s = false -> contains sub (lstrip s) = false.
Proof.
  induction s as [|c s IH]; intros H; [exact H|]. cbn [lstrip].
  destruct (is_space c); [|exact H]. apply IH. eapply contains_tail, H.
Qed.

Lemma rstrip_prefix (s : string) : exists w, s = rstrip s +:+ w.
Proof.
  induction s as [|c s [w IH]]; [exists EmptyString; reflexivity|].
  cbn [rstrip]. destruct (rstrip s) as [|c' r] eqn:E.
  - destruct (is_space c).
    + exists (String c s). reflexivity.
    + exists w. rewrite append_cons. f_equal. exact IH.
  - exists w. rewrite append_cons. f_equal. exact IH.
Qed.

Lemma contains_app_l (sub a b : string) :
  contains sub a = true -> contains sub (a +:+ b) = true.
Proof.
  induction a as [|c a IH].
  - cbn [contains]. destruct (strip_prefix sub EmptyString) eqn:E;
      [|discriminate].
    intros _. apply strip_prefix_Some in E. simpl in E.
    destruct sub; [|discriminate]. destruct b; reflexivity.
  - rewrite append_cons. cbn [contains].
    destruct (strip_prefix sub (String c a)) as [r|] eqn:E.
    + intros _. apply strip_prefix_Some in E.
      rewrite <- append_cons, E, append_assoc, strip_prefix_app. reflexivity.
    + intros H. rewrite (IH H).
      destruct (strip_prefix sub (String c (a +:+ b))); reflexivity.
Qed.

Lemma rstrip_contains (sub s : string) :
  contains sub s = false -> contains sub (rstrip s) = false.
Proof.
  intros H. destruct (contains sub (rstrip s)) eqn:E; [|reflexivity].
  destruct (rstrip_prefix s) as [w Hw].
  rewrite Hw, (contains_app_l _ _ w E) in H. discriminate.
Qed.

Lemma rstrip_idem (s : string) : rstrip (rstrip s) = rstrip s.
Proof.
  induction s as [|c s IH]; [reflexivity|]. cbn [rstrip].
  destruct (rstrip s) as [|c' r] eqn:E.
  - destruct (is_space c) eqn:Ec; [reflexivity|]. simpl. rewrite Ec.
    reflexivity.
  - cbn [rstrip]. cbn [rstrip] in IH. rewrite IH. reflexivity.
Qed.

Lemma lstrip_rstrip (s : string) :
  lstrip s = s -> lstrip (rstrip s) = rstrip s.
Proof.
  destruct s as [|c s]; [reflexivity|]. cbn [lstrip].
  destruct (is_space c) eqn:Ec.
  - intros H. exfalso.
    assert (Hlen : forall t, (String.length (lstrip t) <= String.length t)%nat).
    { induction t as [|x t IHt]; simpl; [lia|].
      destruct (is_space x); simpl; lia. }
    pose proof (Hlen s) as Hl. rewrite H in Hl. simpl in Hl. lia.
  - intros _. cbn [rstrip].
    destruct (rstrip s); rewrite ?Ec; cbn [lstrip]; rewrite Ec; reflexivity.
Qed.

Lemma lstrip_idem (s : string) : lstrip (lstrip s) = lstrip s.
Proof.
  induction s as [|c s IH]; [reflexivity|]. cbn [lstrip].
  destruct (is_space c) eqn:Ec; [exact IH|]. cbn [lstrip]. rewrite Ec.
  reflexivity.
Qed.

(** X19.  The text that [normalize_linebreaks] returns never holds three
    line breaks in a row, and has no whitespace at its start or at its
    end. *)
Theorem normalize_linebreaks_shape (text : string) :
  let r := normalize_linebreaks text in
  contains (nl +:+ nl +:+ nl) r = false
  /\ lstrip r = r
  /\ rstrip r = r.
Proof.
  unfold normalize_linebreaks. cbv zeta.
  set (t := replace_str (String CR nl) nl (replace_str "\n" nl text)).
  unfold strip. split; [|split].
  - apply rstrip_contains, lstrip_contains.
    unfold re_sub. apply re_sub_newlines. lia.
  - apply lstrip_rstrip, lstrip_idem.
  - apply rstrip_idem.
Qed.

(** ** What PyPI and Bitbucket give *)

Section EnrichLinksFacts.

Variable json_loads : string -> result json.
Variable http_get : string -> result http_response.
Variable py_str : json -> string.
Variable exn_str : exn -> string.

Definition is_none_field (o : option json) : bool :=
  match o with
  | Some JNull => true
  | _ => false
  end.

Lemma dict_get_del {V : Type} (k k0 : string) (d : dict V) :
  dict_get k (dict_del k0 d)
  = if String.eqb k k0 then None else dict_get k d.
Proof.
  unfold dict_del. induction d as [|[k1 v1] d IH]; simpl.
  - destruct (String.eqb k k0); reflexivity.
  - destruct (String.eqb k0 k1) eqn:E01; simpl.
    + apply String.eqb_eq in E01. subst k1. rewrite IH.
      destruct (String.eqb k k0); reflexivity.
    + rewrite IH. destruct (String.eqb k k1) eqn:E1; [|reflexivity].
      apply String.eqb_eq in E1. subst k1.
      rewrite String.eqb_sym, E01. reflexivity.
Qed.

Lemma drop_none_field_spec (m : dict json) (k0 : string) (info1 : json) :
  EnrichLinks.drop_none_field (JObj m) k0 = Ok info1 ->
  exists m1,
    info1 = JObj m1
    /\ forall k, dict_get k m1
                 = if String.eqb k k0 && is_none_field (dict_get k m)
                   then None else dict_get k m.
Proof.
  unfold EnrichLinks.drop_none_field, mbind, result_bind, py_getitem.
  destruct (dict_get k0 m) as [v|] eqn:E0; [|discriminate].
  destruct (is_none v) eqn:En.
  - unfold py_delitem. rewrite E0. intros [= <-]. eexists. split; [reflexivity|].
    intros k. rewrite dict_get_del.
    destruct (String.eqb k k0) eqn:E; [|reflexivity].
    apply String.eqb_eq in E. subst k. rewrite E0.
    destruct v; try discriminate. reflexivity.
  - intros [= <-]. exists m. split; [reflexivity|].
    intros k. destruct (String.eqb k k0) eqn:E; [|reflexivity].
    apply String.eqb_eq in E. subst k. rewrite E0.
    destruct v; try discriminate; reflexivity.
Qed.

Lemma drop_none_fold_spec (keys : list string) (m : dict json) (info' : json) :
  fold_result EnrichLinks.drop_none_field keys (JObj m) = Ok info' ->
  exists m',
    info' = JObj m'
    /\ forall k, dict_get k m'
                 = if existsb (String.eqb k) keys
                      && is_none_field (dict_get k m)
                   then None else dict_get k m.
Proof.
  revert m. induction keys as [|k0 keys IH]; intros m; simpl.
  - intros [= <-]. exists m. split; [reflexivity|]. reflexivity.
  - destruct (EnrichLinks.drop_none_field (JObj m) k0) as [info1|] eqn:E;
      [|discriminate].
    apply drop_none_field_spec in E as (m1 & -> & H1).
    intros Hrest. destruct (IH m1 Hrest) as (m' & -> & H').
    exists m'. split; [reflexivity|].
    intros k. rewrite H', H1.
    destruct (String.eqb k k0); destruct (existsb (String.eqb k) keys);
      destruct (dict_get k m) as [[]|]; reflexivity.
Qed.

Lemma dict_get_key (k : string) (d : dict json) (v : json) :
  dict_get k d = Some v -> existsb (String.eqb k) (dict_keys d) = true.
Proof.
  induction d as [|[k0 v0] d IH]; simpl; [discriminate|].
  destruct (String.eqb k k0); [reflexivity|exact IH].
Qed.

(** X20.  When [get_pypi_project_info] returns a dictionary, it is the
    [info] object of the response without its fields whose value is [None],
    and with [releases] set to the list of the keys of the [releases] object
    of the response: no field of the result is [None]. *)
Theorem pypi_info_has_no_null_field (package_name : string)
    (members : dict json) :
  EnrichLinks.get_pypi_project_info json_loads http_get package_name
  = JObj members ->
  (forall k, dict_get k members <> Some JNull)
  /\ exists response data info names,
       http_get ("https://pypi.org/pypi/" +:+ package_name +:+ "/json")
       = Ok response
       /\ json_loads (text response) = Ok data
       /\ py_get data "info" (JObj []) = Ok (JObj info)
       /\ (py_get data "releases" (JObj []) ≫= py_iter) = Ok names
       /\ dict_get "releases" members = Some (JArr names)
       /\ forall k, k <> "releases" ->
                    dict_get k members
                    = if is_none_field (dict_get k info) then None
                      else dict_get k info.
Proof.
  unfold EnrichLinks.get_pypi_project_info, EnrichLinks.pypi_project_info_try.
  unfold mbind, result_bind.
  destruct (http_get _) as [response|] eqn:Eget; [|discriminate].
  destruct (raise_for_status response); [|discriminate].
  destruct (json_loads (text response)) as [data|] eqn:Edata; [|discriminate].
  destruct (py_get data "info" (JObj [])) as [info|] eqn:Einfo; [|discriminate].
  destruct (py_keys info) as [keys|] eqn:Ekeys; [|discriminate].
  destruct info as [| | | | |m]; try discriminate.
  injection Ekeys as <-.
  destruct (fold_result EnrichLinks.drop_none_field (dict_keys m) (JObj m))
    as [info'|] eqn:Efold; [|discriminate].
  apply drop_none_fold_spec in Efold as (m' & -> & Hm').
  cbn [py_setitem].
  destruct (py_get data "releases" (JObj [])) as [releases|] eqn:Er;
    [|discriminate].
  destruct (py_iter releases) as [names|] eqn:En; [|discriminate].
  intros [= <-].
  assert (Hfields : forall k, k <> "releases" ->
            dict_get k (dict_set "releases" (JArr names)
                          (dict_set "releases" (JArr []) m'))
            = if is_none_field (dict_get k m) then None else dict_get k m).
  { intros k Hk. rewrite !dict_get_set_other by exact Hk. rewrite Hm'.
    destruct (dict_get k m) as [v|] eqn:Ek.
    - rewrite (dict_get_key _ _ _ Ek). reflexivity.
    - destruct (existsb (String.eqb k) (dict_keys m)); reflexivity. }
  split.
  - intros k. destruct (String.eqb k "releases") eqn:E.
    + apply String.eqb_eq in E. subst k. rewrite dict_get_set_same.
      discriminate.
    + apply String.eqb_neq in E. rewrite (Hfields k E).
      destruct (dict_get k m) as [[]|]; discriminate.
  - exists response, data, m, names.
    split; [first [reflexivity|assumption]|].
    split; [first [reflexivity|assumption]|].
    split; [first [reflexivity|assumption]|].
    split; [unfold mbind, result_bind; rewrite ?Er, ?En; reflexivity|].
    split; [apply dict_get_set_same|exact Hfields].
Qed.

Lemma first_readme_spec (user repo : option string) (main_branch : string)
    (filenames : list string) (readme : string) :
  EnrichLinks.first_readme http_get user repo main_branch filenames
  = Ok (Some readme) ->
  strip readme <> EmptyString
  /\ exists before filename after response,
       filenames = before ++ filename :: after
       /\ http_get (EnrichLinks.bitbucket_raw_url user repo main_branch
                                                  filename) = Ok response
       /\ status_code response = 200
       /\ text response = readme
       /\ Forall (fun f =>
                    exists r,
                      http_get (EnrichLinks.bitbucket_raw_url user repo
                                                              main_branch f)
                      = Ok r
                      /\ (status_code r <> 200
                          \/ strip (text r) = EmptyString))
                 before.
Proof.
  induction filenames as [|f filenames IH]; simpl; [discriminate|].
  unfold mbind, result_bind.
  destruct (http_get (EnrichLinks.bitbucket_raw_url user repo main_branch f))
    as [response|] eqn:Eget; [|discriminate].
  destruct (status_code response =? 200) eqn:Es;
    destruct (String.eqb (strip (text response)) EmptyString) eqn:Eb; simpl.
  - intros H. destruct (IH H) as (Hne & before & filename & after & r & -> & Hr).
    split; [exact Hne|]. exists (f :: before), filename, after, r.
    split; [reflexivity|]. destruct Hr as (H1 & H2 & H3 & H4).
    repeat split; try assumption. constructor; [|exact H4].
    exists response. split; [exact Eget|]. right.
    apply String.eqb_eq in Eb. exact Eb.
  - intros [= <-]. apply String.eqb_neq in Eb. split; [exact Eb|].
    exists [], f, filenames, response. apply Z.eqb_eq in Es.
    repeat split; try assumption. constructor.
  - intros H. destruct (IH H) as (Hne & before & filename & after & r & -> & Hr).
    split; [exact Hne|]. exists (f :: before), filename, after, r.
    split; [reflexivity|]. destruct Hr as (H1 & H2 & H3 & H4).
    repeat split; try assumption. constructor; [|exact H4].
    exists response. split; [exact Eget|]. left.
    apply Z.eqb_neq in Es. exact Es.
  - intros H. destruct (IH H) as (Hne & before & filename & after & r & -> & Hr).
    split; [exact Hne|]. exists (f :: before), filename, after, r.
    split; [reflexivity|]. destruct Hr as (H1 & H2 & H3 & H4).
    repeat split; try assumption. constructor; [|exact H4].
    exists response. split; [exact Eget|]. left.
    apply Z.eqb_neq in Es. exact Es.
Qed.

(** X21.  A README that [get_bitbucket_readme] returns is the body of the
    first of the six candidate file names, in their order, on the main
    branch of the metadata ([master] without one), whose response has
    status 200 and a text that is not blank: every candidate before it was
    answered, with another status or a blank text. *)
Theorem bitbucket_readme_is_first_candidate (user repo : option string)
    (metadata : json) (readme : string) :
  EnrichLinks.get_bitbucket_readme http_get py_str user repo metadata
  = JStr readme ->
  strip readme <> EmptyString
  /\ exists branch before filename after response,
       py_get metadata "main_branch" JNull = Ok branch
       /\ let main_branch :=
            if truthy branch then EnrichLinks.fstring py_str branch
            else "master" in
          EnrichLinks.readme_candidates = before ++ filename :: after
          /\ http_get (EnrichLinks.bitbucket_raw_url user repo main_branch
                                                     filename) = Ok response
          /\ status_code response = 200
          /\ text response = readme
          /\ Forall (fun f =>
                       exists r,
                         http_get (EnrichLinks.bitbucket_raw_url
                                     user repo main_branch f) = Ok r
                         /\ (status_code r <> 200
                             \/ strip (text r) = EmptyString))
                    before.
Proof.
  unfold EnrichLinks.get_bitbucket_readme. unfold mbind, result_bind.
  destruct (py_get metadata "main_branch" JNull) as [branch|] eqn:Eb;
    [|discriminate].
  destruct (EnrichLinks.first_readme http_get user repo _ _)
    as [[found|]|] eqn:Ef; try discriminate.
  intros [= <-].
  destruct (first_readme_spec _ _ _ _ _ Ef)
    as (Hne & before & filename & after & response & H).
  split; [exact Hne|].
  exists branch, before, filename, after, response. split; [reflexivity|].
  exact H.
Qed.

End EnrichLinksFacts.

(** ** A Bitbucket link whose registry request fails *)

Section BitbucketFailure.

Variable tokenizer : string -> string -> nat.
Variable json_loads : string -> result json.
Variable head_url : string -> result string.
Variable http_get : string -> result http_response.
Variable url_quote : string -> string.
Variable request_github_metadata : string -> string -> json.
Variable request_github_readme : string -> string -> json.
Variable get_gitlab_repo_readme : string -> string -> json.
Variable get_pypi_project_info : string -> json.
Variable extract_sourceforge_project_info : option string -> json.
Variable get_link_content : string -> option string.
Variable extract_main_text_from_html : string -> result string.
Variable py_str : json -> string.
Variable exn_str : exn -> string.




End BitbucketFailure.


(** * Resuming a run from the results file *)

Section Resume.

Variable json_loads : string -> result json.
Variable OR_API_KEY HF_API_KEY : option string.
Variable http_post : string -> json -> nat -> result http_response.
Variable json_dumps_value : json -> string.
Variable open_error : string -> option exn.
Variable elapsed_seconds : json -> Q.

(** [make_inferences] started on the files [read_file]. *)
Definition make_inferences_on (read_file : string -> option string)
    (messages_dict : list (pykey * json))
    (model results_file_path raw_results_path provider : string) : io unit :=
  make_inferences json_loads read_file OR_API_KEY HF_API_KEY http_post
                  json_dumps_value open_error elapsed_seconds messages_dict
                  model results_file_path raw_results_path provider.

(** X23.  A run of [make_inferences] that ends well leaves a results file
    with which a second run over the same messages has nothing to do: the
    second run ends well and its trace holds log events only, so it calls
    no oracle client, posts no request, sleeps for no rate limit and writes
    no file.  This holds when the results file is outside the directory of
    the raw results, what was in it before the first run are lines of
    earlier runs, the second run reads what the first one wrote, and a
    dumped [{key: value}] is one line that decodes to something whose first
    key is [key]. *)
Theorem second_run_asks_nothing (read_before read_after : string -> option string)
    (messages_dict : list (pykey * json))
    (model results_file_path raw_results_path provider : string) :
  outcome (make_inferences_on read_before messages_dict model
             results_file_path raw_results_path provider) = Ok tt ->
  read_after results_file_path
  = file_after results_file_path (read_before results_file_path)
      (trace (make_inferences_on read_before messages_dict model
                results_file_path raw_results_path provider)) ->
  (forall content,
     read_before results_file_path = Some content ->
     exists old,
       content = ledger_text json_dumps_value old
       /\ Forall (fun kv => one_line json_dumps_value kv.1 kv.2) old) ->
  strip_prefix (raw_results_path +:+ "/") results_file_path = None ->
  (forall k value,
     KStr k ∈ map fst messages_dict ->
     records_key json_loads json_dumps_value k value) ->
  outcome (make_inferences_on read_after messages_dict model
             results_file_path raw_results_path provider) = Ok tt
  /\ Forall (fun ev => exists l, ev = EvLog l)
            (trace (make_inferences_on read_after messages_dict model
                      results_file_path raw_results_path provider)).
Proof.
  intros Hok Hafter Hold Hbelow Hcodec. unfold make_inferences_on in *.
  destruct (load_solved_conflict_keys_spec json_loads read_before
              results_file_path) as (lb & sb & Hlb & Hlogb & Hsb).
  destruct (load_solved_conflict_keys_spec json_loads read_after
              results_file_path) as (la & sa & Hla & Hloga & Hsa).
  destruct (make_inferences_ledger json_loads read_before OR_API_KEY
              HF_API_KEY http_post json_dumps_value open_error
              elapsed_seconds messages_dict model results_file_path
              raw_results_path provider lb sb Hlb Hlogb Hok Hbelow)
    as (new & Hfile & Hkeys & Hnew).
  apply (make_inferences_all_solved json_loads read_after OR_API_KEY
           HF_API_KEY http_post json_dumps_value open_error elapsed_seconds
           messages_dict model results_file_path raw_results_path provider
           la sa Hla Hloga).
  intros key Hin. rewrite Hfile in Hafter.
  assert (Hone : Forall (fun kv => one_line json_dumps_value kv.1 kv.2) new).
  { apply Forall_forall. intros [k v] Hkv.
    destruct (Hcodec k v (Hnew k v Hkv)) as [H _]. exact H. }
  assert (Hwritten : forall k v,
    (k, v) ∈ new ->
    line_key json_loads (ledger_line json_dumps_value k v) (KStr k)).
  { intros k v Hkv.
    destruct (Hcodec k v (Hnew k v Hkv)) as [[_ Hs] He].
    split; [exact Hs|exact He]. }
  assert (Hline : forall (all : list (string * json)) k v,
    (k, v) ∈ all ->
    ledger_line json_dumps_value k v
    ∈ map (fun kv => ledger_line json_dumps_value kv.1 kv.2) all).
  { intros all k v Hkv. apply list_elem_of_In, in_map_iff.
    exists (k, v). split; [reflexivity|]. apply list_elem_of_In. exact Hkv. }
  revert Hsb Hafter Hold.
  destruct (read_before results_file_path) as [content|];
    intros Hsb Hafter Hold.
  - destruct (Hold content eq_refl) as (old & -> & Hone_old).
    rewrite append_lines_text in Hafter. rewrite Hafter in Hsa.
    rewrite ledger_text_lines in Hsa
      by (apply Forall_app; split; assumption).
    rewrite ledger_text_lines in Hsb by assumption.
    apply Hsa.
    destruct (Hkeys key Hin) as [Hs|(k & v & -> & Hkv)].
    + apply Hsb in Hs as (line & Hl & Hlk). exists line.
      split; [|exact Hlk].
      rewrite map_app. apply elem_of_app. left. exact Hl.
    + exists (ledger_line json_dumps_value k v).
      split; [|exact (Hwritten k v Hkv)].
      apply Hline, elem_of_app. right. exact Hkv.
  - destruct Hsb as [-> _].
    destruct (Hkeys key Hin) as [Hs|(k & v & -> & Hkv)];
      [apply elem_of_empty in Hs; contradiction|].
    rewrite append_lines_new in Hafter
      by (intros ->; inversion Hkv).
    rewrite Hafter in Hsa.
    rewrite ledger_text_lines in Hsa by assumption.
    apply Hsa. exists (ledger_line json_dumps_value k v).
    split; [|exact (Hwritten k v Hkv)].
    apply Hline. exact Hkv.
Qed.

End Resume.

(** * Worked examples

    A small closed environment: a tokenizer that counts characters, a
    decoder that knows the two JSON texts used below, a network without
    redirects where the first request of a client call fails and the next
    succeeds, and no ledger file. *)

Definition dq : string := String (ascii_of_nat 34) EmptyString.

Definition sample_tokenizer (model text : string) : nat := String.length text.

Definition sample_json_dumps (e : entry) : string := "{}".

(** [{"verdict": "Same", "confidence": 0.9}] *)
Definition sample_verdict_text : string :=
  "{" +:+ dq +:+ "verdict" +:+ dq +:+ ": " +:+ dq +:+ "Same" +:+ dq +:+ ", "
  +:+ dq +:+ "confidence" +:+ dq +:+ ": 0.9}".

Definition sample_verdict : json :=
  JObj [("verdict", JStr "Same"); ("confidence", JNum (9 # 10))].

(** [{"choices": [{"message": {"content": "Same"}}]}] *)
Definition sample_body_text : string :=
  "{" +:+ dq +:+ "choices" +:+ dq +:+ ": [{" +:+ dq +:+ "message" +:+ dq
  +:+ ": {" +:+ dq +:+ "content" +:+ dq +:+ ": " +:+ dq +:+ "Same" +:+ dq
  +:+ "}}]}".

Definition sample_body : json :=
  JObj [("choices",
         JArr [JObj [("message", JObj [("content", JStr "Same")])]])].

(** A ledger line, [{"caseA": {"verdict": "Same", "confidence": 0.9}}]. *)
Definition sample_ledger_line : string :=
  "{" +:+ dq +:+ "caseA" +:+ dq +:+ ": " +:+ sample_verdict_text +:+ "}"
  +:+ nl.

Definition sample_json_loads (s : string) : result json :=
  if String.eqb s sample_verdict_text then Ok sample_verdict
  else if String.eqb s sample_body_text then Ok sample_body
  else if String.eqb s sample_ledger_line
       then Ok (JObj [("caseA", sample_verdict)])
  else Raise (JSONDecodeError "Expecting value").

(** A ledger of three lines: a record, a blank line, a torn line. *)
Definition sample_ledger : string :=
  sample_ledger_line +:+ "  " +:+ nl +:+ "{" +:+ dq +:+ "caseB" +:+ nl.

Definition sample_ledger_file (path : string) : option string :=
  if String.eqb path "results.jsonl" then Some sample_ledger else None.

Definition sample_head_url (u : string) : result string := Ok u.

Definition sample_http_get (u : string) : result http_response :=
  Raise (RequestException "unreachable").

Definition sample_http_post (u : string) (payload : json) (attempt : nat)
    : result http_response :=
  match attempt with
  | 1%nat => Raise (RequestException "connection reset")
  | _ => Ok {| status_code := 200; text := sample_body_text |}
  end.

Definition sample_read_file (path : string) : option string := None.

Definition sample_entry_1 : entry :=
  {| descriptive := [("name", JStr "tool")];
     webpage := Some ["https://example.org/tool"];
     repository :=
       Some [{| kind := Some "github";
                url := Some "https://github.com/org/tool" |}] |}.

Definition sample_entry_2 : entry :=
  {| descriptive := [("name", JStr "Tool")];
     webpage := Some ["https://example.org/tool"];
     repository :=
       Some [{| kind := Some "github";
                url := Some "https://github.com/org/tool" |}] |}.

Definition sample_conflict : conflict_group :=
  {| cg_disconnected := [sample_entry_1]; cg_remaining := [sample_entry_2] |}.

(** [build_full_conflict] in the sample environment. *)
Definition sample_build_full_conflict (conflict : conflict_group)
    : io conflict_data :=
  build_full_conflict sample_tokenizer sample_json_loads sample_head_url
    sample_http_get (fun s => s) (fun _ _ => JNull) (fun _ _ => JNull)
    (fun _ _ => JNull) (fun _ => JNull) (fun _ _ => JNull)
    (fun _ _ _ => JNull) (fun _ => JNull) (fun _ => None) (fun s => Ok s)
    conflict 8000 "gpt-4".

(** [enrich_link] in the sample environment. *)
Definition sample_enrich_link (link : string) : result (dict json) :=
  enrich_link sample_json_loads sample_head_url sample_http_get (fun s => s)
    (fun _ _ => JNull) (fun _ _ => JNull) (fun _ _ => JNull) (fun _ => JNull)
    (fun _ _ => JNull) (fun _ _ _ => JNull) (fun _ => JNull) (fun _ => None)
    (fun s => Ok s) link.




(** C7 at a text of three words and two entries, with 8000 tokens per
    chunk: one chunk each, nothing dropped. *)
Lemma chunk_token_bound_witness :
  concat (chunk_entries sample_tokenizer sample_json_dumps 8000 "gpt-4"
                        [sample_entry_1; sample_entry_2])
  = [sample_entry_1; sample_entry_2].
Proof.
  destruct (chunk_token_bound sample_tokenizer sample_json_dumps 8000 "gpt-4"
              "alpha beta gamma" [sample_entry_1; sample_entry_2])
    as [_ [H _]]; [lia|exact H].
Defined.

(** C6, as amended, at a text with a doubled space: the chunks join to the
    words separated by single spaces. *)
Lemma chunk_text_rejoin_witness :
  join " " (chunk_text sample_tokenizer "alpha  beta gamma" 8000 "gpt-4")
  = "alpha beta gamma".
Proof.
  destruct (chunk_text_rejoin sample_tokenizer "alpha  beta gamma" 8000 "gpt-4")
    as [H _]; [|exact H].
  intros w ws Hw. vm_compute in Hw. injection Hw as <- _.
  vm_compute. discriminate.
Defined.

(** C6 as stated fails: for the text [a  b] with two spaces, whatever the
    tokenizer counts, the chunks joined with single spaces are not the
    text. *)
Lemma chunk_text_rejoin_counterexample :
  ~ exists tokenizer : string -> string -> nat,
      join " " (chunk_text tokenizer "a  b" 8000 "gpt-4") = "a  b".
Proof.
  intros [tokenizer H]. unfold chunk_text in H.
  change (split_ws "a  b") with ["a"; "b"] in H. simpl fold_left in H.
  unfold chunk_text_step in H. simpl in H.
  repeat match type of H with
         | context [?x >? 8000] => destruct (x >? 8000); simpl in H
         end;
    vm_compute in H; discriminate.
Qed.


(** C4 at [https://gitlab.com/foo], a GitLab address without a project
    path, in an environment without redirects: [enrich_link] raises. *)
Lemma enrich_link_gitlab_raises_witness :
  sample_enrich_link "https://gitlab.com/foo"
  = Raise (ValueError "Invalid GitLab repository URL.").
Proof.
  unfold sample_enrich_link.
  refine (proj1 (enrich_link_gitlab_raises _ _ _ _ _ _ _ _ _ _ _ _ _
                   "https://gitlab.com/foo" "https://gitlab.com/foo"
                   (ValueError "Invalid GitLab repository URL.")
                   _ _ _ _ _)).
  - reflexivity.
  - discriminate.
  - vm_compute. reflexivity.
  - vm_compute. reflexivity.
  - vm_compute. reflexivity.
Defined.

(** C5, as amended, at two entries that reference the same pages: both come
    out of [build_full_conflict] as they went in. *)
Lemma partitions_keep_references_witness :
  exists full,
    outcome (sample_build_full_conflict sample_conflict) = Ok full
    /\ disconnected full = [sample_entry_1]
    /\ remaining full = [sample_entry_2].
Proof.
  assert (E : exists full,
             outcome (sample_build_full_conflict sample_conflict) = Ok full).
  { vm_compute. eexists. reflexivity. }
  destruct E as [full E]. exists full. split; [exact E|].
  unfold sample_build_full_conflict in E.
  destruct (partitions_keep_references _ _ _ _ _ _ _ _ _ _ _ _ _ _ _ _ _ _ E)
    as (Hd & Hr & _).
  split; [exact Hd|exact Hr].
Defined.

(** C5 as stated fails: the entry placed in the [disconnected] partition
    still has its [webpage] and [repository] lists. *)
Lemma partitions_keep_references_counterexample :
  exists full e,
    outcome (sample_build_full_conflict sample_conflict) = Ok full
    /\ disconnected full = [e]
    /\ webpage e = Some ["https://example.org/tool"]
    /\ repository e
       = Some [{| kind := Some "github";
                  url := Some "https://github.com/org/tool" |}].
Proof.
  eexists. exists sample_entry_1.
  split; [vm_compute; reflexivity|]. repeat split.
Qed.






(** C10 without a ledger file: the solved set is empty and nothing is
    logged. *)
Lemma missing_ledger_is_empty_witness :
  load_solved_conflict_keys sample_json_loads sample_read_file
                            "data/results.jsonl"
  = IO [] (Ok ∅).
Proof.
  refine (proj1 (missing_ledger_is_empty sample_json_loads sample_read_file
                   None None sample_http_post (fun _ => "") (fun _ => None)
                   (fun _ => 0%Q) "data/results.jsonl" _)).
  reflexivity.
Defined.


(** A tokenizer for which every text is over the budget, and the rendered
    templates of the benchmarking prompts. *)
Definition heavy_tokenizer (model text : string) : nat := Z.to_nat 200000.

Definition sample_templates : dict string :=
  [("prompt_benchmarking_chat_style", "Do the two entries describe the same software?");
   ("prompt_benchmarking_flattened_style", "Do the two entries describe the same software?")].

Definition heavy_build_full_conflict (conflict : conflict_group)
    : io conflict_data :=
  build_full_conflict heavy_tokenizer sample_json_loads sample_head_url
    sample_http_get (fun s => s) (fun _ _ => JNull) (fun _ _ => JNull)
    (fun _ _ => JNull) (fun _ => JNull) (fun _ _ => JNull)
    (fun _ _ _ => JNull) (fun _ => JNull) (fun _ => None) (fun s => Ok s)
    conflict 8000 "gpt-4".

Definition heavy_full_conflict : conflict_data :=
  Eval vm_compute in
    match outcome (heavy_build_full_conflict sample_conflict) with
    | Ok full => full
    | Raise _ =>
        {| disconnected := []; remaining := []; webpage_contents := None |}
    end.

Definition heavy_prepare_messages_file
    (conflicts : list (string * conflict_group))
    (messages_file_path prompt_type : string) : io unit :=
  prepare_messages_file heavy_tokenizer sample_json_dumps (fun _ => "[]")
    (fun _ => "") sample_json_loads (fun _ => "") (fun _ => None)
    sample_head_url sample_http_get (fun s => s) (fun _ _ => JNull)
    (fun _ _ => JNull) (fun _ _ => JNull) (fun _ => JNull) (fun _ _ => JNull)
    (fun _ _ _ => JNull) (fun _ => JNull) (fun _ => None) (fun s => Ok s)
    sample_templates (fun s => s) (fun _ => None)
    conflicts messages_file_path prompt_type.

(** C1 at a conflict whose messages are over the budget: preparing the
    messages file in chat style raises [ValueError]. *)
Lemma budget_enforcement_witness :
  exists msg,
    outcome (heavy_prepare_messages_file [("caseA", sample_conflict)]
                                         "messages.jsonl" "chat")
    = Raise (ValueError msg).
Proof.
  destruct (budget_enforcement heavy_tokenizer sample_json_dumps
              (fun _ => "[]") (fun _ => "") sample_json_loads (fun _ => "")
              (fun _ => None) sample_head_url sample_http_get (fun s => s)
              (fun _ _ => JNull) (fun _ _ => JNull) (fun _ _ => JNull)
              (fun _ => JNull) (fun _ _ => JNull) (fun _ _ _ => JNull)
              (fun _ => JNull) (fun _ => None) (fun s => Ok s)
              sample_templates (fun s => s) (fun _ => None)
              "Do the two entries describe the same software?"
              (rebalance heavy_full_conflict)
              "The first software metadata_entry"
              "The second software metadata_entry" 8000 "gpt-4")
    as (_ & _ & _ & H).
  destruct (H "chat" "caseA" sample_conflict heavy_full_conflict
              "messages.jsonl" [] []) as [Hraise _].
  - vm_compute. reflexivity.
  - left. repeat split.
  - reflexivity.
  - reflexivity.
  - reflexivity.
  - reflexivity.
  - vm_compute. reflexivity.
  - intros item [].
  - exact Hraise.
Defined.


(** [make_inferences] over the sample ledger. *)
Definition sample_make_inferences (messages_dict : list (pykey * json))
    : io unit :=
  make_inferences sample_json_loads sample_ledger_file (Some "sk-or-0000")
    (Some "hf_0000") sample_http_post (fun _ => "") (fun _ => None)
    (fun _ => 0%Q) messages_dict "model" "results.jsonl" "raw" "openrouter".

(** C2 at a ledger that records [caseA]: a run over [caseA] and [caseB]
    makes no oracle call for [caseA]. *)
Lemma solved_keys_never_queried_witness :
  KStr "caseA"
  ∉ query_keys (trace (sample_make_inferences
                         [(KStr "caseA", JArr []); (KStr "caseB", JArr [])])).
Proof.
  destruct (solved_keys_never_queried sample_json_loads sample_ledger_file
              (Some "sk-or-0000") (Some "hf_0000") sample_http_post
              (fun _ => "") (fun _ => None) (fun _ => 0%Q) "results.jsonl"
              [(KStr "caseA", JArr []); (KStr "caseB", JArr [])]
              "model" "raw" "openrouter")
    as (logged & solved & _ & _ & Hkeys & Hq).
  apply Hq.
  destruct (Hkeys sample_ledger eq_refl) as [_ Hobj].
  apply (Hobj sample_ledger_line "caseA" sample_verdict []).
  - apply list_elem_of_In. vm_compute. left. reflexivity.
  - vm_compute. discriminate.
  - vm_compute. reflexivity.
Defined.

(** The run above calls the oracle for [caseB] only. *)
Example sample_run_queries :
  query_keys (trace (sample_make_inferences
                       [(KStr "caseA", JArr []); (KStr "caseB", JArr [])]))
  = [KStr "caseB"]
  /\ outcome (load_solved_conflict_keys sample_json_loads sample_ledger_file
                                        "results.jsonl")
     = Ok {[ KStr "caseA" ]}.
Proof. vm_compute. split; reflexivity. Qed.

(** The two sample entries reference the same two URLs; each is enriched
    once. *)
Example sample_enrich_calls :
  length (enrich_calls (trace (sample_build_full_conflict sample_conflict)))
  = 2%nat.
Proof. vm_compute. reflexivity. Qed.

(** A first word over the limit closes the still empty first chunk. *)
Example chunk_text_oversized_first_word :
  chunk_text sample_tokenizer "abcdefgh x" 3 "gpt-4" = [""; "abcdefgh"; "x"].
Proof. vm_compute. reflexivity. Qed.


(** * Worked examples of the further properties

    The environment of the examples above, with a writer that produces the
    ledger line of [caseA], a directory that cannot be created, and a
    registry and a repository host that answer every request. *)

(** [{"caseA": {"verdict": "Same", "confidence": 0.9}}], without the line
    break. *)
Definition sample_record_text : string :=
  "{" +:+ dq +:+ "caseA" +:+ dq +:+ ": " +:+ sample_verdict_text +:+ "}".

Definition sample_json_dumps_value (value : json) : string :=
  sample_record_text.

Definition sample_written_file (path : string) : option string :=
  Some (ledger_text sample_json_dumps_value [("caseA", sample_verdict)]).

Definition sample_makedirs_error (path : string) : option exn :=
  Some (OSError "Permission denied").

(** [prepare_messages_file]'s loop body where the directory of the messages
    file cannot be created. *)
Definition sample_prepare_messages_body (path prompt_type : string)
    (item : string * conflict_group) : io unit :=
  prepare_messages_body sample_tokenizer sample_json_dumps (fun _ => "[]")
    (fun _ => "") sample_json_loads (fun _ => "") (fun _ => None)
    sample_head_url sample_http_get (fun s => s) (fun _ _ => JNull)
    (fun _ _ => JNull) (fun _ _ => JNull) (fun _ => JNull) (fun _ _ => JNull)
    (fun _ _ _ => JNull) (fun _ => JNull) (fun _ => None) (fun s => Ok s)
    sample_templates (fun s => s) sample_makedirs_error path prompt_type item.

Definition sample_prepare_messages_file
    (conflicts : list (string * conflict_group))
    (messages_file_path prompt_type : string) : io unit :=
  prepare_messages_file sample_tokenizer sample_json_dumps (fun _ => "[]")
    (fun _ => "") sample_json_loads (fun _ => "") (fun _ => None)
    sample_head_url sample_http_get (fun s => s) (fun _ _ => JNull)
    (fun _ _ => JNull) (fun _ _ => JNull) (fun _ => JNull) (fun _ _ => JNull)
    (fun _ _ _ => JNull) (fun _ => JNull) (fun _ => None) (fun s => Ok s)
    sample_templates (fun s => s) (fun _ => None)
    conflicts messages_file_path prompt_type.

(** X2 at an entry of two tokens and a limit of one: the first chunk is
    empty and the entry is kept. *)
Lemma oversized_first_entry_empty_part_witness :
  exists chunks,
    chunk_entries sample_tokenizer sample_json_dumps 1 "gpt-4"
                  [sample_entry_1] = [] :: chunks
    /\ concat chunks = [sample_entry_1].
Proof.
  destruct (oversized_first_entry_empty_part sample_tokenizer
              sample_json_dumps (fun _ => "[]") 1 "gpt-4" sample_entry_1 []
              "The first software metadata_entry")
    as (chunks & later & H1 & H2 & _).
  - vm_compute. reflexivity.
  - exists chunks. split; assumption.
Defined.

(** X4 at the two sample entries, without webpage contents. *)
Lemma benchmark_pair_prompt_layout_witness :
  exists messages,
    build_prompt_benchmarking sample_tokenizer sample_json_dumps
      (fun _ => "[]") (fun _ => "") sample_templates (fun s => s)
      {| disconnected := [sample_entry_1]; remaining := [sample_entry_2];
         webpage_contents := Some [] |} "chat"
    = Ok (ChatMessages messages)
    /\ length messages = 4%nat.
Proof.
  eexists. split.
  - apply (benchmark_pair_prompt_layout sample_tokenizer sample_json_dumps
             (fun _ => "[]") (fun _ => "") sample_templates (fun s => s)
             sample_entry_1 sample_entry_2 []
             "Do the two entries describe the same software?").
    + reflexivity.
    + vm_compute. discriminate.
    + vm_compute. discriminate.
    + vm_compute. discriminate.
  - reflexivity.
Defined.

(** X5 at the prompt type [plain]. *)
Lemma unknown_prompt_type_fails_late_witness :
  outcome (sample_prepare_messages_file [("caseA", sample_conflict)]
                                        "messages.jsonl" "plain")
  = Raise (TypeError "object of type 'NoneType' has no len()").
Proof.
  unfold sample_prepare_messages_file.
  refine (proj1 (unknown_prompt_type_fails_late _ _ _ _ _ _ _ _ _ _ _ _ _ _
                   _ _ _ _ _ _ _ _ "messages.jsonl" "plain" "caseA"
                   sample_conflict [] _ _ _ _)).
  - discriminate.
  - discriminate.
  - vm_compute. reflexivity.
Defined.

(** X6 where the directory of the messages file cannot be created. *)
Lemma unwritable_messages_file_is_silent_witness :
  exists tr,
    sample_prepare_messages_body "out/messages.jsonl" "chat"
                                 ("caseA", sample_conflict)
    = IO tr (Ok tt).
Proof.
  eexists. unfold sample_prepare_messages_body.
  refine (proj1 (unwritable_messages_file_is_silent _ _ _ _ _ _ _ _ _ _ _ _
                   _ _ _ _ _ _ _ _ _ _ "out/messages.jsonl" "chat" "caseA"
                   sample_conflict _ _ _ _ _ _ _)).
  - left. discriminate.
  - vm_compute. reflexivity.
  - vm_compute. reflexivity.
  - vm_compute. reflexivity.
Defined.

(** X7 at [caseB], answered with [Same] on the second request. *)
Lemma answered_conflict_is_recorded_witness :
  outcome (make_inferences_body sample_json_loads (Some "sk-or-0000")
             (Some "hf_0000") sample_http_post sample_json_dumps_value
             (fun _ => None) (fun _ => 0%Q) ∅ "model" "results.jsonl" "raw"
             "openrouter" (KStr "caseB", JArr []))
  = Ok tt.
Proof.
  refine (proj1 (answered_conflict_is_recorded sample_json_loads
                   (Some "sk-or-0000") (Some "hf_0000") sample_http_post
                   sample_json_dumps_value (fun _ => None) (fun _ => 0%Q)
                   ∅ "model" "results.jsonl" "raw" "openrouter" "caseB"
                   (JArr []) _ _ _ _ _ _ _ _ _)).
  - apply not_elem_of_empty.
  - lazy. reflexivity.
  - reflexivity.
  - lazy. reflexivity.
Defined.

(** X8 at a key that is not a text: the iteration raises after the oracle
    answered, and [caseB] is never reached. *)
Lemma inference_failure_stops_the_run_witness :
  exists e,
    outcome (make_inferences sample_json_loads sample_read_file
               (Some "sk-or-0000") (Some "hf_0000") sample_http_post
               sample_json_dumps_value (fun _ => None) (fun _ => 0%Q)
               ([] ++ (KNone, JArr []) :: [(KStr "caseB", JArr [])])
               "model" "results.jsonl" "raw" "openrouter")
    = Raise e.
Proof.
  eexists.
  refine (proj1 (inference_failure_stops_the_run sample_json_loads
                   sample_read_file (Some "sk-or-0000") (Some "hf_0000")
                   sample_http_post sample_json_dumps_value (fun _ => None)
                   (fun _ => 0%Q) [] [(KStr "caseB", JArr [])] KNone
                   (JArr []) "model" "results.jsonl" "raw" "openrouter"
                   _ [] ∅ _ _ _)).
  - reflexivity.
  - intros item [].
  - vm_compute. reflexivity.
Defined.

(** X11 at a GitLab address without a project path. *)
Lemma enrich_link_failure_modes_witness :
  exists resolved,
    sample_head_url "https://gitlab.com/foo" = Ok resolved
    /\ resolved <> EmptyString.
Proof.
  destruct (enrich_link_failure_modes sample_json_loads sample_head_url
              sample_http_get (fun s => s) (fun _ _ => JNull)
              (fun _ _ => JNull) (fun _ _ => JNull) (fun _ => JNull)
              (fun _ _ => JNull) (fun _ _ _ => JNull) (fun _ => JNull)
              (fun _ => None) (fun s => Ok s) "https://gitlab.com/foo"
              (ValueError "Invalid GitLab repository URL."))
    as (resolved & H1 & H2 & _).
  - vm_compute. reflexivity.
  - exists resolved. split; assumption.
Defined.

(** X12 at the sample conflict: the page both entries reference is
    enriched. *)
Lemma every_referenced_link_is_enriched_witness :
  "https://example.org/tool"
  ∈ enrich_calls (trace (sample_build_full_conflict sample_conflict)).
Proof.
  unfold sample_build_full_conflict.
  destruct (every_referenced_link_is_enriched sample_tokenizer
              sample_json_loads sample_head_url sample_http_get (fun s => s)
              (fun _ _ => JNull) (fun _ _ => JNull) (fun _ _ => JNull)
              (fun _ => JNull) (fun _ _ => JNull) (fun _ _ _ => JNull)
              (fun _ => JNull) (fun _ => None) (fun s => Ok s)
              sample_conflict 8000 "gpt-4"
              match outcome (sample_build_full_conflict sample_conflict) with
              | Ok full => full
              | Raise _ =>
                  {| disconnected := []; remaining := [];
                     webpage_contents := None |}
              end)
    as (d & _ & _ & Hcalls).
  - vm_compute. reflexivity.
  - apply Hcalls. split; [discriminate|].
    exists sample_entry_1. split.
    + apply list_elem_of_In. left. reflexivity.
    + apply list_elem_of_In. left. reflexivity.
Defined.

(** X13 at a results file of one line. *)
Lemma results_file_round_trip_witness :
  load_solved_conflict_keys sample_json_loads sample_written_file
                            "results.jsonl"
  = IO [] (Ok (list_to_set [KStr "caseA"])).
Proof.
  refine (proj1 (results_file_round_trip sample_json_loads
                   sample_written_file sample_json_dumps_value
                   (fun _ => Raise StopIteration) "results.jsonl"
                   [("caseA", sample_verdict)] _ _)).
  - constructor; [|constructor]. split; [split|].
    + vm_compute. reflexivity.
    + vm_compute. discriminate.
    + vm_compute. reflexivity.
  - reflexivity.
Defined.

(** X17 at a conflict that is not in the results file: the production loop
    raises. *)
Lemma production_loop_resolves_nothing_witness :
  exists e,
    outcome (disambiguate_disconnected_entries sample_json_loads
               sample_read_file [("caseA", JNull)] []
               [("caseA", JNull)] "results.jsonl")
    = Raise e.
Proof.
  destruct (production_loop_resolves_nothing sample_json_loads
              sample_read_file [("caseA", JNull)] []
              [("caseA", JNull)] "results.jsonl" [] ∅ eq_refl)
    as (_ & _ & H).
  apply H. exists "caseA". split; [|split].
  - apply list_elem_of_In. left. reflexivity.
  - discriminate.
  - apply not_elem_of_empty.
Defined.

(** X18 at one group with one instance. *)
Lemma instances_are_filed_under_their_id_witness :
  exists instances_keys,
    build_instances_keys_dict
      (JObj [("tool/cmd",
              JObj [("instances", JArr [JObj [("_id", JStr "a1")]])])])
    = Ok instances_keys
    /\ NoDup (map fst instances_keys).
Proof.
  eexists. split.
  - vm_compute. reflexivity.
  - refine (proj1 (instances_are_filed_under_their_id
                     (JObj [("tool/cmd",
                             JObj [("instances",
                                    JArr [JObj [("_id", JStr "a1")]])])])
                     _ _)).
    vm_compute. reflexivity.
Defined.

(** A registry that answers every request with the same package record,
    whose [license] is null. *)
Definition sample_registry_get (u : string) : result http_response :=
  Ok {| status_code := 200; text := "package" |}.

Definition sample_registry_loads (s : string) : result json :=
  Ok (JObj [("info", JObj [("name", JStr "tool"); ("license", JNull)]);
            ("releases", JObj [("1.0", JArr [])])]).

(** X20 at that registry. *)
Lemma pypi_info_has_no_null_field_witness :
  exists members,
    EnrichLinks.get_pypi_project_info sample_registry_loads
                                      sample_registry_get "tool"
    = JObj members
    /\ dict_get "license" members <> Some JNull
    /\ dict_get "name" members = Some (JStr "tool").
Proof.
  eexists. split; [vm_compute; reflexivity|]. split.
  - refine (proj1 (pypi_info_has_no_null_field sample_registry_loads
                     sample_registry_get "tool" _ _) "license").
    vm_compute. reflexivity.
  - vm_compute. reflexivity.
Defined.

(** A repository host that answers every request with the same text. *)
Definition sample_host_get (u : string) : result http_response :=
  Ok {| status_code := 200; text := "A tool." |}.

(** X21 at that host. *)
Lemma bitbucket_readme_is_first_candidate_witness :
  EnrichLinks.get_bitbucket_readme sample_host_get (fun _ => "main")
    (Some "org") (Some "tool") (JObj [("main_branch", JStr "main")])
  = JStr "A tool."
  /\ strip "A tool." <> EmptyString.
Proof.
  split; [vm_compute; reflexivity|].
  refine (proj1 (bitbucket_readme_is_first_candidate sample_host_get
                   (fun _ => "main") (Some "org") (Some "tool")
                   (JObj [("main_branch", JStr "main")]) "A tool." _)).
  vm_compute. reflexivity.
Defined.


(** The first run of the example below, and the files its second run
    reads. *)
Definition sample_first_run : io unit :=
  make_inferences_on sample_json_loads (Some "sk-or-0000") (Some "hf_0000")
    sample_http_post sample_json_dumps_value (fun _ => None) (fun _ => 0%Q)
    sample_read_file [(KStr "caseA", JArr [])] "model" "results.jsonl" "raw"
    "openrouter".

Definition sample_files_after (path : string) : option string :=
  file_after "results.jsonl" (sample_read_file "results.jsonl")
             (trace sample_first_run).

(** X23 at a first run that asks for [caseA]: the second run ends well. *)
Lemma second_run_asks_nothing_witness :
  query_keys (trace sample_first_run) = [KStr "caseA"]
  /\ outcome (make_inferences_on sample_json_loads (Some "sk-or-0000")
                (Some "hf_0000") sample_http_post sample_json_dumps_value
                (fun _ => None) (fun _ => 0%Q) sample_files_after
                [(KStr "caseA", JArr [])] "model" "results.jsonl" "raw"
                "openrouter")
     = Ok tt.
Proof.
  split; [vm_compute; reflexivity|].
  refine (proj1 (second_run_asks_nothing sample_json_loads
                   (Some "sk-or-0000") (Some "hf_0000") sample_http_post
                   sample_json_dumps_value (fun _ => None) (fun _ => 0%Q)
                   sample_read_file sample_files_after
                   [(KStr "caseA", JArr [])] "model" "results.jsonl" "raw"
                   "openrouter" _ _ _ _ _)).
  - vm_compute. reflexivity.
  - reflexivity.
  - intros content H. discriminate H.
  - vm_compute. reflexivity.
  - intros k value Hk. apply list_elem_of_In in Hk.
    destruct Hk as [Hk|[]]. injection Hk as <-.
    split; [split|].
    + vm_compute. reflexivity.
    + vm_compute. discriminate.
    + eexists. split; vm_compute; reflexivity.
Defined.
